(** * Prayer-times calendar: the CSV row generator

    A shallow embedding of [prayer_times_calendar.py] and the properties
    of its row generator [convert_entries_to_csv_lines].

    The library functions are those of CPython 3.11 on a system with
    glibc.  Python values are embedded as follows.
    - [str] is [string]; a character is a code point below 256.
    - the JSON data of the collaborator (a [dict] of [Any]) is [pyobj];
      a [dict] is an association list in insertion order, with pairwise
      distinct keys.
    - [datetime.datetime] is the record [datetime] of its seven fields and
      its optional UTC offset; [datetime.timedelta] is its total number of
      microseconds.
    - a raised exception is the left summand of [result]. *)

From Stdlib Require Import ZArith List Lia Bool Ascii String Permutation.
Import ListNotations.

Local Open Scope string_scope.
Local Open Scope Z_scope.

(** ** Exceptions *)

Inductive exn : Type :=
| KeyError
| TypeError
| AttributeError
| IndexError
| ValueError
| OverflowError
| AssertionError
| ZeroDivisionError
| ConnectionError.

Definition result (A : Type) : Type := (exn + A)%type.

Definition ret {A : Type} (a : A) : result A := inr a.
Definition raise {A : Type} (e : exn) : result A := inl e.

Definition bind {A B : Type} (m : result A) (k : A -> result B) : result B :=
  match m with
  | inl e => inl e
  | inr a => k a
  end.

Declare Scope result_scope.
Delimit Scope result_scope with result.
Notation "x <- m ;; k" := (bind m (fun x => k))
  (at level 61, m at next level, right associativity) : result_scope.
Local Open Scope result_scope.

(** [mapM f l]: a loop that computes [f] on each element in turn and
    collects the results; the first exception ends it. *)
Fixpoint mapM {A B : Type} (f : A -> result B) (l : list A) : result (list B) :=
  match l with
  | [] => ret []
  | a :: l' =>
      b <- f a ;;
      bs <- mapM f l' ;;
      ret (b :: bs)
  end.

(** ** The proleptic Gregorian calendar of [datetime] *)

Module Calendar.

Definition MINYEAR : Z := 1.
Definition MAXYEAR : Z := 9999.
Definition MAXORDINAL : Z := 3652059.

Definition DI400Y : Z := 146097.
Definition DI100Y : Z := 36524.
Definition DI4Y : Z := 1461.

Definition is_leap (year : Z) : bool :=
  (year mod 4 =? 0) && (negb (year mod 100 =? 0) || (year mod 400 =? 0)).

Definition days_before_year (year : Z) : Z :=
  let y := year - 1 in
  y * 365 + y / 4 - y / 100 + y / 400.

(** [_DAYS_IN_MONTH], indexed from 1. *)
Definition DAYS_IN_MONTH (month : Z) : Z :=
  match month with
  | 1 => 31 | 2 => 28 | 3 => 31 | 4 => 30 | 5 => 31 | 6 => 30
  | 7 => 31 | 8 => 31 | 9 => 30 | 10 => 31 | 11 => 30 | 12 => 31
  | _ => 0
  end.

(** [_DAYS_BEFORE_MONTH], indexed from 1. *)
Definition DAYS_BEFORE_MONTH (month : Z) : Z :=
  match month with
  | 1 => 0 | 2 => 31 | 3 => 59 | 4 => 90 | 5 => 120 | 6 => 151
  | 7 => 181 | 8 => 212 | 9 => 243 | 10 => 273 | 11 => 304 | 12 => 334
  | _ => 0
  end.

Definition days_in_month (year month : Z) : Z :=
  if (month =? 2) && is_leap year then 29 else DAYS_IN_MONTH month.

Definition days_before_month (year month : Z) : Z :=
  DAYS_BEFORE_MONTH month + (if (2 <? month) && is_leap year then 1 else 0).

Definition ymd2ord (year month day : Z) : Z :=
  days_before_year year + days_before_month year month + day.

Definition ord2ymd (n : Z) : Z * Z * Z :=
  let n := n - 1 in
  let n400 := n / DI400Y in
  let n := n mod DI400Y in
  let year := n400 * 400 + 1 in
  let n100 := n / DI100Y in
  let n := n mod DI100Y in
  let n4 := n / DI4Y in
  let n := n mod DI4Y in
  let n1 := n / 365 in
  let n := n mod 365 in
  let year := year + n100 * 100 + n4 * 4 + n1 in
  if (n1 =? 4) || (n100 =? 4) then (year - 1, 12, 31)
  else
    let leapyear := (n1 =? 3) && (negb (n4 =? 24) || (n100 =? 3)) in
    let month := Z.shiftr (n + 50) 5 in
    let preceding :=
      DAYS_BEFORE_MONTH month + (if (2 <? month) && leapyear then 1 else 0) in
    if n <? preceding then
      let month := month - 1 in
      let preceding :=
        preceding
        - (DAYS_IN_MONTH month + (if (month =? 2) && leapyear then 1 else 0)) in
      (year, month, n - preceding + 1)
    else (year, month, n - preceding + 1).

End Calendar.

(** ** [str] *)

(** The code point of a character. *)
Definition code (c : ascii) : Z := Z.of_N (N_of_ascii c).

(** [str.isspace] on one character: the white space of [str.split()]. *)
Definition isspace (c : ascii) : bool :=
  let n := code c in
  ((9 <=? n) && (n <=? 13)) || ((28 <=? n) && (n <=? 32))
  || (n =? 133) || (n =? 160).

Fixpoint split_from (s : string) (word : string) : list string :=
  match s with
  | EmptyString => if (String.length word =? 0)%nat then [] else [word]
  | String c s' =>
      if isspace c then
        if (String.length word =? 0)%nat then split_from s' EmptyString
        else word :: split_from s' EmptyString
      else split_from s' (word ++ String c EmptyString)
  end.

(** [s.split()]: the maximal runs of characters that are not white space. *)
Definition split (s : string) : list string := split_from s EmptyString.

(** [l[i]] on a list. *)
Definition list_getitem {A : Type} (l : list A) (i : nat) : result A :=
  match nth_error l i with
  | Some a => ret a
  | None => raise IndexError
  end.

(** The decimal digits of [n], for [0 <= n], in front of [acc]. *)
Fixpoint digits (fuel : nat) (n : Z) (acc : string) : string :=
  match fuel with
  | O => acc
  | S fuel' =>
      let acc' := String (ascii_of_N (Z.to_N (48 + n mod 10))) acc in
      if n / 10 =? 0 then acc' else digits fuel' (n / 10) acc'
  end.

(** [str(n)] for [0 <= n]. *)
Definition str_of_int (n : Z) : string :=
  digits (S (Z.to_nat (Z.log2 n))) n EmptyString.

Fixpoint zeros (k : nat) : string :=
  match k with
  | O => EmptyString
  | S k' => String "0" (zeros k')
  end.

(** [n] padded with zeros on the left to [width] characters: [%0<width>d]. *)
Definition zero_pad (width : nat) (n : Z) : string :=
  let s := str_of_int n in
  zeros (width - String.length s) ++ s.

(** [template.format] on positional arguments, for a template whose only
    replacement fields are the automatically numbered [{}]. *)
Fixpoint str_format (template : string) (args : list string) : result string :=
  match template with
  | EmptyString => ret EmptyString
  | String c rest =>
      match rest with
      | String c' rest' =>
          if ((code c =? 123) && (code c' =? 125))%bool then
            match args with
            | [] => raise IndexError
            | a :: args' =>
                r <- str_format rest' args' ;;
                ret (a ++ r)
            end
          else
            r <- str_format rest args ;;
            ret (String c r)
      | EmptyString => ret (String c EmptyString)
      end
  end.

(** ** JSON data as received from the collaborator *)

(** A [str], a [dict] keyed by [str], or any other JSON value ([null], a
    number, a boolean, a list). *)
#[local] Unset Elimination Schemes.
Inductive pyobj : Type :=
| PyStr (s : string)
| PyDict (d : list (string * pyobj))
| PyOther.
#[local] Set Elimination Schemes.

Fixpoint assoc {V : Type} (key : string) (d : list (string * V)) : option V :=
  match d with
  | [] => None
  | (k, v) :: d' => if String.eqb k key then Some v else assoc key d'
  end.

(** [d[key]] on a [dict]. *)
Definition dict_getitem {V : Type} (d : list (string * V)) (key : string)
  : result V :=
  match assoc key d with
  | Some v => ret v
  | None => raise KeyError
  end.

(** [o[key]] on a JSON value: only a [dict] can be subscripted by a [str]. *)
Definition py_getitem (o : pyobj) (key : string) : result pyobj :=
  match o with
  | PyDict d => dict_getitem d key
  | PyStr _ | PyOther => raise TypeError
  end.

(** [o.split()] on a JSON value: only a [str] has the method. *)
Definition py_split (o : pyobj) : result (list string) :=
  match o with
  | PyStr s => ret (split s)
  | PyDict _ | PyOther => raise AttributeError
  end.

(** One day as the collaborator gives it: a [dict] whose key [timings]
    holds the [dict] of the timings. *)
Definition entry : Type := list (string * pyobj).

(** ** [datetime.timedelta] and [datetime.datetime] *)

(** A [timedelta] is its total number of microseconds. *)
Abbreviation timedelta := Z (only parsing).

Definition US_PER_SECOND : Z := 1000000.
Definition US_PER_DAY : Z := 86400 * US_PER_SECOND.

(** The constructor normalises to days, seconds and microseconds, and
    refuses a number of days of magnitude above 999999999. *)
Definition timedelta_new (us : Z) : result timedelta :=
  let days := us / US_PER_DAY in
  if (-999999999 <=? days) && (days <=? 999999999) then ret us
  else raise OverflowError.

(** [timedelta(minutes=m)] *)
Definition timedelta_minutes (m : Z) : result timedelta :=
  timedelta_new (m * 60 * US_PER_SECOND).

(** [_divide_and_round]: the quotient rounded to the nearest integer, a tie
    to the even one. *)
Definition divide_and_round (a b : Z) : Z :=
  let q := a / b in
  let r := (a mod b) * 2 in
  let greater_than_half := if 0 <? b then b <? r else r <? b in
  if greater_than_half || ((r =? b) && (q mod 2 =? 1)) then q + 1 else q.

(** [self / other] for an [int] divisor. *)
Definition timedelta_truediv (self : timedelta) (other : Z) : result timedelta :=
  if other =? 0 then raise ZeroDivisionError
  else timedelta_new (divide_and_round self other).

(** [tzinfo] is the fixed UTC offset in microseconds of an aware
    date-time, [None] for a naive one. *)
Record datetime : Type := mkdatetime {
  year : Z;
  month : Z;
  day : Z;
  hour : Z;
  minute : Z;
  second : Z;
  microsecond : Z;
  tzinfo : option timedelta
}.

(** The checks of the constructor. *)
Definition check_date_args (y m d : Z) : bool :=
  (Calendar.MINYEAR <=? y) && (y <=? Calendar.MAXYEAR)
  && (1 <=? m) && (m <=? 12)
  && (1 <=? d) && (d <=? Calendar.days_in_month y m).

Definition check_time_args (h mi s us : Z) : bool :=
  (0 <=? h) && (h <=? 23) && (0 <=? mi) && (mi <=? 59)
  && (0 <=? s) && (s <=? 59) && (0 <=? us) && (us <=? 999999).

Definition check_tzinfo (tz : option timedelta) : bool :=
  match tz with
  | None => true
  | Some off => (- US_PER_DAY <? off) && (off <? US_PER_DAY)
  end.

Definition datetime_new (y m d h mi s us : Z) (tz : option timedelta)
  : result datetime :=
  if check_date_args y m d && check_time_args h mi s us && check_tzinfo tz
  then ret (mkdatetime y m d h mi s us tz)
  else raise ValueError.

Definition toordinal (self : datetime) : Z :=
  Calendar.ymd2ord (year self) (month self) (day self).

(** The wall-clock reading of [self] as a duration since day 0. *)
Definition wall_clock (self : datetime) : timedelta :=
  toordinal self * US_PER_DAY
  + (hour self * 3600 + minute self * 60 + second self) * US_PER_SECOND
  + microsecond self.

(** [self + other] for a [timedelta]; also [other + self]. *)
Definition datetime_add (self : datetime) (other : timedelta) : result datetime :=
  let delta := wall_clock self + other in
  let days := delta / US_PER_DAY in
  let seconds := (delta mod US_PER_DAY) / US_PER_SECOND in
  let microseconds := delta mod US_PER_SECOND in
  let hour := seconds / 3600 in
  let rem := seconds mod 3600 in
  let minute := rem / 60 in
  let second := rem mod 60 in
  if (0 <? days) && (days <=? Calendar.MAXORDINAL) then
    let '(y, m, d) := Calendar.ord2ymd days in
    ret (mkdatetime y m d hour minute second microseconds (tzinfo self))
  else raise OverflowError.

(** [self - other] for a [timedelta]: [self + -other]. *)
Definition datetime_sub_timedelta (self : datetime) (other : timedelta)
  : result datetime :=
  neg <- timedelta_new (- other) ;;
  datetime_add self neg.

(** [self - other] for a [datetime]. *)
Definition datetime_sub (self other : datetime) : result timedelta :=
  base <- timedelta_new (wall_clock self - wall_clock other) ;;
  match tzinfo self, tzinfo other with
  | None, None => ret base
  | Some myoff, Some otoff =>
      if myoff =? otoff then ret base
      else
        t <- timedelta_new (base + otoff) ;;
        timedelta_new (t - myoff)
  | _, _ => raise TypeError
  end.

(** ** [datetime.fromisoformat]

    The function of CPython 3.11, which reads, besides the format of
    [datetime.isoformat], the basic format without dashes and colons, week
    dates, a comma before the fraction, a fraction of any length and a [Z]
    for the offset zero.  It works on the UTF-8 encoding of the text, with
    pointers into it: here a pointer is the text that starts at it, and the
    zero byte that ends the text is read at its end. *)

(** [s[n:]]; as a pointer, [p + n]. *)
Fixpoint drop (n : nat) (s : string) : string :=
  match n, s with
  | O, _ => s
  | S n', String _ s' => drop n' s'
  | S _, EmptyString => EmptyString
  end.

(** The bytes of the UTF-8 encoding: one for a code point below 128, two
    for one from 128 to 255. *)
Fixpoint utf8 (s : string) : string :=
  match s with
  | EmptyString => EmptyString
  | String c s' =>
      let n := code c in
      if n <? 128 then String c (utf8 s')
      else String (ascii_of_N (Z.to_N (192 + n / 64)))
             (String (ascii_of_N (Z.to_N (128 + n mod 64))) (utf8 s'))
  end.

(** [*p] *)
Definition peek (p : string) : Z :=
  match p with
  | EmptyString => 0
  | String c _ => code c
  end.

(** [s[i]] *)
Definition byte_at (s : string) (i : nat) : Z := peek (drop i s).

Definition is_digit (c : Z) : bool := (48 <=? c) && (c <=? 57).

Definition digit_val (c : ascii) : option Z :=
  let n := code c in
  if (48 <=? n) && (n <=? 57) then Some (n - 48) else None.

(** The number read and the pointer after it; [None] for [NULL]. *)
Fixpoint parse_digits (s : string) (var : Z) (num_digits : nat)
  {struct num_digits} : option (Z * string) :=
  match num_digits with
  | O => Some (var, s)
  | S k =>
      match s with
      | EmptyString => None
      | String c s' =>
          match digit_val c with
          | Some d => parse_digits s' (var * 10 + d) k
          | None => None
          end
      end
  end.

(** One expected character. *)
Definition expect (c : Z) (s : string) : option string :=
  match s with
  | EmptyString => None
  | String c' s' => if code c' =? c then Some s' else None
  end.

(** [while (is_digit( *p)) ++p] *)
Fixpoint skip_digits (p : string) : string :=
  match p with
  | EmptyString => p
  | String c p' => if is_digit (code c) then skip_digits p' else p
  end.

(** The number of digits that [p] starts with. *)
Fixpoint count_digits (p : string) : Z :=
  match p with
  | EmptyString => 0
  | String c p' => if is_digit (code c) then 1 + count_digits p' else 0
  end.

(** A signed length converted to [size_t]. *)
Definition size_t (n : Z) : Z := n mod 2 ^ 64.

(** The calendar functions behind a week date.  They divide as C does,
    towards zero, and read their tables at the month they are given: a
    month outside 0..12 is computed only for the ISO year 0, whose date
    the constructor then refuses for its month, whatever is read. *)
Module IsoWeek.

Definition days_before_year (year : Z) : Z :=
  let y := year - 1 in
  y * 365 + Z.quot y 4 - Z.quot y 100 + Z.quot y 400.

Definition days_before_month (year month : Z) : Z :=
  Calendar.DAYS_BEFORE_MONTH month
  + (if (2 <? month) && Calendar.is_leap year then 1 else 0).

Definition days_in_month (year month : Z) : Z :=
  if (month =? 2) && Calendar.is_leap year then 29
  else Calendar.DAYS_IN_MONTH month.

Definition ymd_to_ord (year month day : Z) : Z :=
  days_before_year year + days_before_month year month + day.

Definition weekday (year month day : Z) : Z :=
  Z.rem (ymd_to_ord year month day + 6) 7.

Definition iso_week1_monday (year : Z) : Z :=
  let first_day := ymd_to_ord year 1 1 in
  let first_weekday := Z.rem (first_day + 6) 7 in
  let week1_monday := first_day - first_weekday in
  if 3 <? first_weekday then week1_monday + 7 else week1_monday.

Definition ord_to_ymd (ordinal : Z) : Z * Z * Z :=
  let ordinal := ordinal - 1 in
  let n400 := Z.quot ordinal Calendar.DI400Y in
  let n := Z.rem ordinal Calendar.DI400Y in
  let year := n400 * 400 + 1 in
  let n100 := Z.quot n Calendar.DI100Y in
  let n := Z.rem n Calendar.DI100Y in
  let n4 := Z.quot n Calendar.DI4Y in
  let n := Z.rem n Calendar.DI4Y in
  let n1 := Z.quot n 365 in
  let n := Z.rem n 365 in
  let year := year + n100 * 100 + n4 * 4 + n1 in
  if (n1 =? 4) || (n100 =? 4) then (year - 1, 12, 31)
  else
    let leapyear := (n1 =? 3) && (negb (n4 =? 24) || (n100 =? 3)) in
    let month := Z.shiftr (n + 50) 5 in
    let preceding :=
      Calendar.DAYS_BEFORE_MONTH month + (if (2 <? month) && leapyear then 1 else 0) in
    if n <? preceding then
      let month := month - 1 in
      let preceding := preceding - days_in_month year month in
      (year, month, n - preceding + 1)
    else (year, month, n - preceding + 1).

Definition iso_to_ymd (iso_year iso_week iso_day : Z) : option (Z * Z * Z) :=
  let out_of_range :=
    if (iso_week <=? 0) || (53 <=? iso_week) then
      if iso_week =? 53 then
        let first_weekday := weekday iso_year 1 1 in
        negb ((first_weekday =? 3)
              || ((first_weekday =? 2) && Calendar.is_leap iso_year))
      else true
    else false in
  if out_of_range then None
  else if (iso_day <=? 0) || (8 <=? iso_day) then None
  else
    let day_1 := iso_week1_monday iso_year in
    let day_offset := (iso_week - 1) * 7 + iso_day - 1 in
    Some (ord_to_ymd (day_1 + day_offset)).

End IsoWeek.

(** Where the date ends: after 7, 8 or 10 bytes, by the bytes 4 and 5 and
    the digits that follow a week; [-1] for a week date cut after its second
    dash. *)
Definition find_isoformat_datetime_separator (dtstr : string) (len : Z) : Z :=
  if len =? 7 then 7
  else if byte_at dtstr 4 =? 45 then
    if byte_at dtstr 5 =? 87 then
      if len <? 8 then -1
      else if (8 <? len) && (byte_at dtstr 8 =? 45) then
        if len =? 9 then -1
        else if (10 <? len) && is_digit (byte_at dtstr 10) then 8
        else 10
      else 8
    else 10
  else if byte_at dtstr 4 =? 87 then
    let idx := 7 + count_digits (drop 7 dtstr) in
    if idx <? 9 then idx
    else if idx mod 2 =? 0 then 7
    else 8
  else 8.

(** The date in the first [len] bytes: [YYYY-MM-DD], [YYYYMMDD],
    [YYYY-Www], [YYYYWww], [YYYY-Www-D] or [YYYYWwwD]. *)
Definition parse_isoformat_date (dtstr : string) (len : Z) : option (Z * Z * Z) :=
  match parse_digits dtstr 0 4 with
  | None => None
  | Some (year, p) =>
      let uses_separator := peek p =? 45 in
      let p := if uses_separator then drop 1 p else p in
      if peek p =? 87 then
        match parse_digits (drop 1 p) 0 2 with
        | None => None
        | Some (iso_week, p) =>
            if Z.of_nat (String.length dtstr) - Z.of_nat (String.length p) <? size_t len
            then
              if uses_separator && negb (peek p =? 45) then None
              else
                match parse_digits (if uses_separator then drop 1 p else p) 0 1 with
                | None => None
                | Some (iso_day, _) => IsoWeek.iso_to_ymd year iso_week iso_day
                end
            else IsoWeek.iso_to_ymd year iso_week 1
        end
      else
        match parse_digits p 0 2 with
        | None => None
        | Some (month, p) =>
            if uses_separator && negb (peek p =? 45) then None
            else
              match parse_digits (if uses_separator then drop 1 p else p) 0 2 with
              | None => None
              | Some (day, _) => Some (year, month, day)
              end
        end
  end.

(** The fraction that starts at [p], with [len_remains] bytes up to the end
    of the time: its first six digits at most count, the digits after them
    are skipped.  The boolean tells that a byte other than zero follows. *)
Definition parse_fraction (p : string) (len_remains : Z) : option (Z * bool) :=
  let to_parse := if 6 <=? len_remains then 6 else len_remains in
  match parse_digits p 0 (Z.to_nat to_parse) with
  | None => None
  | Some (microsecond, p) =>
      let microsecond :=
        if to_parse <? 6
        then microsecond * nth (Z.to_nat (to_parse - 1)) [100000; 10000; 1000; 100; 10] 0
        else microsecond in
      Some (microsecond, negb (peek (skip_digits p) =? 0))
  end.

(** The loop of [parse_hh_mm_ss_ff] over hour, minute and second, with
    [rounds] of them to go and [n] bytes from [p] to the end of the time,
    then the fraction.  [vals] are the components read so far; the boolean
    of the result is the return code 1: the parse stopped before a zero
    byte. *)
Fixpoint parse_hh_mm_ss (rounds : nat) (first has_separator : bool)
  (p : string) (n : Z) (vals : list Z) : option (list Z * Z * bool) :=
  match rounds with
  | O => match parse_fraction p n with
         | None => None
         | Some (us, more) => Some (vals, us, more)
         end
  | S rounds' =>
      match parse_digits p 0 2 with
      | None => None
      | Some (v, p) =>
          let vals := (vals ++ [v])%list in
          let c := peek p in
          let has_separator := if first then c =? 58 else has_separator in
          if n - 3 <=? 0 then Some (vals, 0, negb (c =? 0))
          else if has_separator && (c =? 58) then
            parse_hh_mm_ss rounds' false has_separator (drop 1 p) (n - 3) vals
          else if (c =? 46) || (c =? 44) then
            match parse_fraction (drop 1 p) (n - 3) with
            | None => None
            | Some (us, more) => Some (vals, us, more)
            end
          else if negb has_separator then
            parse_hh_mm_ss rounds' false has_separator p (n - 2) vals
          else None
      end
  end.

Definition parse_hh_mm_ss_ff (tstr : string) (n : Z)
  : option (Z * Z * Z * Z * bool) :=
  match parse_hh_mm_ss 3 true true tstr n [] with
  | None => None
  | Some (vals, us, more) =>
      Some (nth 0 vals 0, nth 1 vals 0, nth 2 vals 0, us, more)
  end.

(** [Z], [+] or [-]: where the UTC offset starts. *)
Definition is_tz_marker (c : Z) : bool := (c =? 90) || (c =? 43) || (c =? 45).

(** The search for the offset, a loop that tests its bound after each
    round: the index of the first [Z] or sign from [pos] on, [len] when
    there is none, and 1 for an empty time. *)
Fixpoint find_tzinfo (p : string) (pos len : Z) : Z :=
  match p with
  | EmptyString => pos + 1
  | String c p' =>
      if is_tz_marker (code c) then pos
      else if pos + 1 <? len then find_tzinfo p' (pos + 1) len
      else pos + 1
  end.

(** The time of day and, if one is written, the UTC offset in seconds and
    microseconds. *)
Definition parse_isoformat_time (dtstr : string) (dtlen : Z)
  : option (Z * Z * Z * Z * option (Z * Z)) :=
  let tzinfo_pos := find_tzinfo dtstr 0 dtlen in
  match parse_hh_mm_ss_ff dtstr tzinfo_pos with
  | None => None
  | Some (hour, minute, second, microsecond, more) =>
      if tzinfo_pos =? dtlen then
        if more then None else Some (hour, minute, second, microsecond, None)
      else
        let tz := drop (Z.to_nat tzinfo_pos) dtstr in
        if peek tz =? 90 then
          if peek (drop 1 tz) =? 0
          then Some (hour, minute, second, microsecond, Some (0, 0))
          else None
        else
          let tzsign := if peek tz =? 45 then -1 else 1 in
          match parse_hh_mm_ss_ff (drop 1 tz) (dtlen - (tzinfo_pos + 1)) with
          | Some (tzhour, tzminute, tzsecond, tzmicrosecond, false) =>
              Some (hour, minute, second, microsecond,
                    Some (tzsign * (tzhour * 3600 + tzminute * 60 + tzsecond),
                          tzsign * tzmicrosecond))
          | _ => None
          end
  end.

(** An offset of no second is UTC, whatever its microseconds. *)
Definition tzinfo_from_isoformat_results (tz : option (Z * Z)) : option timedelta :=
  match tz with
  | None => None
  | Some (tzoffset, tz_useconds) =>
      if tzoffset =? 0 then Some 0
      else Some (tzoffset * US_PER_SECOND + tz_useconds)
  end.

(** The number of bytes of the character that starts with the byte [c]. *)
Definition utf8_width (c : Z) : nat :=
  if Z.land c 128 =? 0 then 1
  else
    let h := Z.land c 240 in
    if h =? 240 then 4 else if h =? 224 then 3 else 2.

Definition fromisoformat (date_string : string) : result datetime :=
  if (String.length date_string <? 7)%nat then raise ValueError
  else
    let dt_ptr := utf8 date_string in
    let len := Z.of_nat (String.length dt_ptr) in
    let separator_location := find_isoformat_datetime_separator dt_ptr len in
    match parse_isoformat_date dt_ptr separator_location with
    | None => raise ValueError
    | Some (year, month, day) =>
        if separator_location <? len then
          let p := drop (Z.to_nat separator_location) dt_ptr in
          let p := drop (utf8_width (peek p)) p in
          match parse_isoformat_time p (Z.of_nat (String.length p)) with
          | None => raise ValueError
          | Some (hour, minute, second, microsecond, tz) =>
              datetime_new year month day hour minute second microsecond
                (tzinfo_from_isoformat_results tz)
          end
        else datetime_new year month day 0 0 0 0 None
    end.

(** ** [datetime.strftime]

    The directives that the program uses, as the [strftime] of the C
    library writes them in the C locale; any other character of the format
    is copied.  With glibc the year of [%Y] is written in decimal without
    padding, in fewer than four digits before the year 1000.  The
    microsecond and the UTC offset do not show. *)

Definition directive (d : ascii) (self : datetime) : string :=
  let n := code d in
  if n =? 109 then zero_pad 2 (month self)          (* %m *)
  else if n =? 100 then zero_pad 2 (day self)       (* %d *)
  else if n =? 89 then str_of_int (year self)       (* %Y *)
  else if n =? 73 then                              (* %I *)
    zero_pad 2 (if hour self mod 12 =? 0 then 12 else hour self mod 12)
  else if n =? 77 then zero_pad 2 (minute self)     (* %M *)
  else if n =? 83 then zero_pad 2 (second self)     (* %S *)
  else if n =? 112 then                             (* %p *)
    (if hour self <? 12 then "AM" else "PM")
  else String "%" (String d EmptyString).

Fixpoint strftime (self : datetime) (format : string) : string :=
  match format with
  | EmptyString => EmptyString
  | String c rest =>
      match rest with
      | String d rest' =>
          if code c =? 37 then directive d self ++ strftime self rest'
          else String c (strftime self rest)
      | EmptyString => String c EmptyString
      end
  end.

(** ** [collections.OrderedDict] keyed by [str] *)

Definition OrderedDict (V : Type) : Type := list (string * V).

(** [od[key] = value]: a present key keeps its place, a new one goes last. *)
Fixpoint od_setitem {V : Type} (od : OrderedDict V) (key : string) (value : V)
  : OrderedDict V :=
  match od with
  | [] => [(key, value)]
  | (k, v) :: od' =>
      if String.eqb k key then (k, value) :: od'
      else (k, v) :: od_setitem od' key value
  end.

Fixpoint od_remove {V : Type} (od : OrderedDict V) (key : string) : OrderedDict V :=
  match od with
  | [] => []
  | (k, v) :: od' =>
      if String.eqb k key then od' else (k, v) :: od_remove od' key
  end.

(** [od.move_to_end(key, last)] *)
Definition move_to_end {V : Type} (od : OrderedDict V) (key : string) (last : bool)
  : result (OrderedDict V) :=
  match assoc key od with
  | None => raise KeyError
  | Some v =>
      if last then ret (od_remove od key ++ [(key, v)])%list
      else ret ((key, v) :: od_remove od key)
  end.

(** [od.items()] *)
Definition items {V : Type} (od : OrderedDict V) : list (string * V) := od.

(** ** The program *)

Definition COPIED_FIELDS : list string :=
  ["Fajr"; "Sunrise"; "Dhuhr"; "Asr"; "Maghrib"; "Isha"].
Definition EVENT_NAMES : list string :=
  ["Fajr"; "Sunrise"; "Dhuhr"; "Asr"; "Maghrib"; "Isha"].
Definition EXTRA_MIDNIGHT_EVENT_NAME : string := "Midnight".
Definition DATE_FORMAT : string := "%m/%d/%Y".
Definition TIME_FORMAT : string := "%I:%M:%S %p".
Definition NUM_REQUEST_TRIES : nat := 5.

(** The two lines of the configuration block that the generator reads. *)
Record config : Type := mkconfig {
  MINUTES_BEFORE : Z;
  MINUTES_AFTER : Z
}.

Definition default_config : config := mkconfig 0 5.

(** Lines 104 and 105: from the text of a timing to its instant. *)
Definition parse_timing (isoformat : pyobj) : result datetime :=
  parts <- py_split isoformat ;;
  isoformat <- list_getitem parts 0 ;;
  fromisoformat isoformat.

(** Lines 103 to 105: the instant of one field of an entry. *)
Definition read_field (entry : entry) (field : string) : result datetime :=
  timings <- dict_getitem entry "timings" ;;
  isoformat <- py_getitem timings field ;;
  parse_timing isoformat.

(** Lines 102 to 106: the loop over [zip(COPIED_FIELDS, EVENT_NAMES)]. *)
Fixpoint copy_fields (entry : entry) (pairs : list (string * string))
  (event_times : OrderedDict datetime) : result (OrderedDict datetime) :=
  match pairs with
  | [] => ret event_times
  | (field, subject) :: pairs' =>
      event_time <- read_field entry field ;;
      copy_fields entry pairs' (od_setitem event_times subject event_time)
  end.

(** Lines 108 to 115: the midnight between the last sunset and this dawn. *)
Definition add_midnight (last_maghrib_time : option datetime)
  (event_times : OrderedDict datetime) : result (OrderedDict datetime) :=
  match last_maghrib_time with
  | None => ret event_times
  | Some last_maghrib_time =>
      name <- list_getitem EVENT_NAMES 0 ;;
      current_fajr_time <- dict_getitem event_times name ;;
      elapsed <- datetime_sub current_fajr_time last_maghrib_time ;;
      half <- timedelta_truediv elapsed 2 ;;
      last_midnight_time <- datetime_add last_maghrib_time half ;;
      let event_times :=
        od_setitem event_times EXTRA_MIDNIGHT_EVENT_NAME last_midnight_time in
      move_to_end event_times EXTRA_MIDNIGHT_EVENT_NAME false
  end.

(** Lines 100 to 115: the events of one day, in the order of emission. *)
Definition day_events (last_maghrib_time : option datetime) (entry : entry)
  : result (OrderedDict datetime) :=
  event_times <- copy_fields entry (combine COPIED_FIELDS EVENT_NAMES) [] ;;
  add_midnight last_maghrib_time event_times.

Section Generator.

Variable cfg : config.

(** Lines 121 and 122: the block of the calendar around an event. *)
Definition event_window (event_time : datetime) : result (datetime * datetime) :=
  before <- timedelta_minutes (MINUTES_BEFORE cfg) ;;
  start <- datetime_sub_timedelta event_time before ;;
  after <- timedelta_minutes (MINUTES_AFTER cfg) ;;
  end_ <- datetime_add event_time after ;;
  ret (start, end_).

(** Lines 124 to 130. *)
Definition csv_line (subject : string) (start end_ : datetime) : result string :=
  let start_date := strftime start DATE_FORMAT in
  let start_time := strftime start TIME_FORMAT in
  let end_date := strftime end_ DATE_FORMAT in
  let end_time := strftime end_ TIME_FORMAT in
  str_format "{},{},{},{},{},Auto-generated"
    [subject; start_date; start_time; end_date; end_time].

(** Lines 119 to 132: the loop over [event_times.items()]. *)
Fixpoint emit_events (event_times : OrderedDict datetime)
  (its : list (string * datetime)) (lines : list string) : result (list string) :=
  match its with
  | [] => ret lines
  | (subject, _) :: its' =>
      event_time <- dict_getitem event_times subject ;;
      w <- event_window event_time ;;
      line <- csv_line subject (fst w) (snd w) ;;
      emit_events event_times its' (lines ++ [line])%list
  end.

(** The body of the loop over the entries, on the two variables that live
    across its rounds. *)
Definition process_entry (state : list string * option datetime) (entry : entry)
  : result (list string * option datetime) :=
  let '(lines, last_maghrib_time) := state in
  event_times <- day_events last_maghrib_time entry ;;
  name <- list_getitem EVENT_NAMES 4 ;;
  last_maghrib_time <- dict_getitem event_times name ;;
  lines <- emit_events event_times (items event_times) lines ;;
  ret (lines, Some last_maghrib_time).

Fixpoint process_entries (entries : list entry)
  (state : list string * option datetime)
  : result (list string * option datetime) :=
  match entries with
  | [] => ret state
  | entry :: entries' =>
      state <- process_entry state entry ;;
      process_entries entries' state
  end.

Definition convert_entries_to_csv_lines (entries : list entry)
  : result (list string) :=
  state <- process_entries entries ([], None) ;;
  ret (fst state).

(** The collaborator: the answer to the request for a month at an attempt,
    an exception when the request, the decoding or the assertion on the
    status fails. *)
Variable get_calendar_data : Z -> nat -> result (list entry).

(** Lines 148 to 157: the first attempt that succeeds. *)
Fixpoint request_month (month : Z) (i : nat) (tries : nat)
  : result (list entry) :=
  match tries with
  | O => raise ConnectionError
  | S tries' =>
      match get_calendar_data month i with
      | inr month_entries_per_day => ret month_entries_per_day
      | inl _ => request_month month (S i) tries'
      end
  end.

(** Lines 146 to 159: the months [month], [month + 1], ... in turn.  The
    messages printed and the pauses between requests are left out. *)
Fixpoint request_months (month : Z) (count : nat) (year_entries_per_day : list entry)
  : result (list entry) :=
  match count with
  | O => ret year_entries_per_day
  | S count' =>
      month_entries_per_day <- request_month month 0 NUM_REQUEST_TRIES ;;
      request_months (month + 1) count'
        (year_entries_per_day ++ month_entries_per_day)%list
  end.

Definition get_calendar_csv (num_months : Z) : result (list string) :=
  if (1 <=? num_months) && (num_months <=? 12) then
    let lines := ["Subject,Start Date,Start Time,End Date,End Time,Description"] in
    year_entries_per_day <- request_months 1 (Z.to_nat num_months) [] ;;
    body <- convert_entries_to_csv_lines year_entries_per_day ;;
    ret (lines ++ body)%list
  else raise AssertionError.

End Generator.

(** ** The rows behind the lines

    The program keeps only the text of each row.  For the properties of the
    instants, the same computation is followed here with the rows kept as
    records and grouped by day. *)

Record row : Type := mkrow {
  subject : string;
  instant : datetime;
  start : datetime;
  end_ : datetime
}.

(** The text of a row: six fields joined by commas. *)
Definition render (r : row) : string :=
  subject r ++ "," ++ strftime (start r) DATE_FORMAT
  ++ "," ++ strftime (start r) TIME_FORMAT
  ++ "," ++ strftime (end_ r) DATE_FORMAT
  ++ "," ++ strftime (end_ r) TIME_FORMAT
  ++ "," ++ "Auto-generated".

Definition event_row (cfg : config) (event : string * datetime) : result row :=
  w <- event_window cfg (snd event) ;;
  ret (mkrow (fst event) (snd event) (fst w) (snd w)).

(** The rows of one day, and the sunset that the next day starts from. *)
Definition day_rows (cfg : config) (last_maghrib_time : option datetime)
  (entry : entry) : result (list row * datetime) :=
  event_times <- day_events last_maghrib_time entry ;;
  maghrib <- dict_getitem event_times "Maghrib" ;;
  rows <- mapM (event_row cfg) (items event_times) ;;
  ret (rows, maghrib).

Fixpoint rows_by_day (cfg : config) (entries : list entry)
  (last_maghrib_time : option datetime) : result (list (list row)) :=
  match entries with
  | [] => ret []
  | entry :: entries' =>
      today <- day_rows cfg last_maghrib_time entry ;;
      later <- rows_by_day cfg entries' (Some (snd today)) ;;
      ret (fst today :: later)
  end.

(** ** Reading the text of a row back *)

(** The digits that make [s] up to its end: their value after [var], and
    their number. *)
Fixpoint read_digits (s : string) (var : Z) : option (Z * nat) :=
  match s with
  | EmptyString => Some (var, O)
  | String c s' =>
      match digit_val c with
      | None => None
      | Some d =>
          match read_digits s' (var * 10 + d) with
          | None => None
          | Some (v, k) => Some (v, S k)
          end
      end
  end.

(** [MM/DD/Y...] to month, day and year, and the number of digits that the
    year is written in: four for [MM/DD/YYYY]. *)
Definition read_date (s : string) : option (Z * Z * Z * nat) :=
  match parse_digits s 0 2 with
  | None => None
  | Some (m, p) =>
      match expect 47 p with
      | None => None
      | Some p =>
          match parse_digits p 0 2 with
          | None => None
          | Some (d, p) =>
              match expect 47 p with
              | None => None
              | Some p =>
                  match read_digits p 0 with
                  | Some (y, S k) => Some (m, d, y, S k)
                  | _ => None
                  end
              end
          end
      end
  end.

(** The number of digits of [n] in decimal, for [0 <= n <= 9999]. *)
Definition decimal_width (n : Z) : nat :=
  if n <? 10 then 1 else if n <? 100 then 2 else if n <? 1000 then 3 else 4.

(** [hh:mm:ss AM] or [hh:mm:ss PM] to hour of the 12-hour clock, minute,
    second, and whether it is PM. *)
Definition read_time (s : string) : option (Z * Z * Z * bool) :=
  match parse_digits s 0 2 with
  | None => None
  | Some (h, p) =>
      match expect 58 p with
      | None => None
      | Some p =>
          match parse_digits p 0 2 with
          | None => None
          | Some (mi, p) =>
              match expect 58 p with
              | None => None
              | Some p =>
                  match parse_digits p 0 2 with
                  | None => None
                  | Some (sec, p) =>
                      if String.eqb p " AM" then Some (h, mi, sec, false)
                      else if String.eqb p " PM" then Some (h, mi, sec, true)
                      else None
                  end
              end
          end
      end
  end.

(** A date-time whose fields are in the ranges of the constructor. *)
Definition valid (dt : datetime) : bool :=
  check_date_args (year dt) (month dt) (day dt)
  && check_time_args (hour dt) (minute dt) (second dt) (microsecond dt).

(** The hour of the 12-hour clock. *)
Definition hour12 (dt : datetime) : Z :=
  if hour dt mod 12 =? 0 then 12 else hour dt mod 12.

(** ** Checks by enumeration *)

(** [f] holds on [lo], [lo + 1], ..., [count] values in all. *)
Fixpoint forall_range (f : Z -> bool) (count : nat) (lo : Z) : bool :=
  match count with
  | O => true
  | S count' => f lo && forall_range f count' (lo + 1)
  end.

(** The month and the day of [ord2ymd], from the day [n] of the year
    counted from 0. *)
Definition month_day (n : Z) (leapyear : bool) : Z * Z :=
  let month := Z.shiftr (n + 50) 5 in
  let preceding :=
    Calendar.DAYS_BEFORE_MONTH month + (if (2 <? month) && leapyear then 1 else 0) in
  if n <? preceding then
    let month := month - 1 in
    let preceding :=
      preceding
      - (Calendar.DAYS_IN_MONTH month + (if (month =? 2) && leapyear then 1 else 0)) in
    (month, n - preceding + 1)
  else (month, n - preceding + 1).

Definition month_day_ok (leapyear : bool) (n : Z) : bool :=
  let '(m, d) := month_day n leapyear in
  (1 <=? m) && (m <=? 12) && (1 <=? d)
  && (d <=? Calendar.DAYS_IN_MONTH m + (if (m =? 2) && leapyear then 1 else 0))
  && (Calendar.DAYS_BEFORE_MONTH m + (if (2 <? m) && leapyear then 1 else 0) + d =? n + 1).

(** [%02d] and [%04d] on [n] are the decimal digits of [n]. *)
Definition zero_pad_2_ok (n : Z) : bool :=
  match zero_pad 2 n with
  | String a (String b EmptyString) =>
      match digit_val a, digit_val b with
      | Some x, Some y => x * 10 + y =? n
      | _, _ => false
      end
  | _ => false
  end.

Definition zero_pad_4_ok (n : Z) : bool :=
  match zero_pad 4 n with
  | String a (String b (String c (String d EmptyString))) =>
      match digit_val a, digit_val b, digit_val c, digit_val d with
      | Some x, Some y, Some z, Some w => ((x * 10 + y) * 10 + z) * 10 + w =? n
      | _, _, _, _ => false
      end
  | _ => false
  end.

(** [str(n)] is the decimal digits of [n], as many as [decimal_width]
    says. *)
Definition str_of_int_ok (n : Z) : bool :=
  match read_digits (str_of_int n) 0 with
  | Some (v, k) => (v =? n) && (k =? decimal_width n)%nat
  | None => false
  end.

(** ** Vocabulary of the properties *)

(** The six events of a day, in the order of [EVENT_NAMES]. *)
Definition six_events (fajr sunrise dhuhr asr maghrib isha : datetime)
  : OrderedDict datetime :=
  [("Fajr", fajr); ("Sunrise", sunrise); ("Dhuhr", dhuhr); ("Asr", asr);
   ("Maghrib", maghrib); ("Isha", isha)].

(** The header of the file. *)
Definition HEADER : string :=
  "Subject,Start Date,Start Time,End Date,End Time,Description".

(** A duration in minutes, as a [timedelta]. *)
Definition minutes (m : Z) : timedelta := m * 60 * US_PER_SECOND.

(** Two entries whose timings are the same mapping, listed in two orders. *)
Definition reordered (e e' : entry) : Prop :=
  exists t t',
    assoc "timings" e = Some (PyDict t)
    /\ assoc "timings" e' = Some (PyDict t')
    /\ NoDup (map fst t)
    /\ Permutation t t'.

(** The entry has no timings, or its timings lack the field. *)
Definition field_missing (e : entry) (field : string) : Prop :=
  assoc "timings" e = None
  \/ exists t, assoc "timings" e = Some (PyDict t) /\ assoc field t = None.

(** The entry has a value for the field, which does not parse. *)
Definition field_unparsable (e : entry) (field : string) : Prop :=
  exists t v,
    assoc "timings" e = Some (PyDict t) /\ assoc field t = Some v
    /\ forall dt, parse_timing v <> inr dt.

(** No character of [s] is white space. *)
Fixpoint no_space (s : string) : bool :=
  match s with
  | EmptyString => true
  | String c s' => negb (isspace c) && no_space s'
  end.

(** A [Z] or a sign occurs in [s]. *)
Fixpoint has_tz_marker (s : string) : bool :=
  match s with
  | EmptyString => false
  | String c s' => is_tz_marker (code c) || has_tz_marker s'
  end.

(** The bytes of a token after its date and the separator that follows
    the date. *)
Definition time_text (token : string) : string :=
  let dt_ptr := utf8 token in
  let len := Z.of_nat (String.length dt_ptr) in
  let p := drop (Z.to_nat (find_isoformat_datetime_separator dt_ptr len)) dt_ptr in
  drop (utf8_width (peek p)) p.

(** The token writes a UTC offset: a [Z] or a sign after the date and its
    separator. *)
Definition has_offset (token : string) : bool := has_tz_marker (time_text token).

(** ** Sample data *)

Definition timings_entry (fajr sunrise dhuhr asr maghrib isha : string) : entry :=
  [("timings",
    PyDict [("Fajr", PyStr fajr); ("Sunrise", PyStr sunrise);
            ("Dhuhr", PyStr dhuhr); ("Asr", PyStr asr);
            ("Maghrib", PyStr maghrib); ("Isha", PyStr isha)])].

Definition day_1 : entry :=
  timings_entry "2024-01-01T05:00:00" "2024-01-01T07:20:00"
    "2024-01-01T12:10:00" "2024-01-01T14:40:00"
    "2024-01-01T17:30:00" "2024-01-01T18:50:00".

Definition day_2 : entry :=
  timings_entry "2024-01-02T05:02:00" "2024-01-02T07:20:00"
    "2024-01-02T12:11:00" "2024-01-02T14:41:00"
    "2024-01-02T17:31:00" "2024-01-02T18:51:00".

(** [day_2] with its timings listed in another order, among other keys. *)
Definition day_2_shuffled : entry :=
  [("date", PyOther);
   ("timings",
    PyDict [("Isha", PyStr "2024-01-02T18:51:00");
            ("Maghrib", PyStr "2024-01-02T17:31:00");
            ("Fajr", PyStr "2024-01-02T05:02:00");
            ("Dhuhr", PyStr "2024-01-02T12:11:00");
            ("Sunrise", PyStr "2024-01-02T07:20:00");
            ("Asr", PyStr "2024-01-02T14:41:00")])].

(** [day_1] with a sunset one microsecond later. *)
Definition day_1_microsecond : entry :=
  timings_entry "2024-01-01T05:00:00" "2024-01-01T07:20:00"
    "2024-01-01T12:10:00" "2024-01-01T14:40:00"
    "2024-01-01T17:30:00.000001" "2024-01-01T18:50:00".

(** [day_2] without its Asr. *)
Definition day_2_without_asr : entry :=
  [("timings",
    PyDict [("Fajr", PyStr "2024-01-02T05:02:00");
            ("Sunrise", PyStr "2024-01-02T07:20:00");
            ("Dhuhr", PyStr "2024-01-02T12:11:00");
            ("Maghrib", PyStr "2024-01-02T17:31:00");
            ("Isha", PyStr "2024-01-02T18:51:00")])].

(** A day of the year 999. *)
Definition day_in_999 : entry :=
  timings_entry "0999-01-01T05:00:00" "0999-01-01T07:20:00"
    "0999-01-01T12:10:00" "0999-01-01T14:40:00"
    "0999-01-01T17:30:00" "0999-01-01T18:50:00".

(** A collaborator that answers any month at once with [day_in_999]. *)
Definition calendar_data_of_999 (month : Z) (attempt : nat) : result (list entry) :=
  ret [day_in_999].

(** [day_2] with an Asr that is no date-time. *)
Definition day_2_with_bad_asr : entry :=
  timings_entry "2024-01-02T05:02:00" "2024-01-02T07:20:00"
    "2024-01-02T12:11:00" "14:41 (PST)"
    "2024-01-02T17:31:00" "2024-01-02T18:51:00".

(** The lines of [day_1] then [day_2], five minutes of lag and no lead. *)
Definition two_day_lines : list string :=
  ["Fajr,01/01/2024,05:00:00 AM,01/01/2024,05:05:00 AM,Auto-generated";
   "Sunrise,01/01/2024,07:20:00 AM,01/01/2024,07:25:00 AM,Auto-generated";
   "Dhuhr,01/01/2024,12:10:00 PM,01/01/2024,12:15:00 PM,Auto-generated";
   "Asr,01/01/2024,02:40:00 PM,01/01/2024,02:45:00 PM,Auto-generated";
   "Maghrib,01/01/2024,05:30:00 PM,01/01/2024,05:35:00 PM,Auto-generated";
   "Isha,01/01/2024,06:50:00 PM,01/01/2024,06:55:00 PM,Auto-generated";
   "Midnight,01/01/2024,11:16:00 PM,01/01/2024,11:21:00 PM,Auto-generated";
   "Fajr,01/02/2024,05:02:00 AM,01/02/2024,05:07:00 AM,Auto-generated";
   "Sunrise,01/02/2024,07:20:00 AM,01/02/2024,07:25:00 AM,Auto-generated";
   "Dhuhr,01/02/2024,12:11:00 PM,01/02/2024,12:16:00 PM,Auto-generated";
   "Asr,01/02/2024,02:41:00 PM,01/02/2024,02:46:00 PM,Auto-generated";
   "Maghrib,01/02/2024,05:31:00 PM,01/02/2024,05:36:00 PM,Auto-generated";
   "Isha,01/02/2024,06:51:00 PM,01/02/2024,06:56:00 PM,Auto-generated"].

(** A collaborator that fails twice for each month, then answers [day_1]
    for January and [day_2] for February. *)
Definition sample_calendar_data (month : Z) (attempt : nat) : result (list entry) :=
  if (attempt <? 2)%nat then raise ConnectionError
  else if month =? 1 then ret [day_1]
  else if month =? 2 then ret [day_2]
  else raise AssertionError.

(** ** Further vocabulary *)

(** The number of days of a year. *)
Definition year_length (y : Z) : Z :=
  if Calendar.is_leap y then 366 else 365.

(** Two entries whose timings hold the same values under the six copied
    fields, whatever else the entries and their timings hold. *)
Definition agree_on_copied_fields (e e' : entry) : Prop :=
  exists t t',
    assoc "timings" e = Some (PyDict t)
    /\ assoc "timings" e' = Some (PyDict t')
    /\ forall field, In field COPIED_FIELDS -> assoc field t' = assoc field t.

(** [day_2] as the collaborator may send it, with timings and keys that the
    program does not copy. *)
Definition day_2_with_extras : entry :=
  [("timings",
    PyDict [("Fajr", PyStr "2024-01-02T05:02:00");
            ("Sunrise", PyStr "2024-01-02T07:20:00");
            ("Dhuhr", PyStr "2024-01-02T12:11:00");
            ("Asr", PyStr "2024-01-02T14:41:00");
            ("Sunset", PyStr "2024-01-02T17:31:00");
            ("Maghrib", PyStr "2024-01-02T17:31:00");
            ("Isha", PyStr "2024-01-02T18:51:00");
            ("Imsak", PyStr "2024-01-02T04:52:00");
            ("Midnight", PyStr "2024-01-02T00:11:00")]);
   ("date", PyDict [("readable", PyStr "02 Jan 2024")]);
   ("meta", PyOther)].

(** The reading of the clock of [t] at offset zero; a naive date-time is
    read as it is. *)
Definition utc_clock (t : datetime) : Z :=
  wall_clock t - match tzinfo t with Some off => off | None => 0 end.

(** The exceptions that the generator lets out. *)
Definition generator_exceptions : list exn :=
  [KeyError; TypeError; AttributeError; IndexError; ValueError; OverflowError].

(** [day_2] with timings that write a UTC offset. *)
Definition day_2_aware : entry :=
  timings_entry "2024-01-02T05:02:00-08:00" "2024-01-02T07:20:00-08:00"
    "2024-01-02T12:11:00-08:00" "2024-01-02T14:41:00-08:00"
    "2024-01-02T17:31:00-08:00" "2024-01-02T18:51:00-08:00".

(** The months [1], ..., [n]. *)
Definition months_up_to (n : Z) : list Z :=
  map (fun k => 1 + Z.of_nat k) (seq 0 (Z.to_nat n)).

(** Two answers of the collaborator that the program cannot tell apart:
    the same entries, or two exceptions. *)
Definition same_answer (r r' : result (list entry)) : Prop :=
  match r, r' with
  | inr a, inr b => a = b
  | inl _, inl _ => True
  | _, _ => False
  end.

(** The entries of the sample months. *)
Definition sample_month (month : Z) : list entry :=
  if month =? 1 then [day_1] else [day_2].

(** A collaborator that answers January at once and never answers
    February. *)
Definition failing_calendar_data (month : Z) (attempt : nat) : result (list entry) :=
  if month =? 1 then ret [day_1] else raise ValueError.

(** [sample_calendar_data] with other exceptions, and with answers where
    the program does not ask. *)
Definition other_calendar_data (month : Z) (attempt : nat) : result (list entry) :=
  if (attempt <? 2)%nat then raise KeyError
  else if (4 <? attempt)%nat then ret []
  else if month =? 1 then ret [day_1]
  else if month =? 2 then ret [day_2]
  else ret [day_1; day_1].

(** ** The file *)

(** The line feed. *)
Definition LF : ascii := ascii_of_nat 10.

(** Lines 168 to 170: what the loop of writes leaves in the file. *)
Fixpoint file_text (lines : list string) : string :=
  match lines with
  | [] => EmptyString
  | line :: lines' => (line ++ String LF EmptyString) ++ file_text lines'
  end.

(** Lines 166 to 170: the text of [prayer_times.csv]; the file is opened
    once the lines are there. *)
Definition main (cfg : config) (get_calendar_data : Z -> nat -> result (list entry))
  : result string :=
  lines <- get_calendar_csv cfg get_calendar_data 12 ;;
  ret (file_text lines).

(** ** Reading the file back *)

(** The character [c] occurs in [s]. *)
Fixpoint occurs (c : ascii) (s : string) : bool :=
  match s with
  | EmptyString => false
  | String c' s' => Ascii.eqb c' c || occurs c s'
  end.

Fixpoint split_on_from (sep : ascii) (s : string) (word : string) : list string :=
  match s with
  | EmptyString => [word]
  | String c s' =>
      if Ascii.eqb c sep then word :: split_on_from sep s' EmptyString
      else split_on_from sep s' (word ++ String c EmptyString)
  end.

(** [s.split(sep)] for a separator of one character. *)
Definition split_on (sep : ascii) (s : string) : list string :=
  split_on_from sep s EmptyString.

Fixpoint text_lines_from (s : string) (word : string) : list string :=
  match s with
  | EmptyString => if (String.length word =? 0)%nat then [] else [word]
  | String c s' =>
      if Ascii.eqb c LF then word :: text_lines_from s' EmptyString
      else text_lines_from s' (word ++ String c EmptyString)
  end.

(** The lines of a text, each ended by a line feed but perhaps the last. *)
Definition text_lines (text : string) : list string :=
  text_lines_from text EmptyString.

(** A collaborator that answers any month at once with [day_1]. *)
Definition constant_calendar_data (month : Z) (attempt : nat) : result (list entry) :=
  ret [day_1].

(** ** The text of a timing *)

(** [YYYY-MM-DDTHH:MM:SS], the text of a naive date-time to the second. *)
Definition isoformat_text (y m d h mi s : Z) : string :=
  zero_pad 4 y ++ "-" ++ zero_pad 2 m ++ "-" ++ zero_pad 2 d ++ "T"
  ++ zero_pad 2 h ++ ":" ++ zero_pad 2 mi ++ ":" ++ zero_pad 2 s.

(** ** The range of [datetime] *)

(** A reading of the clock from 0001-01-01T00:00:00 to
    9999-12-31T23:59:59.999999. *)
Definition in_range (w : Z) : Prop :=
  US_PER_DAY <= w < (Calendar.MAXORDINAL + 1) * US_PER_DAY.

(** The block of the calendar around [t] stays in the range. *)
Definition window_in_range (cfg : config) (t : datetime) : Prop :=
  in_range (wall_clock t - minutes (MINUTES_BEFORE cfg))
  /\ in_range (wall_clock t + minutes (MINUTES_AFTER cfg)).

(** [+HH:MM] or [-HH:MM]: a UTC offset as [isoformat] writes it. *)
Definition offset_text (negative : bool) (h mi : Z) : string :=
  (if negative then "-" else "+") ++ zero_pad 2 h ++ ":" ++ zero_pad 2 mi.
(** Every character of [s] is a code point below 128. *)
Fixpoint is_ascii (s : string) : bool :=
  match s with
  | EmptyString => true
  | String c s' => (code c <? 128) && is_ascii s'
  end.

(** * Properties *)

(** ** The calendar *)

Import Calendar.

Lemma forall_range_spec f count lo :
  forall_range f count lo = true ->
  forall z, lo <= z < lo + Z.of_nat count -> f z = true.
Proof.
  revert lo. induction count as [|count IH]; intros lo H z Hz.
  - simpl in Hz. lia.
  - simpl in H. apply andb_true_iff in H. destruct H as [H0 H1].
    destruct (Z.eq_dec z lo) as [->|Hne]; [exact H0|].
    apply (IH (lo + 1)); [exact H1|lia].
Qed.

Lemma month_day_spec leapyear n :
  0 <= n < 365 -> month_day_ok leapyear n = true.
Proof.
  intros Hn.
  assert (H : forall_range (fun z => month_day_ok true z && month_day_ok false z) 365 0 = true)
    by (vm_compute; reflexivity).
  pose proof (forall_range_spec _ _ _ H n ltac:(lia)) as Hz.
  apply andb_true_iff in Hz. destruct leapyear; tauto.
Qed.

Lemma days_before_year_decomp n400 n100 n4 n1 :
  0 <= n400 -> 0 <= n100 <= 3 -> 0 <= n4 <= 24 -> 0 <= n1 <= 3 ->
  days_before_year (n400 * 400 + 1 + n100 * 100 + n4 * 4 + n1)
  = n400 * DI400Y + n100 * DI100Y + n4 * DI4Y + n1 * 365.
Proof.
  intros. unfold days_before_year, DI400Y, DI100Y, DI4Y.
  Z.div_mod_to_equations; lia.
Qed.

Lemma is_leap_decomp n400 n100 n4 n1 :
  0 <= n400 -> 0 <= n100 <= 3 -> 0 <= n4 <= 24 -> 0 <= n1 <= 3 ->
  is_leap (n400 * 400 + 1 + n100 * 100 + n4 * 4 + n1)
  = (n1 =? 3) && (negb (n4 =? 24) || (n100 =? 3)).
Proof.
  intros. unfold is_leap.
  set (y := n400 * 400 + 1 + n100 * 100 + n4 * 4 + n1).
  assert (E4 : y mod 4 = (n1 + 1) mod 4)
    by (subst y; Z.div_mod_to_equations; lia).
  assert (E100 : y mod 100 = (n4 * 4 + n1 + 1) mod 100)
    by (subst y; Z.div_mod_to_equations; lia).
  assert (E400 : y mod 400 = (n100 * 100 + n4 * 4 + n1 + 1) mod 400)
    by (subst y; Z.div_mod_to_equations; lia).
  rewrite E4, E100, E400.
  destruct (Z.eqb_spec n1 3), (Z.eqb_spec n4 24), (Z.eqb_spec n100 3); simpl;
    repeat match goal with
      | |- context [?a mod ?b =? 0] => destruct (Z.eqb_spec (a mod b) 0)
      end; simpl; try reflexivity;
    exfalso; Z.div_mod_to_equations; lia.
Qed.

Lemma ord2ymd_correct n :
  1 <= n ->
  let '(y, m, d) := ord2ymd n in
  ymd2ord y m d = n /\ 1 <= y /\ 1 <= m <= 12 /\ 1 <= d <= days_in_month y m.
Proof.
  intros Hn. unfold ord2ymd.
  set (n0 := n - 1).
  set (n400 := n0 / DI400Y). set (r400 := n0 mod DI400Y).
  set (n100 := r400 / DI100Y). set (r100 := r400 mod DI100Y).
  set (n4 := r100 / DI4Y). set (r4 := r100 mod DI4Y).
  set (n1 := r4 / 365). set (r1 := r4 mod 365).
  assert (E400 : n0 = n400 * DI400Y + r400 /\ 0 <= r400 < DI400Y /\ 0 <= n400)
    by (subst n400 r400; unfold DI400Y; Z.div_mod_to_equations; lia).
  assert (E100 : r400 = n100 * DI100Y + r100 /\ 0 <= r100 < DI100Y /\ 0 <= n100 <= 4)
    by (subst n100 r100; unfold DI100Y, DI400Y in *; Z.div_mod_to_equations; lia).
  assert (E4 : r100 = n4 * DI4Y + r4 /\ 0 <= r4 < DI4Y /\ 0 <= n4 <= 24)
    by (subst n4 r4; unfold DI4Y, DI100Y in *; Z.div_mod_to_equations; lia).
  assert (E1 : r4 = n1 * 365 + r1 /\ 0 <= r1 < 365 /\ 0 <= n1 <= 4)
    by (subst n1 r1; unfold DI4Y in *; Z.div_mod_to_equations; lia).
  clearbody n400 r400 n100 r100 n4 r4 n1 r1.
  unfold DI400Y, DI100Y, DI4Y in E400, E100, E4.
  destruct (Z.eqb_spec n1 4) as [H1|H1]; [|destruct (Z.eqb_spec n100 4) as [H100|H100]]; simpl orb; cbv iota.
  - (* the last day of a leap year *)
    assert (r1 = 0) by lia. assert (n100 <= 3) by lia. assert (n4 <= 23) by lia.
    replace (n400 * 400 + 1 + n100 * 100 + n4 * 4 + n1 - 1)
      with (n400 * 400 + 1 + n100 * 100 + n4 * 4 + 3) by lia.
    unfold ymd2ord, days_before_month, days_in_month.
    rewrite is_leap_decomp, days_before_year_decomp by lia.
    replace (3 =? 3) with true by reflexivity.
    destruct (Z.eqb_spec n4 24); [lia|]. simpl.
    unfold DI400Y, DI100Y, DI4Y. lia.
  - (* the last day of a cycle of 400 years *)
    assert (r100 = 0 /\ n4 = 0 /\ r4 = 0 /\ n1 = 0 /\ r1 = 0) by lia.
    replace (n400 * 400 + 1 + n100 * 100 + n4 * 4 + n1 - 1)
      with (n400 * 400 + 1 + 3 * 100 + 24 * 4 + 3) by lia.
    unfold ymd2ord, days_before_month, days_in_month.
    rewrite is_leap_decomp, days_before_year_decomp by lia.
    simpl. unfold DI400Y, DI100Y, DI4Y. lia.
  - pose proof (month_day_spec ((n1 =? 3) && (negb (n4 =? 24) || (n100 =? 3))) r1 ltac:(lia)) as Hmd.
    unfold month_day_ok, month_day in Hmd.
    set (leap := (n1 =? 3) && (negb (n4 =? 24) || (n100 =? 3))) in *.
    set (mo := Z.shiftr (r1 + 50) 5) in *.
    set (pre := DAYS_BEFORE_MONTH mo + (if (2 <? mo) && leap then 1 else 0)) in *.
    destruct (r1 <? pre);
      repeat (apply andb_true_iff in Hmd; destruct Hmd as [Hmd ?]);
      unfold ymd2ord, days_before_month, days_in_month;
      rewrite is_leap_decomp, days_before_year_decomp by lia;
      fold leap.
    + set (mo' := mo - 1) in *.
      assert (Hdim : (if (mo' =? 2) && leap then 29 else DAYS_IN_MONTH mo')
                     = DAYS_IN_MONTH mo' + (if (mo' =? 2) && leap then 1 else 0)).
      { destruct (Z.eqb_spec mo' 2) as [->|]; simpl; [destruct leap; reflexivity|lia]. }
      rewrite Hdim. unfold DI400Y, DI100Y, DI4Y. lia.
    + assert (Hdim : (if (mo =? 2) && leap then 29 else DAYS_IN_MONTH mo)
                     = DAYS_IN_MONTH mo + (if (mo =? 2) && leap then 1 else 0)).
      { destruct (Z.eqb_spec mo 2) as [->|]; simpl; [destruct leap; reflexivity|lia]. }
      rewrite Hdim. unfold DI400Y, DI100Y, DI4Y. lia.
Qed.

(** ** Exceptions and dates *)

Lemma bind_inr {A B : Type} (m : result A) (k : A -> result B) (b : B) :
  bind m k = inr b -> exists a, m = inr a /\ k a = inr b.
Proof. destruct m as [e|a]; simpl; [discriminate|eauto]. Qed.

Lemma days_before_year_bound y :
  days_before_year y < MAXORDINAL -> y <= MAXYEAR.
Proof.
  unfold days_before_year, MAXORDINAL, MAXYEAR. intros H.
  Z.div_mod_to_equations. lia.
Qed.

Lemma days_before_month_nonneg y m : 0 <= days_before_month y m.
Proof.
  unfold days_before_month, DAYS_BEFORE_MONTH.
  destruct ((2 <? m) && is_leap y);
    repeat match goal with |- context [match ?x with _ => _ end] => destruct x end; lia.
Qed.

Lemma timedelta_new_inr us t :
  timedelta_new us = inr t ->
  t = us /\ -999999999 <= us / US_PER_DAY <= 999999999.
Proof.
  unfold timedelta_new.
  destruct (Z.leb_spec (-999999999) (us / US_PER_DAY)), (Z.leb_spec (us / US_PER_DAY) 999999999);
    cbn [andb]; intros Hr; inversion Hr; subst; split; [reflexivity|split; assumption].
Qed.

Lemma datetime_add_inr self other r :
  datetime_add self other = inr r ->
  wall_clock r = wall_clock self + other
  /\ tzinfo r = tzinfo self
  /\ valid r = true
  /\ 1 <= toordinal r <= MAXORDINAL.
Proof.
  unfold datetime_add.
  set (delta := wall_clock self + other).
  set (days := delta / US_PER_DAY).
  destruct (Z.ltb_spec 0 days) as [Hlo|]; [|discriminate].
  destruct (Z.leb_spec days MAXORDINAL) as [Hhi|]; [|discriminate].
  simpl andb. cbv iota.
  pose proof (ord2ymd_correct days ltac:(lia)) as Hc.
  destruct (ord2ymd days) as [[y m] d]. destruct Hc as (Hord & Hy & Hm & Hd).
  intros H. inversion H; subst r; clear H.
  assert (Hyear : y <= MAXYEAR).
  { apply days_before_year_bound. unfold ymd2ord in Hord.
    pose proof (days_before_month_nonneg y m). lia. }
  unfold wall_clock, toordinal, valid, check_date_args, check_time_args;
    cbn [year month day hour minute second microsecond tzinfo].
  rewrite Hord. unfold MINYEAR, MAXYEAR in *.
  unfold US_PER_DAY, US_PER_SECOND in *.
  repeat split; try lia.
  - Z.div_mod_to_equations. lia.
  - repeat (apply andb_true_iff; split); try (apply Z.leb_le);
      try lia; Z.div_mod_to_equations; lia.
Qed.

Tactic Notation "inv_bind" hyp(H) "as" ident(a) ident(Ha) :=
  apply bind_inr in H; destruct H as (a & Ha & H).

Lemma wall_clock_bounds r :
  valid r = true -> 1 <= toordinal r <= MAXORDINAL ->
  US_PER_DAY <= wall_clock r < (MAXORDINAL + 1) * US_PER_DAY.
Proof.
  unfold valid, check_time_args, wall_clock. intros Hv Ho.
  repeat (apply andb_true_iff in Hv; destruct Hv as [Hv ?]).
  repeat match goal with H : (_ <=? _) = true |- _ => apply Z.leb_le in H end.
  unfold MAXORDINAL, US_PER_DAY, US_PER_SECOND in *. lia.
Qed.

Lemma datetime_sub_same_tz a b :
  tzinfo a = tzinfo b ->
  datetime_sub a b = timedelta_new (wall_clock a - wall_clock b).
Proof.
  intros Htz. unfold datetime_sub. rewrite Htz.
  destruct (timedelta_new (wall_clock a - wall_clock b)) as [e|t]; simpl; [reflexivity|].
  destruct (tzinfo b) as [off|]; [rewrite Z.eqb_refl|]; reflexivity.
Qed.

Lemma timedelta_new_small us :
  - (MAXORDINAL * US_PER_DAY) <= us <= MAXORDINAL * US_PER_DAY ->
  timedelta_new us = inr us.
Proof.
  intros H. unfold timedelta_new.
  assert (Hd : -999999999 <= us / US_PER_DAY <= 999999999).
  { unfold MAXORDINAL, US_PER_DAY, US_PER_SECOND in *. Z.div_mod_to_equations. lia. }
  destruct (Z.leb_spec (-999999999) (us / US_PER_DAY)),
    (Z.leb_spec (us / US_PER_DAY) 999999999); try lia. reflexivity.
Qed.

Lemma event_window_inr cfg t s e :
  event_window cfg t = inr (s, e) ->
  datetime_sub_timedelta t (minutes (MINUTES_BEFORE cfg)) = inr s
  /\ datetime_add t (minutes (MINUTES_AFTER cfg)) = inr e
  /\ datetime_sub e s = inr (minutes (MINUTES_BEFORE cfg + MINUTES_AFTER cfg))
  /\ valid s = true /\ valid e = true.
Proof.
  unfold event_window, timedelta_minutes. intros H.
  inv_bind H as before Hb. apply timedelta_new_inr in Hb. destruct Hb as [-> _].
  inv_bind H as s' Hs.
  inv_bind H as after Ha. apply timedelta_new_inr in Ha. destruct Ha as [-> _].
  inv_bind H as e' He.
  inversion H; subst s' e'; clear H.
  fold (minutes (MINUTES_BEFORE cfg)) in *. fold (minutes (MINUTES_AFTER cfg)) in *.
  split; [assumption|]. split; [assumption|].
  unfold datetime_sub_timedelta in Hs. inv_bind Hs as neg Hn.
  apply timedelta_new_inr in Hn. destruct Hn as [-> _].
  apply datetime_add_inr in Hs, He.
  destruct Hs as (Hws & Htzs & Hvs & Hos), He as (Hwe & Htze & Hve & Hoe).
  split; [|split; assumption].
  rewrite datetime_sub_same_tz by congruence.
  pose proof (wall_clock_bounds _ Hvs Hos). pose proof (wall_clock_bounds _ Hve Hoe).
  replace (wall_clock e - wall_clock s)
    with (minutes (MINUTES_BEFORE cfg + MINUTES_AFTER cfg)) in *
    by (unfold minutes in *; lia).
  apply timedelta_new_small.
  unfold minutes, MAXORDINAL, US_PER_DAY, US_PER_SECOND in *. lia.
Qed.

(** ** The events of a day *)

Lemma copy_fields_inr e et :
  copy_fields e (combine COPIED_FIELDS EVENT_NAMES) [] = inr et ->
  exists fajr sunrise dhuhr asr maghrib isha,
    read_field e "Fajr" = inr fajr
    /\ read_field e "Sunrise" = inr sunrise
    /\ read_field e "Dhuhr" = inr dhuhr
    /\ read_field e "Asr" = inr asr
    /\ read_field e "Maghrib" = inr maghrib
    /\ read_field e "Isha" = inr isha
    /\ et = six_events fajr sunrise dhuhr asr maghrib isha.
Proof.
  simpl. intros H.
  inv_bind H as fajr Hf. inv_bind H as sunrise Hs. inv_bind H as dhuhr Hd.
  inv_bind H as asr Ha. inv_bind H as maghrib Hm. inv_bind H as isha Hi.
  inversion H; subst et; clear H.
  exists fajr, sunrise, dhuhr, asr, maghrib, isha. repeat split; assumption.
Qed.

Lemma add_midnight_inr last fajr sunrise dhuhr asr maghrib isha et :
  add_midnight (Some last) (six_events fajr sunrise dhuhr asr maghrib isha) = inr et ->
  exists elapsed half midnight,
    datetime_sub fajr last = inr elapsed
    /\ timedelta_truediv elapsed 2 = inr half
    /\ datetime_add last half = inr midnight
    /\ et = (EXTRA_MIDNIGHT_EVENT_NAME, midnight)
            :: six_events fajr sunrise dhuhr asr maghrib isha.
Proof.
  unfold add_midnight. simpl. intros H.
  inv_bind H as elapsed He. inv_bind H as half Hh. inv_bind H as midnight Hm.
  inversion H; subst et; clear H.
  exists elapsed, half, midnight. repeat split; assumption.
Qed.

Lemma day_events_inr last e et :
  day_events last e = inr et ->
  exists fajr sunrise dhuhr asr maghrib isha,
    read_field e "Fajr" = inr fajr
    /\ read_field e "Sunrise" = inr sunrise
    /\ read_field e "Dhuhr" = inr dhuhr
    /\ read_field e "Asr" = inr asr
    /\ read_field e "Maghrib" = inr maghrib
    /\ read_field e "Isha" = inr isha
    /\ match last with
       | None => et = six_events fajr sunrise dhuhr asr maghrib isha
       | Some last =>
           exists elapsed half midnight,
             datetime_sub fajr last = inr elapsed
             /\ timedelta_truediv elapsed 2 = inr half
             /\ datetime_add last half = inr midnight
             /\ et = (EXTRA_MIDNIGHT_EVENT_NAME, midnight)
                     :: six_events fajr sunrise dhuhr asr maghrib isha
       end.
Proof.
  unfold day_events. intros H. inv_bind H as et0 H0.
  apply copy_fields_inr in H0.
  destruct H0 as (fajr & sunrise & dhuhr & asr & maghrib & isha & Hf & Hs & Hd & Ha & Hm & Hi & ->).
  exists fajr, sunrise, dhuhr, asr, maghrib, isha.
  repeat (split; [assumption|]).
  destruct last as [last|].
  - apply add_midnight_inr in H. exact H.
  - simpl in H. inversion H. reflexivity.
Qed.

(** The keys of the events of a day are pairwise distinct: each event is
    found again under its name. *)
Lemma day_events_lookup last e et :
  day_events last e = inr et ->
  forall subject t, In (subject, t) (items et) -> dict_getitem et subject = inr t.
Proof.
  intros H. apply day_events_inr in H.
  destruct H as (fajr & sunrise & dhuhr & asr & maghrib & isha & _ & _ & _ & _ & _ & _ & H).
  destruct last as [last|].
  - destruct H as (elapsed & half & midnight & _ & _ & _ & ->).
    intros subject t Hin. simpl in Hin.
    repeat (destruct Hin as [Hin|Hin]; [inversion Hin; subst; reflexivity|]).
    contradiction.
  - subst et. intros subject t Hin. simpl in Hin.
    repeat (destruct Hin as [Hin|Hin]; [inversion Hin; subst; reflexivity|]).
    contradiction.
Qed.

(** ** From the lines to the rows *)

Lemma csv_line_render subject t s e :
  csv_line subject s e = inr (render (mkrow subject t s e)).
Proof. reflexivity. Qed.

Lemma emit_events_rows cfg et its lines :
  (forall subject t, In (subject, t) its -> dict_getitem et subject = inr t) ->
  emit_events cfg et its lines
  = (rows <- mapM (event_row cfg) its ;; ret (lines ++ map render rows)%list).
Proof.
  revert lines. induction its as [|[subject t] its IH]; intros lines Hlook.
  - simpl. rewrite app_nil_r. reflexivity.
  - simpl. rewrite (Hlook subject t) by (left; reflexivity). simpl.
    unfold event_row at 1. simpl.
    destruct (event_window cfg t) as [x|[s e']]; simpl; [reflexivity|].
    rewrite IH by (intros; apply Hlook; right; assumption).
    destruct (mapM (event_row cfg) its) as [x|rows]; simpl; [reflexivity|].
    rewrite <- app_assoc. reflexivity.
Qed.

Lemma process_entry_rows cfg lines last e :
  process_entry cfg (lines, last) e
  = (today <- day_rows cfg last e ;;
     ret ((lines ++ map render (fst today))%list, Some (snd today))).
Proof.
  unfold process_entry, day_rows.
  destruct (day_events last e) as [x|et] eqn:Het; simpl; [reflexivity|].
  rewrite (emit_events_rows cfg et (items et) lines (day_events_lookup _ _ _ Het)).
  destruct (dict_getitem et "Maghrib") as [x|maghrib]; simpl; [reflexivity|].
  destruct (mapM (event_row cfg) (items et)) as [x|rows]; reflexivity.
Qed.

Lemma process_entries_rows cfg es lines last :
  (state <- process_entries cfg es (lines, last) ;; ret (fst state))
  = (days <- rows_by_day cfg es last ;;
     ret (lines ++ map render (List.concat days))%list).
Proof.
  revert lines last. induction es as [|e es IH]; intros lines last.
  - simpl. rewrite app_nil_r. reflexivity.
  - cbn [process_entries rows_by_day]. rewrite process_entry_rows.
    destruct (day_rows cfg last e) as [x|[rows maghrib]]; cbn [bind fst snd ret];
      [reflexivity|].
    rewrite IH.
    destruct (rows_by_day cfg es (Some maghrib)) as [x|days]; simpl; [reflexivity|].
    rewrite map_app, app_assoc. reflexivity.
Qed.

Lemma convert_rows cfg es :
  convert_entries_to_csv_lines cfg es
  = (days <- rows_by_day cfg es None ;; ret (map render (List.concat days))).
Proof.
  unfold convert_entries_to_csv_lines. rewrite process_entries_rows. reflexivity.
Qed.

(** ** The rows of a day and of a run *)

Lemma mapM_event_row cfg its rows :
  mapM (event_row cfg) its = inr rows ->
  map subject rows = map fst its
  /\ map instant rows = map snd its
  /\ Forall (fun r => event_window cfg (instant r) = inr (start r, end_ r)) rows.
Proof.
  revert rows. induction its as [|[name t] its IH]; intros rows H.
  - inversion H. repeat split; constructor.
  - simpl in H. inv_bind H as r Hr. inv_bind H as rows' Hrows.
    inversion H; subst rows; clear H.
    destruct (IH rows' Hrows) as (Hs & Hi & Hw).
    unfold event_row in Hr. inv_bind Hr as w Hw0. inversion Hr; subst r; clear Hr.
    simpl. rewrite Hs, Hi. repeat split. constructor; [|assumption].
    simpl. destruct w; assumption.
Qed.

Lemma day_rows_inr cfg last e rows maghrib :
  day_rows cfg last e = inr (rows, maghrib) ->
  exists et,
    day_events last e = inr et
    /\ read_field e "Maghrib" = inr maghrib
    /\ map subject rows = map fst et
    /\ map instant rows = map snd et
    /\ Forall (fun r => event_window cfg (instant r) = inr (start r, end_ r)) rows.
Proof.
  unfold day_rows. intros H.
  inv_bind H as et Het. inv_bind H as m Hm. inv_bind H as rows' Hrows.
  inversion H; subst rows' m; clear H.
  exists et. split; [assumption|].
  apply mapM_event_row in Hrows. split; [|exact Hrows].
  apply day_events_inr in Het.
  destruct Het as (fajr & sunrise & dhuhr & asr & mg & isha & _ & _ & _ & _ & Hmg & _ & Het).
  destruct last as [last|].
  - destruct Het as (elapsed & half & midnight & _ & _ & _ & ->).
    simpl in Hm. inversion Hm; subst. assumption.
  - subst et. simpl in Hm. inversion Hm; subst. assumption.
Qed.

Lemma rows_by_day_nth cfg es :
  forall last days,
    rows_by_day cfg es last = inr days ->
    List.length days = List.length es
    /\ forall k e,
        nth_error es k = Some e ->
        exists rows maghrib last_k,
          nth_error days k = Some rows
          /\ day_rows cfg last_k e = inr (rows, maghrib)
          /\ match k with
             | O => last_k = last
             | S k' =>
                 exists prev m,
                   nth_error es k' = Some prev
                   /\ read_field prev "Maghrib" = inr m
                   /\ last_k = Some m
             end.
Proof.
  induction es as [|e0 es IH]; intros last days H.
  - inversion H. split; [reflexivity|]. intros [|k] e Hk; discriminate.
  - simpl in H. inv_bind H as today Htoday. inv_bind H as later Hlater.
    inversion H; subst days; clear H.
    destruct today as [rows0 m0]. simpl in *.
    destruct (IH _ _ Hlater) as [Hlen Hnth].
    split; [rewrite Hlen; reflexivity|].
    intros [|k] e Hk; simpl in Hk.
    + inversion Hk; subst e. exists rows0, m0, last. repeat split; assumption.
    + destruct (Hnth k e Hk) as (rows & maghrib & last_k & Hrows & Hday & Hlast).
      exists rows, maghrib, last_k. split; [exact Hrows|]. split; [exact Hday|].
      destruct k as [|k'].
      * exists e0, m0. subst last_k. repeat split.
        apply day_rows_inr in Htoday. destruct Htoday as (et & _ & Hm & _). exact Hm.
      * destruct Hlast as (prev & m & Hprev & Hm & ->).
        exists prev, m. repeat split; assumption.
Qed.

Lemma rows_by_day_days cfg es :
  forall last days,
    rows_by_day cfg es last = inr days ->
    Forall (fun rows => exists last_k e maghrib,
                In e es /\ day_rows cfg last_k e = inr (rows, maghrib)) days.
Proof.
  induction es as [|e0 es IH]; intros last days H.
  - inversion H. constructor.
  - simpl in H. inv_bind H as today Htoday. inv_bind H as later Hlater.
    inversion H; subst days; clear H. destruct today as [rows0 m0]. simpl in *.
    constructor.
    + exists last, e0, m0. split; [left; reflexivity|assumption].
    + eapply Forall_impl; [|exact (IH _ _ Hlater)].
      intros rows (last_k & e & maghrib & Hin & Hday).
      exists last_k, e, maghrib. split; [right; assumption|assumption].
Qed.

Lemma convert_inr cfg es lines :
  convert_entries_to_csv_lines cfg es = inr lines ->
  exists days,
    rows_by_day cfg es None = inr days /\ lines = map render (List.concat days).
Proof.
  rewrite convert_rows. intros H. inv_bind H as days Hd.
  inversion H. exists days. split; [assumption|reflexivity].
Qed.

(** ** The order of the rows of a day *)

Lemma day_subjects cfg es days k rows :
  rows_by_day cfg es None = inr days ->
  nth_error days k = Some rows ->
  map subject rows
  = match k with
    | O => EVENT_NAMES
    | S _ => EXTRA_MIDNIGHT_EVENT_NAME :: EVENT_NAMES
    end.
Proof.
  intros Hdays Hk.
  destruct (rows_by_day_nth cfg es None days Hdays) as [Hlen Hnth].
  assert (Hlt : (k < List.length es)%nat)
    by (rewrite <- Hlen; apply nth_error_Some; congruence).
  destruct (nth_error es k) as [e|] eqn:He;
    [|apply nth_error_None in He; lia].
  destruct (Hnth k e He) as (rows' & maghrib & last_k & Hrows & Hday & Hlast).
  rewrite Hk in Hrows. inversion Hrows; subst rows'; clear Hrows.
  apply day_rows_inr in Hday.
  destruct Hday as (et & Het & _ & Hsub & _). rewrite Hsub.
  apply day_events_inr in Het.
  destruct Het as (fajr & sunrise & dhuhr & asr & mg & isha & _ & _ & _ & _ & _ & _ & Het).
  destruct k as [|k'].
  - subst last_k et. reflexivity.
  - destruct Hlast as (prev & m & _ & _ & ->).
    destruct Het as (elapsed & half & midnight & _ & _ & _ & ->). reflexivity.
Qed.

(** ** Entries that list the same timings in another order *)

Lemma assoc_In {V : Type} key (d : list (string * V)) v :
  assoc key d = Some v -> In (key, v) d.
Proof.
  induction d as [|[k w] d IH]; simpl; [discriminate|].
  destruct (String.eqb_spec k key) as [->|Hne].
  - intros H; inversion H. left; reflexivity.
  - intros H. right. exact (IH H).
Qed.

Lemma In_assoc {V : Type} key (d : list (string * V)) v :
  NoDup (map fst d) -> In (key, v) d -> assoc key d = Some v.
Proof.
  induction d as [|[k w] d IH]; simpl; intros Hnd Hin; [contradiction|].
  inversion Hnd as [|? ? Hnotin Hnd']; subst.
  destruct Hin as [Heq|Hin].
  - inversion Heq; subst. rewrite String.eqb_refl. reflexivity.
  - destruct (String.eqb_spec k key) as [->|Hne]; [|exact (IH Hnd' Hin)].
    exfalso. apply Hnotin. apply (in_map fst) in Hin. exact Hin.
Qed.

Lemma assoc_Permutation {V : Type} key (d d' : list (string * V)) :
  NoDup (map fst d) -> Permutation d d' -> assoc key d' = assoc key d.
Proof.
  intros Hnd Hp.
  assert (Hnd' : NoDup (map fst d'))
    by (eapply Permutation_NoDup; [apply Permutation_map; exact Hp|exact Hnd]).
  destruct (assoc key d) as [v|] eqn:Hd.
  - apply In_assoc; [exact Hnd'|].
    eapply Permutation_in; [exact Hp|]. apply assoc_In. exact Hd.
  - destruct (assoc key d') as [v'|] eqn:Hd'; [|reflexivity].
    apply assoc_In in Hd'. apply (Permutation_in _ (Permutation_sym Hp)) in Hd'.
    apply (In_assoc _ _ _ Hnd) in Hd'. congruence.
Qed.

Lemma read_field_reordered e e' field :
  reordered e e' -> read_field e' field = read_field e field.
Proof.
  intros (t & t' & He & He' & Hnd & Hp).
  unfold read_field, dict_getitem. rewrite He, He'. simpl.
  unfold dict_getitem. rewrite (assoc_Permutation field t t' Hnd Hp). reflexivity.
Qed.

Lemma copy_fields_ext e e' pairs :
  (forall field, read_field e' field = read_field e field) ->
  forall et, copy_fields e' pairs et = copy_fields e pairs et.
Proof.
  intros Hext. induction pairs as [|[field name] pairs IH]; intros et; simpl.
  - reflexivity.
  - rewrite Hext. destruct (read_field e field); simpl; [reflexivity|apply IH].
Qed.

Lemma process_entries_reordered cfg es es' :
  Forall2 reordered es es' ->
  forall state, process_entries cfg es' state = process_entries cfg es state.
Proof.
  induction 1 as [|e e' es es' He _ IH]; intros state; simpl.
  - reflexivity.
  - destruct state as [lines last].
    unfold process_entry, day_events.
    rewrite (copy_fields_ext e e') by (intros; apply read_field_reordered; exact He).
    match goal with |- bind ?m _ = bind ?m _ => destruct m as [x|st] end;
      simpl; [reflexivity|apply IH].
Qed.

(** C2. On a run that succeeds, the first record gives six rows, none of
    them named Midnight; every later record gives seven rows, the first of
    them named Midnight and no other. *)
Theorem first_day_six_rows_later_days_seven cfg es lines :
  convert_entries_to_csv_lines cfg es = inr lines ->
  exists days,
    rows_by_day cfg es None = inr days
    /\ lines = map render (List.concat days)
    /\ List.length days = List.length es
    /\ forall k rows,
        nth_error days k = Some rows ->
        match k with
        | O =>
            List.length rows = 6%nat
            /\ ~ In EXTRA_MIDNIGHT_EVENT_NAME (map subject rows)
        | S _ =>
            List.length rows = 7%nat
            /\ option_map subject (hd_error rows) = Some EXTRA_MIDNIGHT_EVENT_NAME
            /\ ~ In EXTRA_MIDNIGHT_EVENT_NAME (map subject (tl rows))
        end.
Proof.
  intros H. destruct (convert_inr _ _ _ H) as (days & Hdays & Hlines).
  exists days. split; [exact Hdays|]. split; [exact Hlines|].
  split; [apply (rows_by_day_nth cfg es None days Hdays)|].
  intros k rows Hk.
  pose proof (day_subjects cfg es days k rows Hdays Hk) as Hs.
  assert (Hl : List.length rows = List.length (map subject rows))
    by (symmetry; apply length_map).
  destruct k as [|k].
  - rewrite Hl, Hs. split; [reflexivity|].
    simpl. intros Hin.
    repeat (destruct Hin as [Hin|Hin]; [discriminate|]). contradiction.
  - rewrite Hl, Hs. split; [reflexivity|].
    destruct rows as [|r rows]; [discriminate|]. simpl in Hs.
    inversion Hs as [[Hr Hrest]]. simpl. rewrite Hr. split; [reflexivity|].
    rewrite Hrest. simpl. intros Hin.
    repeat (destruct Hin as [Hin|Hin]; [discriminate|]). contradiction.
Qed.

(** C3. The rows of a day come in the order Midnight (from the second day
    on), Fajr, Sunrise, Dhuhr, Asr, Maghrib, Isha; and a run on entries whose
    timings list the same mapping in another order gives the same result. *)
Theorem canonical_order_of_rows cfg es :
  (forall lines,
      convert_entries_to_csv_lines cfg es = inr lines ->
      exists days,
        rows_by_day cfg es None = inr days
        /\ lines = map render (List.concat days)
        /\ forall k rows,
            nth_error days k = Some rows ->
            map subject rows
            = match k with
              | O => ["Fajr"; "Sunrise"; "Dhuhr"; "Asr"; "Maghrib"; "Isha"]
              | S _ =>
                  ["Midnight"; "Fajr"; "Sunrise"; "Dhuhr"; "Asr"; "Maghrib"; "Isha"]
              end)
  /\ (forall es',
         Forall2 reordered es es' ->
         convert_entries_to_csv_lines cfg es' = convert_entries_to_csv_lines cfg es).
Proof.
  split.
  - intros lines H. destruct (convert_inr _ _ _ H) as (days & Hdays & Hlines).
    exists days. split; [exact Hdays|]. split; [exact Hlines|].
    intros k rows Hk. exact (day_subjects cfg es days k rows Hdays Hk).
  - intros es' Hre. unfold convert_entries_to_csv_lines.
    rewrite (process_entries_reordered cfg es es' Hre). reflexivity.
Qed.

(** C5. On a run that succeeds, every row, the Midnight rows among them,
    starts [MINUTES_BEFORE] minutes before its instant and ends
    [MINUTES_AFTER] minutes after it, and its end minus its start is
    exactly [MINUTES_BEFORE + MINUTES_AFTER] minutes. *)
Theorem window_is_lead_plus_lag cfg es lines :
  convert_entries_to_csv_lines cfg es = inr lines ->
  exists days,
    rows_by_day cfg es None = inr days
    /\ lines = map render (List.concat days)
    /\ Forall
         (fun r =>
            datetime_sub_timedelta (instant r) (minutes (MINUTES_BEFORE cfg))
            = inr (start r)
            /\ datetime_add (instant r) (minutes (MINUTES_AFTER cfg)) = inr (end_ r)
            /\ datetime_sub (end_ r) (start r)
               = inr (minutes (MINUTES_BEFORE cfg + MINUTES_AFTER cfg)))
         (List.concat days).
Proof.
  intros H. destruct (convert_inr _ _ _ H) as (days & Hdays & Hlines).
  exists days. split; [exact Hdays|]. split; [exact Hlines|].
  apply Forall_concat.
  eapply Forall_impl; [|exact (rows_by_day_days cfg es None days Hdays)].
  intros rows (last_k & e & maghrib & _ & Hday).
  apply day_rows_inr in Hday. destruct Hday as (et & _ & _ & _ & _ & Hw).
  eapply Forall_impl; [|exact Hw].
  intros r Hr.
  pose proof (event_window_inr cfg (instant r) (start r) (end_ r) Hr). tauto.
Qed.

(** ** The state of the loop *)

Lemma process_entries_app cfg es1 es2 state :
  process_entries cfg (es1 ++ es2) state
  = (state' <- process_entries cfg es1 state ;; process_entries cfg es2 state').
Proof.
  revert state. induction es1 as [|e es1 IH]; intros state.
  - reflexivity.
  - cbn [app process_entries].
    destruct (process_entry cfg state e) as [x|state1]; cbn [bind];
      [reflexivity|apply IH].
Qed.

Lemma process_entry_inr cfg lines last e lines' last' :
  process_entry cfg (lines, last) e = inr (lines', last') ->
  exists rows maghrib,
    day_rows cfg last e = inr (rows, maghrib)
    /\ read_field e "Maghrib" = inr maghrib
    /\ lines' = (lines ++ map render rows)%list
    /\ last' = Some maghrib.
Proof.
  rewrite process_entry_rows. intros H. inv_bind H as today Htoday.
  destruct today as [rows maghrib]. inversion H; subst; clear H.
  exists rows, maghrib. split; [exact Htoday|].
  apply day_rows_inr in Htoday. destruct Htoday as (et & _ & Hm & _).
  repeat split. exact Hm.
Qed.

Lemma process_entries_extends cfg es lines last lines' last' :
  process_entries cfg es (lines, last) = inr (lines', last') ->
  exists rest, lines' = (lines ++ rest)%list.
Proof.
  intros H. pose proof (process_entries_rows cfg es lines last) as Hr.
  rewrite H in Hr. cbn [bind fst ret] in Hr.
  destruct (rows_by_day cfg es last) as [x|days]; [discriminate|].
  inversion Hr. eexists. reflexivity.
Qed.

(** C7. After a record is processed, the variable carried to the next
    round is the Maghrib instant read from that record; the next round
    depends on the past through that variable only, and appends its rows
    to the lines so far. *)
Theorem carried_state_is_maghrib_of_current_record cfg pre e lines last :
  process_entries cfg (pre ++ [e]) ([], None) = inr (lines, last) ->
  exists maghrib,
    read_field e "Maghrib" = inr maghrib
    /\ last = Some maghrib
    /\ forall next lines' last',
        process_entry cfg (lines, last) next = inr (lines', last') ->
        exists rows maghrib',
          day_rows cfg (Some maghrib) next = inr (rows, maghrib')
          /\ lines' = (lines ++ map render rows)%list
          /\ last' = Some maghrib'.
Proof.
  rewrite process_entries_app. intros H. inv_bind H as state Hpre.
  destruct state as [lines0 last0]. cbn [process_entries] in H.
  inv_bind H as state Hlast. inversion H; subst state; clear H.
  apply process_entry_inr in Hlast.
  destruct Hlast as (rows & maghrib & _ & Hm & _ & ->).
  exists maghrib. split; [exact Hm|]. split; [reflexivity|].
  intros next lines' last' Hnext. apply process_entry_inr in Hnext.
  destruct Hnext as (rows' & maghrib' & Hday & _ & Hl & Hla).
  exists rows', maghrib'. repeat split; assumption.
Qed.

(** C9. Two runs on the same configuration and the same entries give the
    same result, lines or exception. *)
Theorem same_input_same_output cfg es out1 out2 :
  convert_entries_to_csv_lines cfg es = out1 ->
  convert_entries_to_csv_lines cfg es = out2 ->
  out1 = out2.
Proof. intros H1 H2. rewrite <- H1, <- H2. reflexivity. Qed.

(** C10. No entry gives no line; and the lines of the first [k] entries
    are the first lines of the whole run. *)
Theorem lines_of_a_prefix cfg :
  convert_entries_to_csv_lines cfg [] = inr []
  /\ forall es k lines,
      convert_entries_to_csv_lines cfg es = inr lines ->
      exists first rest,
        convert_entries_to_csv_lines cfg (firstn k es) = inr first
        /\ lines = (first ++ rest)%list.
Proof.
  split; [reflexivity|].
  intros es k lines. unfold convert_entries_to_csv_lines.
  rewrite <- (firstn_skipn k es) at 1. rewrite process_entries_app.
  intros H. inv_bind H as state Hall. inv_bind Hall as state1 Hfirst.
  inversion H; subst lines; clear H.
  destruct state1 as [first last1], state as [lines last].
  apply process_entries_extends in Hall. destruct Hall as [rest ->].
  exists first, rest. rewrite Hfirst. split; reflexivity.
Qed.

(** ** Malformed records *)

Lemma copy_fields_fails e pairs field name x :
  In (field, name) pairs ->
  read_field e field = inl x ->
  forall et, exists x', copy_fields e pairs et = inl x'.
Proof.
  intros Hin Hx. induction pairs as [|[f n] pairs IH]; intros et; [contradiction|].
  simpl. destruct Hin as [Heq|Hin].
  - inversion Heq; subst. rewrite Hx. exists x. reflexivity.
  - destruct (read_field e f) as [x0|t]; simpl; [exists x0; reflexivity|].
    apply (IH Hin).
Qed.

Lemma malformed_field_raises e field :
  field_missing e field \/ field_unparsable e field ->
  exists x, read_field e field = inl x.
Proof.
  unfold read_field, dict_getitem.
  intros [[Hnone|(t & Ht & Hf)]|(t & v & Ht & Hf & Hp)].
  - rewrite Hnone. exists KeyError. reflexivity.
  - rewrite Ht. simpl. unfold dict_getitem. rewrite Hf. exists KeyError. reflexivity.
  - rewrite Ht. simpl. unfold dict_getitem. rewrite Hf. simpl.
    destruct (parse_timing v) as [x|dt]; [exists x; reflexivity|].
    exfalso. exact (Hp dt eq_refl).
Qed.

Lemma process_entries_fails cfg e es :
  In e es ->
  (forall state, exists x, process_entry cfg state e = inl x) ->
  forall state, exists x, process_entries cfg es state = inl x.
Proof.
  intros Hin Hfail. induction es as [|e0 es IH]; intros state; [contradiction|].
  simpl. destruct Hin as [->|Hin].
  - destruct (Hfail state) as [x Hx]. rewrite Hx. exists x. reflexivity.
  - destruct (process_entry cfg state e0) as [x|state1]; simpl;
      [exists x; reflexivity|apply (IH Hin)].
Qed.

(** ** The midnight *)

Ltac conjs := repeat match goal with |- _ /\ _ => split end.

Lemma divide_and_round_2 a :
  (Z.even a = true -> 2 * divide_and_round a 2 = a)
  /\ -1 <= 2 * divide_and_round a 2 - a <= 1.
Proof.
  unfold divide_and_round. cbn [Z.ltb Z.compare].
  rewrite Zeven_mod.
  destruct (Z.ltb_spec 2 (a mod 2 * 2)) as [H1|H1];
    destruct (Z.eqb_spec (a mod 2 * 2) 2) as [H2|H2];
    destruct (Z.eqb_spec (a / 2 mod 2) 1) as [H3|H3];
    destruct (Z.eqb_spec (a mod 2) 0) as [H4|H4];
    cbn [orb andb]; split; try discriminate; intros;
    Z.div_mod_to_equations; lia.
Qed.

Lemma timedelta_truediv_2 elapsed half :
  timedelta_truediv elapsed 2 = inr half ->
  half = divide_and_round elapsed 2 /\ timedelta_new half = inr half.
Proof.
  unfold timedelta_truediv. cbn [Z.eqb]. intros H.
  pose proof (timedelta_new_inr _ _ H) as [-> _]. split; [reflexivity|exact H].
Qed.

(** C1, as amended. From the second record on, the Midnight row comes
    first and its instant is the previous Maghrib plus half of the time
    from that Maghrib to the Fajr of the record, the half being rounded to a
    whole microsecond, a tie to the even one: it is the exact midpoint when
    the two instants are an even number of microseconds apart, and within
    half a microsecond of it otherwise.  With Maghrib at 17:30:00 on
    2024-01-01 and Fajr at 05:02:00 on 2024-01-02, it is 23:16:00 on
    2024-01-01. *)
Theorem midnight_is_rounded_midpoint :
  (forall cfg es k prev e lines,
      convert_entries_to_csv_lines cfg es = inr lines ->
      nth_error es k = Some prev ->
      nth_error es (S k) = Some e ->
      exists days row rest maghrib fajr elapsed,
        rows_by_day cfg es None = inr days
        /\ lines = map render (List.concat days)
        /\ nth_error days (S k) = Some (row :: rest)
        /\ subject row = EXTRA_MIDNIGHT_EVENT_NAME
        /\ read_field prev "Maghrib" = inr maghrib
        /\ read_field e "Fajr" = inr fajr
        /\ datetime_sub fajr maghrib = inr elapsed
        /\ datetime_add maghrib (divide_and_round elapsed 2) = inr (instant row)
        /\ datetime_sub (instant row) maghrib = inr (divide_and_round elapsed 2)
        /\ (Z.even elapsed = true -> 2 * divide_and_round elapsed 2 = elapsed)
        /\ -1 <= 2 * divide_and_round elapsed 2 - elapsed <= 1)
  /\ (exists first row rest,
         rows_by_day default_config [day_1; day_2] None
         = inr [first; row :: rest]
         /\ read_field day_1 "Maghrib" = inr (mkdatetime 2024 1 1 17 30 0 0 None)
         /\ read_field day_2 "Fajr" = inr (mkdatetime 2024 1 2 5 2 0 0 None)
         /\ subject row = EXTRA_MIDNIGHT_EVENT_NAME
         /\ instant row = mkdatetime 2024 1 1 23 16 0 0 None).
Proof.
  split.
  - intros cfg es k prev e lines H Hprev He.
    destruct (convert_inr _ _ _ H) as (days & Hdays & Hlines).
    destruct (rows_by_day_nth cfg es None days Hdays) as [_ Hnth].
    destruct (Hnth (S k) e He) as (rows & mg & last_k & Hrows & Hday & Hlast).
    destruct Hlast as (prev' & maghrib & Hprev' & Hm & ->).
    rewrite Hprev in Hprev'. inversion Hprev'; subst prev'; clear Hprev'.
    apply day_rows_inr in Hday.
    destruct Hday as (et & Het & _ & Hsub & Hinst & _).
    apply day_events_inr in Het.
    destruct Het as (fajr & sunrise & dhuhr & asr & mg' & isha & Hf & _ & _ & _ & _ & _ & Het).
    destruct Het as (elapsed & half & midnight & Hel & Hhalf & Hmid & ->).
    destruct rows as [|row rest]; [discriminate|].
    cbn [map fst snd] in Hsub, Hinst.
    injection Hsub as Hrow _. injection Hinst as Hirow _.
    apply timedelta_truediv_2 in Hhalf. destruct Hhalf as [-> Hnew].
    exists days, row, rest, maghrib, fajr, elapsed.
    rewrite Hirow.
    repeat (split; [assumption|]).
    split.
    + rewrite datetime_sub_same_tz
        by (apply (datetime_add_inr _ _ _ Hmid)).
      destruct (datetime_add_inr _ _ _ Hmid) as (Hw & _).
      replace (wall_clock midnight - wall_clock maghrib)
        with (divide_and_round elapsed 2) by lia.
      exact Hnew.
    + apply divide_and_round_2.
  - eexists _, _, _. conjs; vm_compute; reflexivity.
Qed.

Lemma midnight_is_rounded_midpoint_witness :
  exists days row rest maghrib fajr elapsed,
    rows_by_day default_config [day_1; day_2] None = inr days
    /\ two_day_lines = map render (List.concat days)
    /\ nth_error days 1 = Some (row :: rest)
    /\ subject row = EXTRA_MIDNIGHT_EVENT_NAME
    /\ read_field day_1 "Maghrib" = inr maghrib
    /\ read_field day_2 "Fajr" = inr fajr
    /\ datetime_sub fajr maghrib = inr elapsed
    /\ datetime_add maghrib (divide_and_round elapsed 2) = inr (instant row)
    /\ datetime_sub (instant row) maghrib = inr (divide_and_round elapsed 2)
    /\ (Z.even elapsed = true -> 2 * divide_and_round elapsed 2 = elapsed)
    /\ -1 <= 2 * divide_and_round elapsed 2 - elapsed <= 1.
Proof.
  apply (proj1 midnight_is_rounded_midpoint default_config [day_1; day_2] 0%nat
           day_1 day_2 two_day_lines).
  - vm_compute. reflexivity.
  - reflexivity.
  - reflexivity.
Defined.

(** C1, as stated, fails on a sunset given to the microsecond: the
    midnight is then not at equal distances from the Maghrib and the
    Fajr. *)
Lemma midnight_not_exact_midpoint :
  exists first row rest,
    rows_by_day default_config [day_1_microsecond; day_2] None
    = inr [first; row :: rest]
    /\ subject row = EXTRA_MIDNIGHT_EVENT_NAME
    /\ read_field day_1_microsecond "Maghrib"
       = inr (mkdatetime 2024 1 1 17 30 0 1 None)
    /\ read_field day_2 "Fajr" = inr (mkdatetime 2024 1 2 5 2 0 0 None)
    /\ datetime_sub (instant row) (mkdatetime 2024 1 1 17 30 0 1 None)
       = inr 20760000000
    /\ datetime_sub (mkdatetime 2024 1 2 5 2 0 0 None) (instant row)
       = inr 20759999999
    /\ 20760000000 <> 20759999999.
Proof.
  eexists _, _, _. conjs; try (vm_compute; reflexivity). discriminate.
Qed.

(** ** From the text of a timing to its instant *)

Lemma append_assoc (a b c : string) : (a ++ b) ++ c = a ++ (b ++ c).
Proof. induction a as [|x a IH]; simpl; [reflexivity|rewrite IH; reflexivity]. Qed.

Lemma append_empty_r (a : string) : a ++ EmptyString = a.
Proof. induction a as [|x a IH]; simpl; [reflexivity|rewrite IH; reflexivity]. Qed.

Lemma split_from_no_space w s word :
  no_space w = true -> split_from (w ++ s) word = split_from s (word ++ w).
Proof.
  revert word. induction w as [|c w IH]; intros word H; simpl.
  - rewrite append_empty_r. reflexivity.
  - simpl in H. apply andb_true_iff in H. destruct H as [Hc Hw].
    apply negb_true_iff in Hc. rewrite Hc. rewrite (IH _ Hw).
    rewrite append_assoc. reflexivity.
Qed.

Lemma split_first_token token c rest :
  token <> EmptyString -> no_space token = true -> isspace c = true ->
  split (token ++ String c rest) = token :: split rest.
Proof.
  intros Hne Hns Hc. unfold split. rewrite (split_from_no_space _ _ _ Hns).
  simpl. rewrite Hc.
  destruct token as [|x token]; [congruence|reflexivity].
Qed.

Lemma split_single_token token :
  token <> EmptyString -> no_space token = true -> split token = [token].
Proof.
  intros Hne Hns. unfold split.
  rewrite <- (append_empty_r token) at 1.
  rewrite (split_from_no_space _ _ _ Hns). simpl.
  destruct token as [|x token]; [congruence|reflexivity].
Qed.

(** ** The text of a row *)

Lemma zero_pad_2_spec n : 0 <= n <= 99 -> zero_pad_2_ok n = true.
Proof.
  intros Hn.
  assert (H : forall_range zero_pad_2_ok 100 0 = true) by (vm_compute; reflexivity).
  apply (forall_range_spec _ _ _ H). lia.
Qed.

Lemma zero_pad_4_spec n : 0 <= n <= 9999 -> zero_pad_4_ok n = true.
Proof.
  intros Hn.
  assert (H : forall_range zero_pad_4_ok (Z.to_nat 10000) 0 = true)
    by (vm_compute; reflexivity).
  apply (forall_range_spec _ _ _ H). rewrite Z2Nat.id; lia.
Qed.

Lemma parse_digits_zero_pad_2 n rest :
  0 <= n <= 99 -> parse_digits (zero_pad 2 n ++ rest) 0 2 = Some (n, rest).
Proof.
  intros Hn. pose proof (zero_pad_2_spec n Hn) as H. unfold zero_pad_2_ok in H.
  destruct (zero_pad 2 n) as [|a [|b [|c s]]]; try discriminate.
  cbn [append parse_digits].
  destruct (digit_val a) as [x|]; [|discriminate].
  destruct (digit_val b) as [y|]; [|discriminate].
  apply Z.eqb_eq in H. f_equal. f_equal. lia.
Qed.

Lemma parse_digits_zero_pad_4 n rest :
  0 <= n <= 9999 -> parse_digits (zero_pad 4 n ++ rest) 0 4 = Some (n, rest).
Proof.
  intros Hn. pose proof (zero_pad_4_spec n Hn) as H. unfold zero_pad_4_ok in H.
  destruct (zero_pad 4 n) as [|a [|b [|c [|d [|e s]]]]]; try discriminate.
  cbn [append parse_digits].
  destruct (digit_val a) as [x|]; [|discriminate].
  destruct (digit_val b) as [y|]; [|discriminate].
  destruct (digit_val c) as [z|]; [|discriminate].
  destruct (digit_val d) as [w|]; [|discriminate].
  apply Z.eqb_eq in H. f_equal. f_equal. lia.
Qed.

Lemma days_in_month_le_31 y m : days_in_month y m <= 31.
Proof.
  unfold days_in_month, DAYS_IN_MONTH.
  destruct ((m =? 2) && is_leap y); [lia|].
  repeat match goal with |- context [match ?x with _ => _ end] => destruct x end; lia.
Qed.

Lemma valid_ranges dt :
  valid dt = true ->
  1 <= year dt <= 9999 /\ 1 <= month dt <= 12 /\ 1 <= day dt <= 31
  /\ 0 <= hour dt <= 23 /\ 0 <= minute dt <= 59 /\ 0 <= second dt <= 59.
Proof.
  unfold valid, check_date_args, check_time_args, MINYEAR, MAXYEAR. intros H.
  repeat (apply andb_true_iff in H; destruct H as [H ?]).
  repeat match goal with Hle : (_ <=? _) = true |- _ => apply Z.leb_le in Hle end.
  pose proof (days_in_month_le_31 (year dt) (month dt)). lia.
Qed.

Lemma str_of_int_spec n : 1 <= n <= 9999 -> str_of_int_ok n = true.
Proof.
  intros Hn.
  assert (H : forall_range str_of_int_ok (Z.to_nat 9999) 1 = true)
    by (vm_compute; reflexivity).
  apply (forall_range_spec _ _ _ H). rewrite Z2Nat.id; lia.
Qed.

Lemma read_digits_str_of_int n :
  1 <= n <= 9999 -> read_digits (str_of_int n) 0 = Some (n, decimal_width n).
Proof.
  intros Hn. pose proof (str_of_int_spec n Hn) as H. unfold str_of_int_ok in H.
  destruct (read_digits (str_of_int n) 0) as [[v k]|]; [|discriminate].
  apply andb_true_iff in H. destruct H as [Hv Hk].
  apply Z.eqb_eq in Hv. apply Nat.eqb_eq in Hk. subst. reflexivity.
Qed.

Lemma decimal_width_pos n : exists k, decimal_width n = S k.
Proof.
  unfold decimal_width.
  destruct (n <? 10); [eexists; reflexivity|].
  destruct (n <? 100); [eexists; reflexivity|].
  destruct (n <? 1000); eexists; reflexivity.
Qed.

Lemma decimal_width_4 n : 1000 <= n -> decimal_width n = 4%nat.
Proof.
  intros Hn. unfold decimal_width.
  destruct (Z.ltb_spec n 10); [lia|]. destruct (Z.ltb_spec n 100); [lia|].
  destruct (Z.ltb_spec n 1000); [lia|reflexivity].
Qed.

Lemma read_date_strftime dt :
  valid dt = true ->
  read_date (strftime dt DATE_FORMAT)
  = Some (month dt, day dt, year dt, decimal_width (year dt)).
Proof.
  intros Hv. destruct (valid_ranges dt Hv) as (Hy & Hm & Hd & _).
  change (strftime dt DATE_FORMAT)
    with (zero_pad 2 (month dt)
          ++ String "/" (zero_pad 2 (day dt)
                         ++ String "/" (str_of_int (year dt) ++ EmptyString))).
  unfold read_date.
  rewrite parse_digits_zero_pad_2 by lia. cbn [expect].
  change (code "/" =? 47) with true. cbn iota.
  rewrite parse_digits_zero_pad_2 by lia. cbn [expect].
  change (code "/" =? 47) with true. cbn iota.
  rewrite append_empty_r, read_digits_str_of_int by lia.
  destruct (decimal_width_pos (year dt)) as [k Hk]. rewrite Hk. reflexivity.
Qed.

Lemma read_time_strftime dt :
  valid dt = true ->
  read_time (strftime dt TIME_FORMAT)
  = Some (hour12 dt, minute dt, second dt, 12 <=? hour dt).
Proof.
  intros Hv. destruct (valid_ranges dt Hv) as (_ & _ & _ & Hh & Hmi & Hs).
  change (strftime dt TIME_FORMAT)
    with (zero_pad 2 (hour12 dt)
          ++ String ":" (zero_pad 2 (minute dt)
                         ++ String ":" (zero_pad 2 (second dt)
                                        ++ String " " ((if hour dt <? 12 then "AM" else "PM")
                                                       ++ EmptyString)))).
  assert (H12 : 0 <= hour12 dt <= 99).
  { unfold hour12. destruct (hour dt mod 12 =? 0); [lia|].
    pose proof (Z.mod_pos_bound (hour dt) 12 ltac:(lia)). lia. }
  unfold read_time.
  rewrite parse_digits_zero_pad_2 by lia. cbn [expect].
  change (code ":" =? 58) with true. cbn iota.
  rewrite parse_digits_zero_pad_2 by lia. cbn [expect].
  change (code ":" =? 58) with true. cbn iota.
  rewrite parse_digits_zero_pad_2 by lia.
  destruct (Z.ltb_spec (hour dt) 12) as [Hlt|Hge].
  - replace (12 <=? hour dt) with false by (symmetry; apply Z.leb_gt; lia).
    reflexivity.
  - replace (12 <=? hour dt) with true by (symmetry; apply Z.leb_le; lia).
    reflexivity.
Qed.

Lemma rows_of_run cfg es last days :
  rows_by_day cfg es last = inr days ->
  Forall (fun r =>
            In (subject r) (EXTRA_MIDNIGHT_EVENT_NAME :: EVENT_NAMES)
            /\ event_window cfg (instant r) = inr (start r, end_ r))
         (List.concat days).
Proof.
  intros Hdays. apply Forall_concat.
  eapply Forall_impl; [|exact (rows_by_day_days cfg es last days Hdays)].
  intros rows (last_k & e & maghrib & _ & Hday).
  apply day_rows_inr in Hday. destruct Hday as (et & Het & _ & Hsub & _ & Hw).
  assert (Hnames : incl (map fst et) (EXTRA_MIDNIGHT_EVENT_NAME :: EVENT_NAMES)).
  { apply day_events_inr in Het.
    destruct Het as (fajr & sunrise & dhuhr & asr & mg & isha & _ & _ & _ & _ & _ & _ & Het).
    destruct last_k as [last_k|].
    - destruct Het as (elapsed & half & midnight & _ & _ & _ & ->).
      apply incl_refl.
    - subst et. apply incl_tl. apply incl_refl. }
  rewrite Forall_forall in Hw |- *. intros r Hr. split; [|exact (Hw r Hr)].
  apply Hnames. rewrite <- Hsub. apply in_map. exact Hr.
Qed.

(** C8, as amended. The output of a successful run starts with the
    header.  Every later line is the name of an event, the date and the time
    of the start, the date and the time of the end and the word
    Auto-generated, joined by commas and nothing else; a date reads as
    month and day in two digits and the year in decimal without padding,
    between slashes, so with a year of four digits from the year 1000 on; a
    time reads as hour of the 12-hour clock, minute and second in two digits
    between colons, then AM or PM. *)
Theorem csv_output_format cfg get_calendar_data num_months lines :
  get_calendar_csv cfg get_calendar_data num_months = inr lines ->
  exists rows,
    lines
    = "Subject,Start Date,Start Time,End Date,End Time,Description"
      :: map (fun r =>
                subject r ++ "," ++ strftime (start r) DATE_FORMAT
                ++ "," ++ strftime (start r) TIME_FORMAT
                ++ "," ++ strftime (end_ r) DATE_FORMAT
                ++ "," ++ strftime (end_ r) TIME_FORMAT
                ++ ",Auto-generated") rows
    /\ Forall
         (fun r =>
            In (subject r)
               ["Midnight"; "Fajr"; "Sunrise"; "Dhuhr"; "Asr"; "Maghrib"; "Isha"]
            /\ read_date (strftime (start r) DATE_FORMAT)
               = Some (month (start r), day (start r), year (start r),
                       decimal_width (year (start r)))
            /\ (1000 <= year (start r) -> decimal_width (year (start r)) = 4%nat)
            /\ read_time (strftime (start r) TIME_FORMAT)
               = Some (hour12 (start r), minute (start r), second (start r),
                       12 <=? hour (start r))
            /\ read_date (strftime (end_ r) DATE_FORMAT)
               = Some (month (end_ r), day (end_ r), year (end_ r),
                       decimal_width (year (end_ r)))
            /\ (1000 <= year (end_ r) -> decimal_width (year (end_ r)) = 4%nat)
            /\ read_time (strftime (end_ r) TIME_FORMAT)
               = Some (hour12 (end_ r), minute (end_ r), second (end_ r),
                       12 <=? hour (end_ r)))
         rows.
Proof.
  unfold get_calendar_csv. destruct (_ && _); [|discriminate].
  intros H. inv_bind H as entries Hentries. inv_bind H as body Hbody.
  inversion H; subst lines; clear H.
  destruct (convert_inr _ _ _ Hbody) as (days & Hdays & ->).
  exists (List.concat days). split; [reflexivity|].
  eapply Forall_impl; [|exact (rows_of_run cfg entries None days Hdays)].
  intros r [Hsub Hw]. split; [exact Hsub|].
  destruct (event_window_inr cfg (instant r) (start r) (end_ r) Hw)
    as (_ & _ & _ & Hvs & Hve).
  split; [exact (read_date_strftime _ Hvs)|].
  split; [apply decimal_width_4|].
  split; [exact (read_time_strftime _ Hvs)|].
  split; [exact (read_date_strftime _ Hve)|].
  split; [apply decimal_width_4|exact (read_time_strftime _ Hve)].
Qed.

Lemma csv_output_format_witness :
  exists rows,
    HEADER :: two_day_lines
    = "Subject,Start Date,Start Time,End Date,End Time,Description"
      :: map (fun r =>
                subject r ++ "," ++ strftime (start r) DATE_FORMAT
                ++ "," ++ strftime (start r) TIME_FORMAT
                ++ "," ++ strftime (end_ r) DATE_FORMAT
                ++ "," ++ strftime (end_ r) TIME_FORMAT
                ++ ",Auto-generated") rows
    /\ Forall
         (fun r =>
            In (subject r)
               ["Midnight"; "Fajr"; "Sunrise"; "Dhuhr"; "Asr"; "Maghrib"; "Isha"]
            /\ read_date (strftime (start r) DATE_FORMAT)
               = Some (month (start r), day (start r), year (start r),
                       decimal_width (year (start r)))
            /\ (1000 <= year (start r) -> decimal_width (year (start r)) = 4%nat)
            /\ read_time (strftime (start r) TIME_FORMAT)
               = Some (hour12 (start r), minute (start r), second (start r),
                       12 <=? hour (start r))
            /\ read_date (strftime (end_ r) DATE_FORMAT)
               = Some (month (end_ r), day (end_ r), year (end_ r),
                       decimal_width (year (end_ r)))
            /\ (1000 <= year (end_ r) -> decimal_width (year (end_ r)) = 4%nat)
            /\ read_time (strftime (end_ r) TIME_FORMAT)
               = Some (hour12 (end_ r), minute (end_ r), second (end_ r),
                       12 <=? hour (end_ r)))
         rows.
Proof.
  apply (csv_output_format default_config sample_calendar_data 2).
  vm_compute. reflexivity.
Defined.

(** C8, as stated, fails on a day of the year 999: the year of its dates
    is written in three digits, so that they are not of the form
    MM/DD/YYYY. *)
Lemma year_999_is_written_in_three_digits :
  get_calendar_csv default_config calendar_data_of_999 1
  = inr [HEADER;
         "Fajr,01/01/999,05:00:00 AM,01/01/999,05:05:00 AM,Auto-generated";
         "Sunrise,01/01/999,07:20:00 AM,01/01/999,07:25:00 AM,Auto-generated";
         "Dhuhr,01/01/999,12:10:00 PM,01/01/999,12:15:00 PM,Auto-generated";
         "Asr,01/01/999,02:40:00 PM,01/01/999,02:45:00 PM,Auto-generated";
         "Maghrib,01/01/999,05:30:00 PM,01/01/999,05:35:00 PM,Auto-generated";
         "Isha,01/01/999,06:50:00 PM,01/01/999,06:55:00 PM,Auto-generated"]
  /\ read_date "01/01/999" = Some (1, 1, 999, 3%nat)
  /\ String.length "01/01/999" <> String.length "MM/DD/YYYY".
Proof.
  split; [vm_compute; reflexivity|]. split; [vm_compute; reflexivity|].
  vm_compute. discriminate.
Qed.

(** ** The properties on the sample data *)

Lemma two_day_run :
  convert_entries_to_csv_lines default_config [day_1; day_2] = inr two_day_lines.
Proof. vm_compute. reflexivity. Defined.

Ltac distinct_keys :=
  repeat (constructor;
          [simpl; intros Hin;
           repeat (destruct Hin as [Hin|Hin]; [discriminate Hin|]); exact Hin|]);
  constructor.

Lemma reordered_refl_timings_entry fajr sunrise dhuhr asr maghrib isha :
  reordered (timings_entry fajr sunrise dhuhr asr maghrib isha)
            (timings_entry fajr sunrise dhuhr asr maghrib isha).
Proof.
  eexists _, _. split; [reflexivity|]. split; [reflexivity|].
  split; [simpl; distinct_keys|apply Permutation_refl].
Defined.

Lemma reordered_day_2 : reordered day_2 day_2_shuffled.
Proof.
  eexists _, _. split; [reflexivity|]. split; [reflexivity|].
  split; [simpl; distinct_keys|].
  apply NoDup_Permutation; [distinct_keys|distinct_keys|].
  intros x. simpl. tauto.
Defined.

Lemma first_day_six_rows_later_days_seven_witness :
  exists days,
    rows_by_day default_config [day_1; day_2] None = inr days
    /\ two_day_lines = map render (List.concat days)
    /\ List.length days = 2%nat
    /\ forall k rows,
        nth_error days k = Some rows ->
        match k with
        | O =>
            List.length rows = 6%nat
            /\ ~ In EXTRA_MIDNIGHT_EVENT_NAME (map subject rows)
        | S _ =>
            List.length rows = 7%nat
            /\ option_map subject (hd_error rows) = Some EXTRA_MIDNIGHT_EVENT_NAME
            /\ ~ In EXTRA_MIDNIGHT_EVENT_NAME (map subject (tl rows))
        end.
Proof.
  exact (first_day_six_rows_later_days_seven default_config [day_1; day_2]
           two_day_lines two_day_run).
Defined.

Lemma canonical_order_of_rows_witness :
  (exists days,
      rows_by_day default_config [day_1; day_2] None = inr days
      /\ two_day_lines = map render (List.concat days)
      /\ forall k rows,
          nth_error days k = Some rows ->
          map subject rows
          = match k with
            | O => ["Fajr"; "Sunrise"; "Dhuhr"; "Asr"; "Maghrib"; "Isha"]
            | S _ =>
                ["Midnight"; "Fajr"; "Sunrise"; "Dhuhr"; "Asr"; "Maghrib"; "Isha"]
            end)
  /\ convert_entries_to_csv_lines default_config [day_1; day_2_shuffled]
     = convert_entries_to_csv_lines default_config [day_1; day_2].
Proof.
  destruct (canonical_order_of_rows default_config [day_1; day_2]) as [Horder Hsame].
  split.
  - exact (Horder two_day_lines two_day_run).
  - apply Hsame. constructor; [apply reordered_refl_timings_entry|].
    constructor; [exact reordered_day_2|constructor].
Defined.

Lemma window_is_lead_plus_lag_witness :
  exists days,
    rows_by_day default_config [day_1; day_2] None = inr days
    /\ two_day_lines = map render (List.concat days)
    /\ Forall
         (fun r =>
            datetime_sub_timedelta (instant r) (minutes 0) = inr (start r)
            /\ datetime_add (instant r) (minutes 5) = inr (end_ r)
            /\ datetime_sub (end_ r) (start r) = inr (minutes (0 + 5)))
         (List.concat days).
Proof.
  exact (window_is_lead_plus_lag default_config [day_1; day_2] two_day_lines
           two_day_run).
Defined.

Lemma carried_state_is_maghrib_of_current_record_witness :
  exists maghrib,
    read_field day_2 "Maghrib" = inr maghrib
    /\ Some (mkdatetime 2024 1 2 17 31 0 0 None) = Some maghrib
    /\ forall next lines' last',
        process_entry default_config
          (two_day_lines, Some (mkdatetime 2024 1 2 17 31 0 0 None)) next
        = inr (lines', last') ->
        exists rows maghrib',
          day_rows default_config (Some maghrib) next = inr (rows, maghrib')
          /\ lines' = (two_day_lines ++ map render rows)%list
          /\ last' = Some maghrib'.
Proof.
  apply (carried_state_is_maghrib_of_current_record default_config [day_1] day_2).
  vm_compute. reflexivity.
Defined.

Lemma same_input_same_output_witness :
  @inr exn (list string) two_day_lines = inr two_day_lines.
Proof.
  exact (same_input_same_output default_config [day_1; day_2]
           (inr two_day_lines) (inr two_day_lines) two_day_run two_day_run).
Defined.

Lemma lines_of_a_prefix_witness :
  exists first rest,
    convert_entries_to_csv_lines default_config (firstn 1 [day_1; day_2]) = inr first
    /\ two_day_lines = (first ++ rest)%list.
Proof.
  exact (proj2 (lines_of_a_prefix default_config) [day_1; day_2] 1%nat
           two_day_lines two_day_run).
Defined.

(** ** The calendar, from dates to days and back *)

Ltac month_tables :=
  cbv [DAYS_BEFORE_MONTH DAYS_IN_MONTH Z.ltb Z.eqb Z.compare Pos.eqb Pos.compare
       Pos.compare_cont andb] in *.



Lemma days_before_year_succ y :
  days_before_year (y + 1) = days_before_year y + year_length y.
Proof.
  unfold days_before_year, year_length, is_leap.
  replace (y + 1 - 1) with y by lia.
  destruct (Z.eqb_spec (y mod 4) 0) as [H4|H4];
    destruct (Z.eqb_spec (y mod 100) 0) as [H100|H100];
    destruct (Z.eqb_spec (y mod 400) 0) as [H400|H400];
    cbn [negb andb orb]; Z.div_mod_to_equations; lia.
Qed.

Lemma year_length_pos y : 365 <= year_length y <= 366.
Proof. unfold year_length. destruct (is_leap y); lia. Qed.

Lemma days_before_year_le y y' :
  y <= y' -> days_before_year y <= days_before_year y'.
Proof.
  intros H. replace y' with (y + Z.of_nat (Z.to_nat (y' - y))) by lia.
  induction (Z.to_nat (y' - y)) as [|k IH]; [rewrite Z.add_0_r; lia|].
  replace (y + Z.of_nat (S k)) with (y + Z.of_nat k + 1) by lia.
  rewrite days_before_year_succ. pose proof (year_length_pos (y + Z.of_nat k)). lia.
Qed.

Lemma days_before_year_lt y y' :
  y < y' -> days_before_year y + year_length y <= days_before_year y'.
Proof.
  intros H. rewrite <- days_before_year_succ. apply days_before_year_le. lia.
Qed.

Lemma day_of_year_bounds y m d :
  1 <= m <= 12 -> 1 <= d <= days_in_month y m ->
  1 <= days_before_month y m + d <= year_length y.
Proof.
  intros Hm Hd. unfold days_before_month, days_in_month, year_length in *.
  assert (Hcases : m = 1 \/ m = 2 \/ m = 3 \/ m = 4 \/ m = 5 \/ m = 6 \/ m = 7
                   \/ m = 8 \/ m = 9 \/ m = 10 \/ m = 11 \/ m = 12) by lia.
  revert Hd. destruct (is_leap y); intros Hd;
    repeat (destruct Hcases as [->|Hcases]; [month_tables; lia|]);
    subst; month_tables; lia.
Qed.

Lemma day_of_year_inj y m d m' d' :
  1 <= m <= 12 -> 1 <= d <= days_in_month y m ->
  1 <= m' <= 12 -> 1 <= d' <= days_in_month y m' ->
  days_before_month y m + d = days_before_month y m' + d' ->
  m = m' /\ d = d'.
Proof.
  intros Hm Hd Hm' Hd' Heq.
  unfold days_before_month, days_in_month in *.
  assert (Hcases : m = 1 \/ m = 2 \/ m = 3 \/ m = 4 \/ m = 5 \/ m = 6 \/ m = 7
                   \/ m = 8 \/ m = 9 \/ m = 10 \/ m = 11 \/ m = 12) by lia.
  assert (Hcases' : m' = 1 \/ m' = 2 \/ m' = 3 \/ m' = 4 \/ m' = 5 \/ m' = 6
                    \/ m' = 7 \/ m' = 8 \/ m' = 9 \/ m' = 10 \/ m' = 11
                    \/ m' = 12) by lia.
  revert Hd Hd' Heq. destruct (is_leap y); intros Hd Hd' Heq;
    repeat (destruct Hcases as [->|Hcases]);
    try subst m;
    repeat (destruct Hcases' as [->|Hcases']);
    try subst m'; month_tables; lia.
Qed.

Lemma check_date_args_inv y m d :
  check_date_args y m d = true ->
  1 <= y <= 9999 /\ 1 <= m <= 12 /\ 1 <= d <= days_in_month y m.
Proof.
  unfold check_date_args, MINYEAR, MAXYEAR. intros H.
  repeat (apply andb_true_iff in H; destruct H as [H ?]).
  repeat match goal with Hle : (_ <=? _) = true |- _ => apply Z.leb_le in Hle end.
  lia.
Qed.

Lemma ymd2ord_bounds y m d :
  check_date_args y m d = true -> 1 <= ymd2ord y m d <= MAXORDINAL.
Proof.
  intros H. apply check_date_args_inv in H. destruct H as (Hy & Hm & Hd).
  pose proof (day_of_year_bounds y m d Hm Hd) as Hdoy.
  pose proof (days_before_year_le 1 y ltac:(lia)) as Hlo.
  pose proof (days_before_year_le (y + 1) 10000 ltac:(lia)) as Hhi.
  rewrite days_before_year_succ in Hhi.
  change (days_before_year 1) with 0 in Hlo.
  change (days_before_year 10000) with 3652059 in Hhi.
  unfold ymd2ord, MAXORDINAL. lia.
Qed.

Lemma ymd2ord_inj y m d y' m' d' :
  1 <= m <= 12 -> 1 <= d <= days_in_month y m ->
  1 <= m' <= 12 -> 1 <= d' <= days_in_month y' m' ->
  ymd2ord y m d = ymd2ord y' m' d' ->
  y = y' /\ m = m' /\ d = d'.
Proof.
  intros Hm Hd Hm' Hd' Heq. unfold ymd2ord in Heq.
  pose proof (day_of_year_bounds y m d Hm Hd) as Hdoy.
  pose proof (day_of_year_bounds y' m' d' Hm' Hd') as Hdoy'.
  assert (Hy : y = y').
  { destruct (Z.lt_trichotomy y y') as [Hlt|[Hyy|Hgt]]; [|exact Hyy|].
    - pose proof (days_before_year_lt y y' Hlt). lia.
    - pose proof (days_before_year_lt y' y Hgt). lia. }
  subst y'. split; [reflexivity|].
  apply (day_of_year_inj y); try assumption. lia.
Qed.

Lemma ord2ymd_ymd2ord y m d :
  check_date_args y m d = true -> ord2ymd (ymd2ord y m d) = (y, m, d).
Proof.
  intros H. pose proof (ymd2ord_bounds y m d H) as Hb.
  apply check_date_args_inv in H. destruct H as (Hy & Hm & Hd).
  pose proof (ord2ymd_correct (ymd2ord y m d) ltac:(lia)) as Hc.
  destruct (ord2ymd (ymd2ord y m d)) as [[y' m'] d'].
  destruct Hc as (Hord & _ & Hm' & Hd').
  destruct (ymd2ord_inj y' m' d' y m d Hm' Hd' Hm Hd Hord) as (-> & -> & ->).
  reflexivity.
Qed.

(** ** Date-times with fields in range *)

Lemma datetime_new_valid y m d h mi s us tz dt :
  datetime_new y m d h mi s us tz = inr dt ->
  valid dt = true /\ tzinfo dt = tz /\ check_tzinfo tz = true.
Proof.
  unfold datetime_new, valid.
  destruct (check_date_args y m d) eqn:Hd; [|discriminate].
  destruct (check_time_args h mi s us) eqn:Ht; [|discriminate].
  destruct (check_tzinfo tz) eqn:Hz; [|discriminate].
  cbn [andb]. intros H; inversion H; subst dt; clear H.
  cbn [year month day hour minute second microsecond tzinfo].
  rewrite Hd, Ht. repeat split.
Qed.

Lemma fromisoformat_cases token :
  fromisoformat token = inl ValueError
  \/ exists y m d h mi s us tz,
      fromisoformat token = datetime_new y m d h mi s us tz.
Proof.
  unfold fromisoformat.
  destruct (_ <? _)%nat; [left; reflexivity|]. cbv zeta.
  destruct (parse_isoformat_date _ _) as [[[y m] d]|]; [|left; reflexivity].
  destruct (_ <? _).
  - destruct (parse_isoformat_time _ _) as [[[[[h mi] s] us] tz]|];
      [|left; reflexivity].
    right. eexists _, _, _, _, _, _, _, _. reflexivity.
  - right. eexists _, _, _, _, _, _, _, _. reflexivity.
Qed.

Lemma fromisoformat_valid token dt :
  fromisoformat token = inr dt -> valid dt = true.
Proof.
  destruct (fromisoformat_cases token) as [H|(y & m & d & h & mi & s & us & tz & H)];
    rewrite H; [discriminate|].
  intros Hnew. apply datetime_new_valid in Hnew. tauto.
Qed.

Lemma read_field_valid e field dt :
  read_field e field = inr dt -> valid dt = true.
Proof.
  unfold read_field, parse_timing. intros H.
  inv_bind H as timings Ht. inv_bind H as v Hv.
  inv_bind H as parts Hp. inv_bind H as token Htok.
  exact (fromisoformat_valid _ _ H).
Qed.

Lemma valid_inv dt :
  valid dt = true ->
  check_date_args (year dt) (month dt) (day dt) = true
  /\ 0 <= hour dt <= 23 /\ 0 <= minute dt <= 59 /\ 0 <= second dt <= 59
  /\ 0 <= microsecond dt <= 999999.
Proof.
  unfold valid, check_time_args. intros H.
  apply andb_true_iff in H. destruct H as [Hd H]. split; [exact Hd|].
  repeat (apply andb_true_iff in H; destruct H as [H ?]).
  repeat match goal with Hle : (_ <=? _) = true |- _ => apply Z.leb_le in Hle end.
  lia.
Qed.

Lemma valid_toordinal dt :
  valid dt = true -> 1 <= toordinal dt <= MAXORDINAL.
Proof.
  intros H. apply valid_inv in H. destruct H as [Hd _].
  exact (ymd2ord_bounds _ _ _ Hd).
Qed.

(** Adding to [self] the time that separates its reading of the clock from
    that of a date-time with fields in range yields that date-time. *)
Lemma datetime_add_reaches self other target :
  valid target = true ->
  tzinfo self = tzinfo target ->
  wall_clock self + other = wall_clock target ->
  datetime_add self other = inr target.
Proof.
  intros Hv Htz Hw. unfold datetime_add. rewrite Hw, Htz.
  pose proof (valid_toordinal _ Hv) as Ho.
  destruct (valid_inv _ Hv) as (Hd & Hh & Hmi & Hs & Hus).
  pose proof (ord2ymd_ymd2ord _ _ _ Hd) as Hord. fold (toordinal target) in Hord.
  unfold wall_clock.
  set (ord := toordinal target) in *.
  set (secs := hour target * 3600 + minute target * 60 + second target).
  assert (Hsecs : 0 <= secs < 86400) by (subst secs; lia).
  assert (Hdays : (ord * US_PER_DAY + secs * US_PER_SECOND + microsecond target)
                  / US_PER_DAY = ord).
  { unfold US_PER_DAY, US_PER_SECOND. Z.div_mod_to_equations. lia. }
  assert (Hrem : (ord * US_PER_DAY + secs * US_PER_SECOND + microsecond target)
                 mod US_PER_DAY = secs * US_PER_SECOND + microsecond target).
  { unfold US_PER_DAY, US_PER_SECOND. Z.div_mod_to_equations. lia. }
  assert (Hus' : (ord * US_PER_DAY + secs * US_PER_SECOND + microsecond target)
                 mod US_PER_SECOND = microsecond target).
  { unfold US_PER_DAY, US_PER_SECOND. Z.div_mod_to_equations. lia. }
  rewrite Hdays, Hrem, Hus'.
  assert (Hsec' : (secs * US_PER_SECOND + microsecond target) / US_PER_SECOND = secs).
  { unfold US_PER_SECOND. Z.div_mod_to_equations. lia. }
  rewrite Hsec'.
  assert (Hh' : secs / 3600 = hour target)
    by (subst secs; Z.div_mod_to_equations; lia).
  assert (Hm' : secs mod 3600 / 60 = minute target)
    by (subst secs; Z.div_mod_to_equations; lia).
  assert (Hs' : secs mod 3600 mod 60 = second target)
    by (subst secs; Z.div_mod_to_equations; lia).
  rewrite Hh', Hm', Hs'.
  destruct (Z.ltb_spec 0 ord); [|lia].
  destruct (Z.leb_spec ord MAXORDINAL); [|lia].
  cbn [andb]. rewrite Hord. destruct target; reflexivity.
Qed.

Lemma event_window_back cfg t s e :
  valid t = true ->
  event_window cfg t = inr (s, e) ->
  datetime_add s (minutes (MINUTES_BEFORE cfg)) = inr t
  /\ datetime_sub_timedelta e (minutes (MINUTES_AFTER cfg)) = inr t
  /\ tzinfo s = tzinfo t /\ tzinfo e = tzinfo t.
Proof.
  intros Hv H.
  destruct (event_window_inr cfg t s e H) as (Hs & He & _ & _ & _).
  unfold event_window, timedelta_minutes in H.
  inv_bind H as before Hb. inv_bind H as s' Hs'.
  inv_bind H as after Ha. inv_bind H as e' He'. clear H Hs' He'.
  apply timedelta_new_inr in Hb, Ha. destruct Hb as [-> Hbr], Ha as [-> Har].
  fold (minutes (MINUTES_BEFORE cfg)) in *. fold (minutes (MINUTES_AFTER cfg)) in *.
  unfold datetime_sub_timedelta in Hs. inv_bind Hs as neg Hn.
  apply timedelta_new_inr in Hn. destruct Hn as [-> _].
  destruct (datetime_add_inr _ _ _ Hs) as (Hws & Htzs & _).
  destruct (datetime_add_inr _ _ _ He) as (Hwe & Htze & Hve & Hoe).
  split; [apply datetime_add_reaches; [exact Hv|exact Htzs|lia]|].
  split; [|split; assumption].
  unfold datetime_sub_timedelta.
  assert (Hneg : timedelta_new (- minutes (MINUTES_AFTER cfg))
                 = inr (- minutes (MINUTES_AFTER cfg))).
  { apply timedelta_new_small.
    pose proof (wall_clock_bounds _ Hve Hoe).
    pose proof (wall_clock_bounds _ Hv (valid_toordinal _ Hv)).
    unfold MAXORDINAL, US_PER_DAY, US_PER_SECOND in *. lia. }
  rewrite Hneg. cbn [bind].
  apply datetime_add_reaches; [exact Hv|exact Htze|lia].
Qed.

Lemma day_events_valid last e et :
  day_events last e = inr et ->
  Forall (fun event => valid (snd event) = true) et.
Proof.
  intros H. apply day_events_inr in H.
  destruct H as (fajr & sunrise & dhuhr & asr & maghrib & isha
                 & Hf & Hs & Hd & Ha & Hm & Hi & Het).
  assert (Hsix : Forall (fun event => valid (snd event) = true)
                   (six_events fajr sunrise dhuhr asr maghrib isha)).
  { unfold six_events.
    repeat (constructor; [cbn [snd]; eapply read_field_valid; eassumption|]).
    constructor. }
  destruct last as [last|].
  - destruct Het as (elapsed & half & midnight & _ & _ & Hmid & ->).
    constructor; [|exact Hsix]. cbn [snd].
    apply (datetime_add_inr _ _ _ Hmid).
  - subst et. exact Hsix.
Qed.

Lemma rows_of_run_valid cfg es last days :
  rows_by_day cfg es last = inr days ->
  Forall (fun r =>
            valid (instant r) = true
            /\ event_window cfg (instant r) = inr (start r, end_ r))
         (List.concat days).
Proof.
  intros Hdays. apply Forall_concat.
  eapply Forall_impl; [|exact (rows_by_day_days cfg es last days Hdays)].
  intros rows (last_k & e & maghrib & _ & Hday).
  apply day_rows_inr in Hday. destruct Hday as (et & Het & _ & _ & Hinst & Hw).
  apply day_events_valid in Het.
  assert (Hv : Forall (fun t => valid t = true) (map instant rows)).
  { rewrite Hinst. apply Forall_map. exact Het. }
  rewrite Forall_map in Hv.
  rewrite Forall_forall in Hv, Hw |- *. intros r Hr. split; [exact (Hv r Hr)|exact (Hw r Hr)].
Qed.

(** X1. On a run that succeeds, the instant of every row is found again
    from its start and from its end: the start plus [MINUTES_BEFORE] minutes
    and the end minus [MINUTES_AFTER] minutes are both the instant, field by
    field and with its UTC offset; with no lead, as configured, a row starts
    at its instant. *)
Theorem instant_is_found_again_from_start_and_end cfg es lines :
  convert_entries_to_csv_lines cfg es = inr lines ->
  exists days,
    rows_by_day cfg es None = inr days
    /\ lines = map render (List.concat days)
    /\ Forall
         (fun r =>
            datetime_add (start r) (minutes (MINUTES_BEFORE cfg)) = inr (instant r)
            /\ datetime_sub_timedelta (end_ r) (minutes (MINUTES_AFTER cfg))
               = inr (instant r)
            /\ (MINUTES_BEFORE cfg = 0 -> start r = instant r)
            /\ (MINUTES_AFTER cfg = 0 -> end_ r = instant r))
         (List.concat days).
Proof.
  intros H. destruct (convert_inr _ _ _ H) as (days & Hdays & Hlines).
  exists days. split; [exact Hdays|]. split; [exact Hlines|].
  eapply Forall_impl; [|exact (rows_of_run_valid cfg es None days Hdays)].
  intros r [Hv Hw].
  destruct (event_window_back cfg _ _ _ Hv Hw) as (Hs & He & Htzs & Htze).
  split; [exact Hs|]. split; [exact He|].
  destruct (event_window_inr cfg _ _ _ Hw) as (Hs' & He' & _ & Hvs & Hve).
  split.
  - intros H0. rewrite H0 in Hs.
    assert (Hself : datetime_add (start r) (minutes 0) = inr (start r))
      by (apply datetime_add_reaches; [exact Hvs|reflexivity|unfold minutes; lia]).
    congruence.
  - intros H0. rewrite H0 in He'.
    assert (Hself : datetime_add (instant r) (minutes 0) = inr (instant r))
      by (apply datetime_add_reaches; [exact Hv|reflexivity|unfold minutes; lia]).
    congruence.
Qed.

Lemma instant_is_found_again_from_start_and_end_witness :
  exists days,
    rows_by_day default_config [day_1; day_2] None = inr days
    /\ two_day_lines = map render (List.concat days)
    /\ Forall
         (fun r =>
            datetime_add (start r) (minutes 0) = inr (instant r)
            /\ datetime_sub_timedelta (end_ r) (minutes 5) = inr (instant r)
            /\ (0 = 0 -> start r = instant r)
            /\ (5 = 0 -> end_ r = instant r))
         (List.concat days).
Proof.
  exact (instant_is_found_again_from_start_and_end default_config [day_1; day_2]
           two_day_lines two_day_run).
Defined.

(** X2. On a run that succeeds, the three date-times of every row have
    their fields in the ranges of the calendar and of the clock, and the
    start and the end carry the UTC offset of the instant, or none when it
    has none. *)
Theorem rows_hold_valid_date_times cfg es lines :
  convert_entries_to_csv_lines cfg es = inr lines ->
  exists days,
    rows_by_day cfg es None = inr days
    /\ lines = map render (List.concat days)
    /\ Forall
         (fun r =>
            valid (instant r) = true /\ valid (start r) = true
            /\ valid (end_ r) = true
            /\ tzinfo (start r) = tzinfo (instant r)
            /\ tzinfo (end_ r) = tzinfo (instant r))
         (List.concat days).
Proof.
  intros H. destruct (convert_inr _ _ _ H) as (days & Hdays & Hlines).
  exists days. split; [exact Hdays|]. split; [exact Hlines|].
  eapply Forall_impl; [|exact (rows_of_run_valid cfg es None days Hdays)].
  intros r [Hv Hw].
  destruct (event_window_back cfg _ _ _ Hv Hw) as (_ & _ & Htzs & Htze).
  destruct (event_window_inr cfg _ _ _ Hw) as (_ & _ & _ & Hvs & Hve).
  repeat (split; [assumption|]). assumption.
Qed.

Lemma rows_hold_valid_date_times_witness :
  exists days,
    rows_by_day default_config [day_1; day_2] None = inr days
    /\ two_day_lines = map render (List.concat days)
    /\ Forall
         (fun r =>
            valid (instant r) = true /\ valid (start r) = true
            /\ valid (end_ r) = true
            /\ tzinfo (start r) = tzinfo (instant r)
            /\ tzinfo (end_ r) = tzinfo (instant r))
         (List.concat days).
Proof.
  exact (rows_hold_valid_date_times default_config [day_1; day_2]
           two_day_lines two_day_run).
Defined.

(** ** The number of rows *)

Lemma day_rows_count cfg last e rows maghrib :
  day_rows cfg last e = inr (rows, maghrib) ->
  List.length rows = match last with None => 6%nat | Some _ => 7%nat end.
Proof.
  intros H. apply day_rows_inr in H. destruct H as (et & Het & _ & Hsub & _).
  rewrite <- (length_map subject), Hsub, length_map.
  apply day_events_inr in Het.
  destruct Het as (fajr & sunrise & dhuhr & asr & mg & isha & _ & _ & _ & _ & _ & _ & Het).
  destruct last as [last|].
  - destruct Het as (elapsed & half & midnight & _ & _ & _ & ->). reflexivity.
  - subst et. reflexivity.
Qed.

Lemma rows_by_day_count cfg es :
  forall last days,
    rows_by_day cfg es last = inr days ->
    (List.length (List.concat days)
     + match last, es with None, _ :: _ => 1 | _, _ => 0 end
     = 7 * List.length es)%nat.
Proof.
  induction es as [|e es IH]; intros last days H.
  - inversion H. destruct last; reflexivity.
  - simpl in H. inv_bind H as today Htoday. inv_bind H as later Hlater.
    inversion H; subst days; clear H. destruct today as [rows m]. cbn [fst snd] in *.
    pose proof (day_rows_count _ _ _ _ _ Htoday) as Hc.
    pose proof (IH _ _ Hlater) as Hl.
    cbn [List.concat]. rewrite length_app.
    assert (Hl' : (List.length (List.concat later) = 7 * List.length es)%nat)
      by (rewrite <- Hl; lia).
    cbn [List.length]. destruct last; lia.
Qed.

(** X3. A run that succeeds on [n] entries returns [7 * n - 1] lines, and
    none for no entry: seven for each day but the first, which has six. *)
Theorem seven_lines_a_day_but_the_first cfg es lines :
  convert_entries_to_csv_lines cfg es = inr lines ->
  List.length lines = (7 * List.length es - 1)%nat.
Proof.
  intros H. destruct (convert_inr _ _ _ H) as (days & Hdays & ->).
  rewrite length_map.
  pose proof (rows_by_day_count cfg es None days Hdays) as Hc.
  destruct es; cbn [List.length] in *; lia.
Qed.

Lemma seven_lines_a_day_but_the_first_witness :
  List.length two_day_lines = (7 * 2 - 1)%nat.
Proof.
  exact (seven_lines_a_day_but_the_first default_config [day_1; day_2]
           two_day_lines two_day_run).
Defined.

(** ** What the generator reads of an entry *)

Lemma copy_fields_agree e e' pairs :
  (forall field, In field (map fst pairs) -> read_field e' field = read_field e field) ->
  forall et, copy_fields e' pairs et = copy_fields e pairs et.
Proof.
  induction pairs as [|[field name] pairs IH]; intros Hext et; simpl.
  - reflexivity.
  - rewrite (Hext field) by (left; reflexivity).
    destruct (read_field e field); simpl; [reflexivity|].
    apply IH. intros f Hf. apply Hext. right. exact Hf.
Qed.

Lemma read_field_agree e e' field :
  agree_on_copied_fields e e' -> In field COPIED_FIELDS ->
  read_field e' field = read_field e field.
Proof.
  intros (t & t' & He & He' & Hsame) Hin.
  unfold read_field, dict_getitem. rewrite He, He'. simpl.
  unfold dict_getitem. rewrite (Hsame field Hin). reflexivity.
Qed.

Lemma process_entries_agree cfg es es' :
  Forall2 agree_on_copied_fields es es' ->
  forall state, process_entries cfg es' state = process_entries cfg es state.
Proof.
  induction 1 as [|e e' es es' He _ IH]; intros state; simpl.
  - reflexivity.
  - destruct state as [lines last].
    unfold process_entry, day_events.
    rewrite (copy_fields_agree e e')
      by (intros field Hin; apply read_field_agree; [exact He|exact Hin]).
    match goal with |- bind ?m _ = bind ?m _ => destruct m as [x|st] end;
      simpl; [reflexivity|apply IH].
Qed.

(** X4. The generator reads six timings of each entry and nothing else:
    two sequences whose entries hold, one by one, the same values under
    Fajr, Sunrise, Dhuhr, Asr, Maghrib and Isha give the same result, lines
    or exception, whatever other timings and keys they hold. *)
Theorem only_the_six_copied_fields_matter cfg es es' :
  Forall2 agree_on_copied_fields es es' ->
  convert_entries_to_csv_lines cfg es' = convert_entries_to_csv_lines cfg es.
Proof.
  intros H. unfold convert_entries_to_csv_lines.
  rewrite (process_entries_agree cfg es es' H). reflexivity.
Qed.

Lemma agree_day_2_with_extras : agree_on_copied_fields day_2 day_2_with_extras.
Proof.
  eexists _, _. split; [reflexivity|]. split; [reflexivity|].
  intros field Hin. simpl in Hin.
  repeat (destruct Hin as [<-|Hin]; [reflexivity|]). contradiction.
Defined.

Lemma only_the_six_copied_fields_matter_witness :
  convert_entries_to_csv_lines default_config [day_2_with_extras]
  = convert_entries_to_csv_lines default_config [day_2].
Proof.
  apply only_the_six_copied_fields_matter.
  constructor; [exact agree_day_2_with_extras|constructor].
Defined.

(** ** Which exception a run raises *)

Lemma copy_fields_prefix e pairs1 : forall et,
  Forall (fun p => exists t, read_field e (fst p) = inr t) pairs1 ->
  forall pairs2,
  exists et',
    copy_fields e (pairs1 ++ pairs2) et = copy_fields e pairs2 et'.
Proof.
  induction pairs1 as [|[field name] pairs1 IH]; intros et Hok pairs2.
  - exists et. reflexivity.
  - inversion Hok as [|? ? [t Ht] Hok']; subst. cbn [fst] in Ht.
    cbn [app copy_fields]. rewrite Ht. cbn [bind].
    apply IH. exact Hok'.
Qed.

Lemma copied_fields_split before field after :
  COPIED_FIELDS = (before ++ field :: after)%list ->
  combine COPIED_FIELDS EVENT_NAMES
  = (combine before before ++ (field, field) :: combine after after)%list.
Proof.
  unfold COPIED_FIELDS, EVENT_NAMES. intros H.
  repeat (destruct before as [|? before];
          [injection H as <- <-; reflexivity
          |injection H as <- H]).
  destruct before; discriminate H.
Qed.

Lemma Forall_combine_self (P : string -> Prop) l :
  Forall P l -> Forall (fun p => P (fst p)) (combine l l).
Proof.
  induction 1 as [|a l Ha _ IH]; simpl; constructor; assumption.
Qed.

(** X5. The exception of a run is that of the first reading that fails:
    when the entries before [e] are processed without exception, the fields
    of [e] before [field] are read, and reading [field] raises [x], the run
    raises [x], whatever follows [e]. *)
Theorem first_failing_field_decides_the_exception
  cfg before_e e after_e before field after lines x :
  convert_entries_to_csv_lines cfg before_e = inr lines ->
  COPIED_FIELDS = (before ++ field :: after)%list ->
  Forall (fun f => exists t, read_field e f = inr t) before ->
  read_field e field = inl x ->
  convert_entries_to_csv_lines cfg (before_e ++ e :: after_e) = inl x.
Proof.
  intros Hrun Hsplit Hok Hx.
  unfold convert_entries_to_csv_lines in *.
  rewrite process_entries_app.
  destruct (process_entries cfg before_e ([], None)) as [x0|[lines0 last]];
    [discriminate|].
  cbn [bind process_entries]. unfold process_entry, day_events.
  rewrite (copied_fields_split _ _ _ Hsplit).
  destruct (copy_fields_prefix e (combine before before) []
              (Forall_combine_self _ _ Hok)
              ((field, field) :: combine after after)) as [et' ->].
  cbn [copy_fields]. rewrite Hx. reflexivity.
Qed.

Lemma first_failing_field_decides_the_exception_witness :
  convert_entries_to_csv_lines default_config
    ([day_1] ++ day_2_without_asr :: [day_2_without_asr])
  = inl KeyError.
Proof.
  apply (first_failing_field_decides_the_exception default_config
           [day_1] day_2_without_asr [day_2_without_asr]
           ["Fajr"; "Sunrise"; "Dhuhr"] "Asr" ["Maghrib"; "Isha"]
           (firstn 6 two_day_lines)).
  - vm_compute. reflexivity.
  - reflexivity.
  - repeat (constructor; [eexists; vm_compute; reflexivity|]). constructor.
  - vm_compute. reflexivity.
Defined.

Lemma bind_inl {A B : Type} (m : result A) (k : A -> result B) (x : exn) :
  bind m k = inl x -> m = inl x \/ exists a, m = inr a /\ k a = inl x.
Proof.
  destruct m as [e|a]; simpl; intros H;
    [left; inversion H; reflexivity|right; eauto].
Qed.

Ltac in_exceptions := unfold generator_exceptions; simpl; tauto.

Lemma timedelta_new_inl us x :
  timedelta_new us = inl x -> x = OverflowError.
Proof.
  unfold timedelta_new. destruct (_ && _); [discriminate|].
  intros H; inversion H. reflexivity.
Qed.

Lemma datetime_add_inl self other x :
  datetime_add self other = inl x -> x = OverflowError.
Proof.
  unfold datetime_add. destruct (_ && _).
  - destruct (ord2ymd _) as [[y m] d]. discriminate.
  - intros H; inversion H. reflexivity.
Qed.

Lemma datetime_sub_inl a b x :
  datetime_sub a b = inl x -> x = OverflowError \/ x = TypeError.
Proof.
  unfold datetime_sub. intros H.
  apply bind_inl in H. destruct H as [H|(base & _ & H)].
  - left. exact (timedelta_new_inl _ _ H).
  - destruct (tzinfo a) as [myoff|], (tzinfo b) as [otoff|];
      try (inversion H; right; reflexivity); try discriminate.
    destruct (myoff =? otoff); [discriminate|].
    apply bind_inl in H. destruct H as [H|(t & _ & H)];
      left; exact (timedelta_new_inl _ _ H).
Qed.

Lemma fromisoformat_inl token x :
  fromisoformat token = inl x -> x = ValueError.
Proof.
  destruct (fromisoformat_cases token) as [H|(y & m & d & h & mi & s & us & tz & H)];
    rewrite H; [intros Hx; inversion Hx; reflexivity|].
  unfold datetime_new. destruct (_ && _); [discriminate|].
  intros Hx; inversion Hx; reflexivity.
Qed.

Lemma dict_getitem_inl {V : Type} (d : list (string * V)) key x :
  dict_getitem d key = inl x -> x = KeyError.
Proof.
  unfold dict_getitem. destruct (assoc key d); [discriminate|].
  intros H; inversion H. reflexivity.
Qed.

Lemma read_field_inl e field x :
  read_field e field = inl x ->
  In x [KeyError; TypeError; AttributeError; IndexError; ValueError].
Proof.
  unfold read_field, parse_timing. intros H.
  apply bind_inl in H. destruct H as [H|(timings & _ & H)].
  { apply dict_getitem_inl in H. subst. simpl. tauto. }
  apply bind_inl in H. destruct H as [H|(v & _ & H)].
  { destruct timings as [s|d|]; simpl in H.
    - inversion H. simpl. tauto.
    - apply dict_getitem_inl in H. subst. simpl. tauto.
    - inversion H. simpl. tauto. }
  apply bind_inl in H. destruct H as [H|(parts & _ & H)].
  { destruct v as [s|d|]; simpl in H; inversion H; simpl; tauto. }
  apply bind_inl in H. destruct H as [H|(token & _ & H)].
  { unfold list_getitem in H. destruct (nth_error parts 0); [discriminate|].
    inversion H. simpl. tauto. }
  apply fromisoformat_inl in H. subst. simpl. tauto.
Qed.

Lemma copy_fields_inl e pairs : forall et x,
  copy_fields e pairs et = inl x ->
  In x [KeyError; TypeError; AttributeError; IndexError; ValueError].
Proof.
  induction pairs as [|[field name] pairs IH]; intros et x H; [discriminate|].
  simpl in H. apply bind_inl in H. destruct H as [H|(t & _ & H)].
  - exact (read_field_inl _ _ _ H).
  - exact (IH _ _ H).
Qed.

Lemma add_midnight_inl last et x :
  add_midnight last et = inl x -> In x generator_exceptions.
Proof.
  destruct last as [last|]; [|discriminate].
  unfold add_midnight. cbn [EVENT_NAMES list_getitem nth_error ret bind].
  intros H.
  apply bind_inl in H. destruct H as [H|(fajr & _ & H)].
  { apply dict_getitem_inl in H. subst. in_exceptions. }
  apply bind_inl in H. destruct H as [H|(elapsed & _ & H)].
  { apply datetime_sub_inl in H. destruct H; subst; in_exceptions. }
  apply bind_inl in H. destruct H as [H|(half & _ & H)].
  { unfold timedelta_truediv in H. cbn [Z.eqb] in H.
    apply timedelta_new_inl in H. subst. in_exceptions. }
  apply bind_inl in H. destruct H as [H|(midnight & _ & H)].
  { apply datetime_add_inl in H. subst. in_exceptions. }
  unfold move_to_end in H.
  destruct (assoc _ _); [discriminate|]. inversion H. in_exceptions.
Qed.

Lemma event_window_inl cfg t x :
  event_window cfg t = inl x -> x = OverflowError.
Proof.
  unfold event_window, timedelta_minutes, datetime_sub_timedelta. intros H.
  apply bind_inl in H. destruct H as [H|(before & _ & H)];
    [exact (timedelta_new_inl _ _ H)|].
  apply bind_inl in H. destruct H as [H|(s & _ & H)].
  { apply bind_inl in H. destruct H as [H|(neg & _ & H)];
      [exact (timedelta_new_inl _ _ H)|exact (datetime_add_inl _ _ _ H)]. }
  apply bind_inl in H. destruct H as [H|(after & _ & H)];
    [exact (timedelta_new_inl _ _ H)|].
  apply bind_inl in H. destruct H as [H|(e & _ & H)];
    [exact (datetime_add_inl _ _ _ H)|discriminate].
Qed.

Lemma emit_events_inl cfg et its : forall lines x,
  emit_events cfg et its lines = inl x -> In x generator_exceptions.
Proof.
  induction its as [|[name t] its IH]; intros lines x H; [discriminate|].
  simpl in H. apply bind_inl in H. destruct H as [H|(t' & _ & H)].
  { apply dict_getitem_inl in H. subst. in_exceptions. }
  apply bind_inl in H. destruct H as [H|(w & _ & H)].
  { apply event_window_inl in H. subst. in_exceptions. }
  exact (IH _ _ H).
Qed.

Lemma process_entry_inl cfg state e x :
  process_entry cfg state e = inl x -> In x generator_exceptions.
Proof.
  destruct state as [lines last]. unfold process_entry, day_events.
  cbn [EVENT_NAMES list_getitem nth_error ret bind]. intros H.
  apply bind_inl in H. destruct H as [H|(et & _ & H)].
  { apply bind_inl in H. destruct H as [H|(et0 & _ & H)].
    - apply copy_fields_inl in H. simpl in H. in_exceptions.
    - exact (add_midnight_inl _ _ _ H). }
  apply bind_inl in H. destruct H as [H|(m & _ & H)].
  { apply dict_getitem_inl in H. subst. in_exceptions. }
  apply bind_inl in H. destruct H as [H|(lines' & _ & H)];
    [exact (emit_events_inl _ _ _ _ _ H)|discriminate].
Qed.

(** X6. An exception let out by the generator is a [KeyError], a
    [TypeError], an [AttributeError], an [IndexError], a [ValueError] or an
    [OverflowError]; and a run of [get_calendar_csv] lets out, besides
    these, only the [AssertionError] of a number of months out of range and
    the [ConnectionError] of a month that failed at every attempt. *)
Theorem exceptions_of_a_run cfg :
  (forall es x,
      convert_entries_to_csv_lines cfg es = inl x -> In x generator_exceptions)
  /\ (forall get_calendar_data num_months x,
         get_calendar_csv cfg get_calendar_data num_months = inl x ->
         (x = AssertionError /\ ~ 1 <= num_months <= 12)
         \/ (x = ConnectionError /\ 1 <= num_months <= 12)
         \/ (In x generator_exceptions /\ 1 <= num_months <= 12)).
Proof.
  assert (Hgen : forall es state x,
             process_entries cfg es state = inl x -> In x generator_exceptions).
  { induction es as [|e es IH]; intros state x H; [discriminate|].
    simpl in H. apply bind_inl in H. destruct H as [H|(state' & _ & H)].
    - exact (process_entry_inl _ _ _ _ H).
    - exact (IH _ _ H). }
  assert (Hconv : forall es x,
             convert_entries_to_csv_lines cfg es = inl x -> In x generator_exceptions).
  { intros es x H. unfold convert_entries_to_csv_lines in H.
    apply bind_inl in H. destruct H as [H|(state & _ & H)];
      [exact (Hgen _ _ _ H)|discriminate]. }
  split; [exact Hconv|].
  intros gcd n x. unfold get_calendar_csv.
  destruct (Z.leb_spec 1 n) as [H1|H1]; destruct (Z.leb_spec n 12) as [H12|H12];
    cbn [andb]; try (intros H; inversion H; left; split; [reflexivity|lia]).
  intros H. right.
  apply bind_inl in H. destruct H as [H|(entries & _ & H)].
  - left. split; [|lia].
    assert (Hm : forall tries month i x', request_month gcd month i tries = inl x' ->
                                          x' = ConnectionError).
    { induction tries as [|tries IHt]; intros month i x' Hr; simpl in Hr.
      - inversion Hr. reflexivity.
      - destruct (gcd month i); [exact (IHt _ _ _ Hr)|discriminate]. }
    revert H. generalize (@nil entry). generalize 1.
    induction (Z.to_nat n) as [|count IHc]; intros month acc H;
      cbn [request_months] in H; [discriminate|].
    apply bind_inl in H. destruct H as [H|(me & _ & H)].
    + exact (Hm _ _ _ _ H).
    + exact (IHc _ _ H).
  - right. split; [|lia].
    apply bind_inl in H. destruct H as [H|(body & _ & H)];
      [exact (Hconv _ _ H)|discriminate].
Qed.

Lemma exceptions_of_a_run_witness :
  In KeyError generator_exceptions
  /\ ((AssertionError = AssertionError /\ ~ 1 <= 13 <= 12)
      \/ (AssertionError = ConnectionError /\ 1 <= 13 <= 12)
      \/ (In AssertionError generator_exceptions /\ 1 <= 13 <= 12)).
Proof.
  destruct (exceptions_of_a_run default_config) as [Hgen Hcsv].
  split.
  - apply (Hgen [day_1; day_2_without_asr]). vm_compute. reflexivity.
  - apply (Hcsv sample_calendar_data 13). reflexivity.
Defined.

(** ** Naive and aware timings *)

Lemma copy_fields_all_read e :
  Forall (fun field => exists t, read_field e field = inr t) COPIED_FIELDS ->
  exists fajr sunrise dhuhr asr maghrib isha,
    read_field e "Fajr" = inr fajr
    /\ read_field e "Maghrib" = inr maghrib
    /\ copy_fields e (combine COPIED_FIELDS EVENT_NAMES) []
       = inr (six_events fajr sunrise dhuhr asr maghrib isha).
Proof.
  unfold COPIED_FIELDS. intros H.
  inversion H as [|? ? [fajr Hf] H1]; subst; clear H.
  inversion H1 as [|? ? [sunrise Hs] H2]; subst; clear H1.
  inversion H2 as [|? ? [dhuhr Hd] H3]; subst; clear H2.
  inversion H3 as [|? ? [asr Ha] H4]; subst; clear H3.
  inversion H4 as [|? ? [maghrib Hm] H5]; subst; clear H4.
  inversion H5 as [|? ? [isha Hi] _]; subst; clear H5.
  exists fajr, sunrise, dhuhr, asr, maghrib, isha.
  split; [exact Hf|]. split; [exact Hm|].
  cbn [combine EVENT_NAMES copy_fields].
  rewrite Hf, Hs, Hd, Ha, Hm, Hi. reflexivity.
Qed.

Lemma datetime_sub_base_ok a b :
  valid a = true -> valid b = true ->
  timedelta_new (wall_clock a - wall_clock b) = inr (wall_clock a - wall_clock b).
Proof.
  intros Ha Hb. apply timedelta_new_small.
  pose proof (wall_clock_bounds _ Ha (valid_toordinal _ Ha)).
  pose proof (wall_clock_bounds _ Hb (valid_toordinal _ Hb)).
  unfold MAXORDINAL, US_PER_DAY, US_PER_SECOND in *. lia.
Qed.

(** X7. A day whose Fajr is naive after a day whose Maghrib is aware, or
    aware after naive, stops the run with a [TypeError]: the two instants
    cannot be subtracted.  The days before give no line either. *)
Theorem naive_and_aware_do_not_mix cfg before prev e after lines maghrib fajr :
  convert_entries_to_csv_lines cfg (before ++ [prev]) = inr lines ->
  read_field prev "Maghrib" = inr maghrib ->
  Forall (fun field => exists t, read_field e field = inr t) COPIED_FIELDS ->
  read_field e "Fajr" = inr fajr ->
  (tzinfo maghrib = None /\ tzinfo fajr <> None)
  \/ (tzinfo maghrib <> None /\ tzinfo fajr = None) ->
  convert_entries_to_csv_lines cfg (before ++ prev :: e :: after) = inl TypeError.
Proof.
  intros Hrun Hm Hall Hf Hmix.
  unfold convert_entries_to_csv_lines in *.
  replace (before ++ prev :: e :: after)%list
    with ((before ++ [prev]) ++ e :: after)%list
    by (rewrite <- app_assoc; reflexivity).
  rewrite (process_entries_app cfg (before ++ [prev])).
  destruct (process_entries cfg (before ++ [prev]) ([], None))
    as [x|[lines0 last]] eqn:Hpre; [discriminate|].
  assert (Hlast : last = Some maghrib).
  { rewrite process_entries_app in Hpre. inv_bind Hpre as st Hst.
    destruct st as [l0 la0]. cbn [process_entries] in Hpre.
    inv_bind Hpre as st' Hst'. inversion Hpre; subst st'; clear Hpre.
    apply process_entry_inr in Hst'.
    destruct Hst' as (rows & m' & _ & Hm' & _ & ->). congruence. }
  subst last. cbn [bind process_entries]. unfold process_entry, day_events.
  destruct (copy_fields_all_read e Hall)
    as (fajr' & sunrise & dhuhr & asr & mg & isha & Hf' & _ & ->).
  assert (fajr' = fajr) by congruence. subst fajr'.
  cbn [bind]. unfold add_midnight.
  cbn [EVENT_NAMES list_getitem nth_error ret bind six_events dict_getitem assoc
       String.eqb Ascii.eqb Bool.eqb].
  unfold datetime_sub.
  rewrite (datetime_sub_base_ok fajr maghrib
             (read_field_valid _ _ _ Hf) (read_field_valid _ _ _ Hm)).
  cbn [bind].
  destruct Hmix as [[Hn Ha]|[Ha Hn]].
  - rewrite Hn. destruct (tzinfo fajr); [reflexivity|congruence].
  - rewrite Hn. destruct (tzinfo maghrib); [reflexivity|congruence].
Qed.

Lemma naive_and_aware_do_not_mix_witness :
  convert_entries_to_csv_lines default_config ([] ++ day_1 :: day_2_aware :: [])
  = inl TypeError.
Proof.
  apply (naive_and_aware_do_not_mix default_config [] day_1 day_2_aware []
           (firstn 6 two_day_lines)
           (mkdatetime 2024 1 1 17 30 0 0 None)
           (mkdatetime 2024 1 2 5 2 0 0 (Some (-28800000000)))).
  - vm_compute. reflexivity.
  - vm_compute. reflexivity.
  - repeat (constructor; [eexists; vm_compute; reflexivity|]). constructor.
  - vm_compute. reflexivity.
  - left. split; [reflexivity|discriminate].
Defined.

(** ** Where the midnight falls *)

Lemma datetime_sub_utc a b elapsed :
  datetime_sub a b = inr elapsed -> elapsed = utc_clock a - utc_clock b.
Proof.
  unfold datetime_sub, utc_clock. intros H. inv_bind H as base Hb.
  apply timedelta_new_inr in Hb. destruct Hb as [-> _].
  destruct (tzinfo a) as [myoff|], (tzinfo b) as [otoff|]; try discriminate.
  - destruct (Z.eqb_spec myoff otoff) as [->|Hne].
    + inversion H. lia.
    + inv_bind H as t Ht. apply timedelta_new_inr in Ht. destruct Ht as [-> _].
      apply timedelta_new_inr in H. destruct H as [-> _]. lia.
  - inversion H. lia.
Qed.

Lemma midnight_of_day cfg es days k prev e :
  rows_by_day cfg es None = inr days ->
  nth_error es k = Some prev ->
  nth_error es (S k) = Some e ->
  exists row rest maghrib fajr elapsed,
    nth_error days (S k) = Some (row :: rest)
    /\ subject row = EXTRA_MIDNIGHT_EVENT_NAME
    /\ read_field prev "Maghrib" = inr maghrib
    /\ read_field e "Fajr" = inr fajr
    /\ datetime_sub fajr maghrib = inr elapsed
    /\ datetime_add maghrib (divide_and_round elapsed 2) = inr (instant row).
Proof.
  intros Hdays Hprev He.
  destruct (rows_by_day_nth cfg es None days Hdays) as [_ Hnth].
  destruct (Hnth (S k) e He) as (rows & mg & last_k & Hrows & Hday & Hlast).
  destruct Hlast as (prev' & maghrib & Hprev' & Hm & ->).
  rewrite Hprev in Hprev'. inversion Hprev'; subst prev'; clear Hprev'.
  apply day_rows_inr in Hday.
  destruct Hday as (et & Het & _ & Hsub & Hinst & _).
  apply day_events_inr in Het.
  destruct Het as (fajr & sunrise & dhuhr & asr & mg' & isha & Hf & _ & _ & _ & _ & _ & Het).
  destruct Het as (elapsed & half & midnight & Hel & Hhalf & Hmid & ->).
  destruct rows as [|row rest]; [discriminate|].
  cbn [map fst snd] in Hsub, Hinst.
  injection Hsub as Hrow _. injection Hinst as Hirow _.
  apply timedelta_truediv_2 in Hhalf. destruct Hhalf as [-> _].
  exists row, rest, maghrib, fajr, elapsed. rewrite Hirow.
  repeat (split; [assumption|]). assumption.
Qed.

(** X8. From the second record on, the Midnight row carries the UTC offset
    of the previous Maghrib, and it falls between that Maghrib and the Fajr
    of the record, both read at offset zero, ends included, whichever of the
    two comes first. *)
Theorem midnight_falls_between_maghrib_and_fajr cfg es k prev e lines :
  convert_entries_to_csv_lines cfg es = inr lines ->
  nth_error es k = Some prev ->
  nth_error es (S k) = Some e ->
  exists days row rest maghrib fajr,
    rows_by_day cfg es None = inr days
    /\ lines = map render (List.concat days)
    /\ nth_error days (S k) = Some (row :: rest)
    /\ subject row = EXTRA_MIDNIGHT_EVENT_NAME
    /\ read_field prev "Maghrib" = inr maghrib
    /\ read_field e "Fajr" = inr fajr
    /\ tzinfo (instant row) = tzinfo maghrib
    /\ Z.min (utc_clock maghrib) (utc_clock fajr) <= utc_clock (instant row)
       <= Z.max (utc_clock maghrib) (utc_clock fajr).
Proof.
  intros H Hprev He. destruct (convert_inr _ _ _ H) as (days & Hdays & Hlines).
  destruct (midnight_of_day cfg es days k prev e Hdays Hprev He)
    as (row & rest & maghrib & fajr & elapsed & Hrow & Hsub & Hm & Hf & Hel & Hmid).
  exists days, row, rest, maghrib, fajr.
  repeat (split; [assumption|]).
  destruct (datetime_add_inr _ _ _ Hmid) as (Hw & Htz & _).
  split; [exact Htz|].
  apply datetime_sub_utc in Hel.
  assert (Hu : utc_clock (instant row)
               = utc_clock maghrib + divide_and_round elapsed 2)
    by (unfold utc_clock; rewrite Htz, Hw; lia).
  pose proof (proj2 (divide_and_round_2 elapsed)) as Hr.
  lia.
Qed.

Lemma midnight_falls_between_maghrib_and_fajr_witness :
  exists days row rest maghrib fajr,
    rows_by_day default_config [day_1; day_2] None = inr days
    /\ two_day_lines = map render (List.concat days)
    /\ nth_error days 1 = Some (row :: rest)
    /\ subject row = EXTRA_MIDNIGHT_EVENT_NAME
    /\ read_field day_1 "Maghrib" = inr maghrib
    /\ read_field day_2 "Fajr" = inr fajr
    /\ tzinfo (instant row) = tzinfo maghrib
    /\ Z.min (utc_clock maghrib) (utc_clock fajr) <= utc_clock (instant row)
       <= Z.max (utc_clock maghrib) (utc_clock fajr).
Proof.
  apply (midnight_falls_between_maghrib_and_fajr default_config [day_1; day_2]
           0%nat day_1 day_2 two_day_lines).
  - exact two_day_run.
  - reflexivity.
  - reflexivity.
Defined.

(** ** The requests of a run *)

Lemma request_month_first_success get_calendar_data month answer :
  forall tries start i,
    (start <= i < start + tries)%nat ->
    get_calendar_data month i = inr answer ->
    (forall j, (start <= j < i)%nat -> exists x, get_calendar_data month j = inl x) ->
    request_month get_calendar_data month start tries = inr answer.
Proof.
  induction tries as [|tries IH]; intros start i Hi Hok Hfail; [lia|].
  cbn [request_month].
  destruct (Nat.eq_dec start i) as [->|Hne].
  - rewrite Hok. reflexivity.
  - destruct (Hfail start ltac:(lia)) as [x Hx]. rewrite Hx.
    apply (IH (S start) i); [lia|exact Hok|].
    intros j Hj. apply Hfail. lia.
Qed.

Lemma request_month_all_fail get_calendar_data month :
  forall tries start,
    (forall j, (start <= j < start + tries)%nat ->
               exists x, get_calendar_data month j = inl x) ->
    request_month get_calendar_data month start tries = inl ConnectionError.
Proof.
  induction tries as [|tries IH]; intros start Hfail; [reflexivity|].
  cbn [request_month].
  destruct (Hfail start ltac:(lia)) as [x Hx]. rewrite Hx.
  apply IH. intros j Hj. apply Hfail. lia.
Qed.

Lemma request_months_all get_calendar_data (answer : Z -> list entry) :
  forall count start acc,
    (forall k, (k < count)%nat ->
               request_month get_calendar_data (start + Z.of_nat k) 0 NUM_REQUEST_TRIES
               = inr (answer (start + Z.of_nat k))) ->
    request_months get_calendar_data start count acc
    = inr (acc ++ flat_map answer
                    (map (fun k => start + Z.of_nat k) (seq 0 count)))%list.
Proof.
  induction count as [|count IH]; intros start acc Hall.
  - cbn [request_months seq map flat_map]. rewrite app_nil_r. reflexivity.
  - cbn [request_months].
    pose proof (Hall 0%nat ltac:(lia)) as H0. rewrite Z.add_0_r in H0.
    rewrite H0. cbn [bind].
    rewrite (IH (start + 1) (acc ++ answer start)%list).
    + cbn [seq map flat_map]. rewrite Z.add_0_r, <- app_assoc.
      rewrite <- seq_shift, map_map.
      rewrite (map_ext (fun k => start + 1 + Z.of_nat k)
                 (fun k => start + Z.of_nat (S k))) by (intros k; lia).
      reflexivity.
    + intros k Hk. replace (start + 1 + Z.of_nat k) with (start + Z.of_nat (S k)) by lia.
      apply Hall. lia.
Qed.

Lemma request_months_reaches_failure get_calendar_data :
  forall count start acc k,
    (k < count)%nat ->
    (forall k', (k' < k)%nat ->
                exists answer,
                  request_month get_calendar_data (start + Z.of_nat k') 0 NUM_REQUEST_TRIES
                  = inr answer) ->
    request_month get_calendar_data (start + Z.of_nat k) 0 NUM_REQUEST_TRIES
    = inl ConnectionError ->
    request_months get_calendar_data start count acc = inl ConnectionError.
Proof.
  induction count as [|count IH]; intros start acc k Hk Hbefore Hfail; [lia|].
  cbn [request_months]. destruct k as [|k].
  - rewrite Z.add_0_r in Hfail. rewrite Hfail. reflexivity.
  - destruct (Hbefore 0%nat ltac:(lia)) as [answer Ha].
    rewrite Z.add_0_r in Ha. rewrite Ha. cbn [bind].
    apply (IH (start + 1) _ k); [lia| |].
    + intros k' Hk'.
      replace (start + 1 + Z.of_nat k') with (start + Z.of_nat (S k')) by lia.
      apply Hbefore. lia.
    + replace (start + 1 + Z.of_nat k) with (start + Z.of_nat (S k)) by lia.
      exact Hfail.
Qed.

(** X9. When every month from 1 to [num_months] is answered within five
    attempts, the run converts in one pass the entries of the first answer
    of each month, joined in the order of the months, and puts the header
    in front: the days of a month follow those of the month before, the
    first day of the year alone being without a Midnight. *)
Theorem months_are_joined_then_converted
  cfg get_calendar_data num_months (answer : Z -> list entry) :
  1 <= num_months <= 12 ->
  (forall month,
      1 <= month <= num_months ->
      exists i,
        (i < NUM_REQUEST_TRIES)%nat
        /\ get_calendar_data month i = inr (answer month)
        /\ forall j, (j < i)%nat -> exists x, get_calendar_data month j = inl x) ->
  get_calendar_csv cfg get_calendar_data num_months
  = (body <- convert_entries_to_csv_lines cfg
               (flat_map answer (months_up_to num_months)) ;;
     ret ("Subject,Start Date,Start Time,End Date,End Time,Description" :: body)).
Proof.
  intros Hn Hall. unfold get_calendar_csv, months_up_to.
  destruct (Z.leb_spec 1 num_months); [|lia].
  destruct (Z.leb_spec num_months 12); [|lia]. cbn [andb].
  rewrite (request_months_all get_calendar_data answer).
  - reflexivity.
  - intros k Hk.
    destruct (Hall (1 + Z.of_nat k) ltac:(lia)) as (i & Hi & Hok & Hfail).
    apply (request_month_first_success _ _ _ _ 0%nat i); [lia|exact Hok|].
    intros j Hj. apply Hfail. lia.
Qed.

Lemma months_are_joined_then_converted_witness :
  get_calendar_csv default_config sample_calendar_data 2
  = (body <- convert_entries_to_csv_lines default_config
               (flat_map sample_month (months_up_to 2)) ;;
     ret ("Subject,Start Date,Start Time,End Date,End Time,Description" :: body)).
Proof.
  apply months_are_joined_then_converted.
  - lia.
  - intros month Hm. exists 2%nat.
    assert (Hcase : month = 1 \/ month = 2) by lia.
    split; [unfold NUM_REQUEST_TRIES; lia|].
    split.
    + destruct Hcase as [-> | ->]; reflexivity.
    + intros j Hj. exists ConnectionError.
      destruct j as [|[|j]]; [reflexivity|reflexivity|lia].
Defined.

(** X10. When a month fails at each of its five attempts and the months
    before it are answered, the run raises a [ConnectionError], whatever the
    exceptions of the attempts and whatever the later months would
    answer. *)
Theorem a_month_without_answer_stops_the_run cfg get_calendar_data num_months month :
  1 <= num_months <= 12 ->
  1 <= month <= num_months ->
  (forall earlier,
      1 <= earlier < month ->
      exists i answer,
        (i < NUM_REQUEST_TRIES)%nat
        /\ get_calendar_data earlier i = inr answer
        /\ forall j, (j < i)%nat -> exists x, get_calendar_data earlier j = inl x) ->
  (forall j, (j < NUM_REQUEST_TRIES)%nat ->
             exists x, get_calendar_data month j = inl x) ->
  get_calendar_csv cfg get_calendar_data num_months = inl ConnectionError.
Proof.
  intros Hn Hm Hbefore Hfail. unfold get_calendar_csv.
  destruct (Z.leb_spec 1 num_months); [|lia].
  destruct (Z.leb_spec num_months 12); [|lia]. cbn [andb].
  rewrite (request_months_reaches_failure get_calendar_data _ 1 []
             (Z.to_nat (month - 1))).
  - reflexivity.
  - lia.
  - intros k' Hk'.
    destruct (Hbefore (1 + Z.of_nat k') ltac:(lia)) as (i & answer & Hi & Hok & Hf).
    exists answer.
    apply (request_month_first_success _ _ _ _ 0%nat i); [lia|exact Hok|].
    intros j Hj. apply Hf. lia.
  - replace (1 + Z.of_nat (Z.to_nat (month - 1))) with month by lia.
    apply request_month_all_fail. intros j Hj. apply Hfail. lia.
Qed.

Lemma a_month_without_answer_stops_the_run_witness :
  get_calendar_csv default_config failing_calendar_data 3 = inl ConnectionError.
Proof.
  apply (a_month_without_answer_stops_the_run default_config
           failing_calendar_data 3 2).
  - lia.
  - lia.
  - intros earlier He. exists 0%nat, [day_1].
    assert (earlier = 1) by lia. subst earlier.
    split; [unfold NUM_REQUEST_TRIES; lia|]. split; [reflexivity|].
    intros j Hj. lia.
  - intros j Hj. exists ValueError. reflexivity.
Defined.

Lemma request_month_same get_calendar_data get_calendar_data' month :
  forall tries start,
    (forall j, (start <= j < start + tries)%nat ->
               same_answer (get_calendar_data month j) (get_calendar_data' month j)) ->
    request_month get_calendar_data' month start tries
    = request_month get_calendar_data month start tries.
Proof.
  induction tries as [|tries IH]; intros start Hsame; [reflexivity|].
  cbn [request_month].
  pose proof (Hsame start ltac:(lia)) as H0. unfold same_answer in H0.
  destruct (get_calendar_data month start), (get_calendar_data' month start);
    try contradiction.
  - apply IH. intros j Hj. apply Hsame. lia.
  - subst. reflexivity.
Qed.

(** X11. A run asks for the months from 1 to [num_months] and for at most
    five attempts each, and looks at an attempt that failed only to see
    that it failed: two collaborators that give the same entries where one
    of them answers, and fail together otherwise, on these months and
    attempts, give the same run. *)
Theorem a_run_sees_five_attempts_of_each_month
  cfg get_calendar_data get_calendar_data' num_months :
  (forall month j,
      1 <= month <= num_months -> (j < NUM_REQUEST_TRIES)%nat ->
      same_answer (get_calendar_data month j) (get_calendar_data' month j)) ->
  get_calendar_csv cfg get_calendar_data' num_months
  = get_calendar_csv cfg get_calendar_data num_months.
Proof.
  intros Hsame. unfold get_calendar_csv.
  destruct (Z.leb_spec 1 num_months); [|reflexivity].
  destruct (Z.leb_spec num_months 12); [|reflexivity]. cbn [andb].
  assert (Hmonths : forall count start acc,
             start + Z.of_nat count <= num_months + 1 -> 1 <= start ->
             request_months get_calendar_data' start count acc
             = request_months get_calendar_data start count acc).
  { induction count as [|count IH]; intros start acc Hend Hstart; [reflexivity|].
    cbn [request_months].
    rewrite (request_month_same get_calendar_data get_calendar_data')
      by (intros j Hj; apply Hsame; lia).
    destruct (request_month get_calendar_data start 0 NUM_REQUEST_TRIES);
      cbn [bind]; [reflexivity|].
    apply IH; lia. }
  rewrite Hmonths by lia. reflexivity.
Qed.

Lemma a_run_sees_five_attempts_of_each_month_witness :
  get_calendar_csv default_config other_calendar_data 2
  = get_calendar_csv default_config sample_calendar_data 2.
Proof.
  apply a_run_sees_five_attempts_of_each_month.
  intros month j Hm Hj.
  assert (Hcase : month = 1 \/ month = 2) by lia.
  unfold NUM_REQUEST_TRIES in Hj.
  destruct j as [|[|[|[|[|j]]]]]; [| | | | |lia];
    destruct Hcase as [-> | ->]; exact I || reflexivity.
Defined.

(** ** Fields and lines without quoting *)

Lemma occurs_app c a b : occurs c (a ++ b) = occurs c a || occurs c b.
Proof.
  induction a as [|x a IH]; simpl; [reflexivity|].
  rewrite IH, orb_assoc. reflexivity.
Qed.

Lemma split_on_from_free sep a rest word :
  occurs sep a = false ->
  split_on_from sep (a ++ rest) word = split_on_from sep rest (word ++ a).
Proof.
  revert word. induction a as [|c a IH]; intros word H; simpl.
  - rewrite append_empty_r. reflexivity.
  - simpl in H. apply orb_false_iff in H. destruct H as [Hc Ha].
    rewrite Hc, (IH _ Ha), append_assoc. reflexivity.
Qed.

Lemma split_on_field sep a rest :
  occurs sep a = false ->
  split_on sep (a ++ String sep rest) = a :: split_on sep rest.
Proof.
  intros H. unfold split_on. rewrite (split_on_from_free _ _ _ _ H).
  simpl. rewrite Ascii.eqb_refl. reflexivity.
Qed.

Lemma split_on_last sep a :
  occurs sep a = false -> split_on sep a = [a].
Proof.
  intros H. unfold split_on. rewrite <- (append_empty_r a) at 1.
  rewrite (split_on_from_free _ _ _ _ H). reflexivity.
Qed.

Lemma text_lines_from_free a rest word :
  occurs LF a = false ->
  text_lines_from (a ++ rest) word = text_lines_from rest (word ++ a).
Proof.
  revert word. induction a as [|c a IH]; intros word H; simpl.
  - rewrite append_empty_r. reflexivity.
  - simpl in H. apply orb_false_iff in H. destruct H as [Hc Ha].
    rewrite Hc, (IH _ Ha), append_assoc. reflexivity.
Qed.

Lemma text_lines_file_text lines :
  Forall (fun line => occurs LF line = false) lines ->
  text_lines (file_text lines) = lines.
Proof.
  unfold text_lines. induction 1 as [|line lines Hline _ IH]; [reflexivity|].
  cbn [file_text]. rewrite append_assoc.
  rewrite (text_lines_from_free _ _ _ Hline).
  cbn [append text_lines_from]. rewrite Ascii.eqb_refl, IH. reflexivity.
Qed.

Lemma digit_is_not c a :
  digit_val c = None -> digit_val a <> None -> Ascii.eqb a c = false.
Proof.
  intros Hc Ha. destruct (Ascii.eqb_spec a c) as [->|]; [congruence|reflexivity].
Qed.

Lemma occurs_zero_pad_2 c n :
  digit_val c = None -> 0 <= n <= 99 -> occurs c (zero_pad 2 n) = false.
Proof.
  intros Hc Hn. pose proof (zero_pad_2_spec n Hn) as H. unfold zero_pad_2_ok in H.
  destruct (zero_pad 2 n) as [|a [|b [|x s]]]; try discriminate.
  destruct (digit_val a) eqn:Ha; [|discriminate].
  destruct (digit_val b) eqn:Hb; [|discriminate].
  simpl. rewrite !(digit_is_not c) by congruence. reflexivity.
Qed.

Lemma occurs_read_digits c s : forall v r,
  digit_val c = None -> read_digits s v = Some r -> occurs c s = false.
Proof.
  induction s as [|a s IH]; intros v r Hc H; [reflexivity|].
  cbn [read_digits] in H. destruct (digit_val a) as [x|] eqn:Ha; [|discriminate].
  destruct (read_digits s (v * 10 + x)) as [[v' k]|] eqn:Hs; [|discriminate].
  cbn [occurs]. rewrite (digit_is_not c a Hc) by congruence.
  exact (IH _ _ Hc Hs).
Qed.

Lemma occurs_str_of_int c n :
  digit_val c = None -> 1 <= n <= 9999 -> occurs c (str_of_int n) = false.
Proof.
  intros Hc Hn.
  exact (occurs_read_digits c _ _ _ Hc (read_digits_str_of_int n Hn)).
Qed.

(** Neither a comma nor a line feed occurs in a date or a time. *)
Lemma occurs_date c dt :
  c = ","%char \/ c = LF -> valid dt = true ->
  occurs c (strftime dt DATE_FORMAT) = false.
Proof.
  intros Hc Hv. destruct (valid_ranges dt Hv) as (Hy & Hm & Hd & _).
  assert (Hdig : digit_val c = None) by (destruct Hc as [-> | ->]; reflexivity).
  change (strftime dt DATE_FORMAT)
    with (zero_pad 2 (month dt)
          ++ String "/" (zero_pad 2 (day dt)
                         ++ String "/" (str_of_int (year dt) ++ EmptyString))).
  rewrite occurs_app. cbn [occurs]. rewrite occurs_app. cbn [occurs].
  rewrite occurs_app. cbn [occurs].
  rewrite !occurs_zero_pad_2, occurs_str_of_int by (assumption || lia).
  destruct Hc as [-> | ->]; reflexivity.
Qed.

Lemma occurs_time c dt :
  c = ","%char \/ c = LF -> valid dt = true ->
  occurs c (strftime dt TIME_FORMAT) = false.
Proof.
  intros Hc Hv. destruct (valid_ranges dt Hv) as (_ & _ & _ & Hh & Hmi & Hs).
  assert (Hdig : digit_val c = None) by (destruct Hc as [-> | ->]; reflexivity).
  assert (H12 : 0 <= hour12 dt <= 99).
  { unfold hour12. destruct (hour dt mod 12 =? 0); [lia|].
    pose proof (Z.mod_pos_bound (hour dt) 12 ltac:(lia)). lia. }
  change (strftime dt TIME_FORMAT)
    with (zero_pad 2 (hour12 dt)
          ++ String ":" (zero_pad 2 (minute dt)
                         ++ String ":" (zero_pad 2 (second dt)
                                        ++ String " " ((if hour dt <? 12 then "AM" else "PM")
                                                       ++ EmptyString)))).
  rewrite occurs_app. cbn [occurs]. rewrite occurs_app. cbn [occurs].
  rewrite occurs_app. cbn [occurs].
  rewrite !occurs_zero_pad_2 by (assumption || lia).
  destruct (hour dt <? 12); destruct Hc as [-> | ->]; reflexivity.
Qed.

Lemma occurs_subject c name :
  c = ","%char \/ c = LF ->
  In name (EXTRA_MIDNIGHT_EVENT_NAME :: EVENT_NAMES) ->
  occurs c name = false.
Proof.
  intros Hc Hin. simpl in Hin.
  repeat (destruct Hin as [<-|Hin]; [destruct Hc as [-> | ->]; reflexivity|]).
  contradiction.
Qed.

Lemma rows_of_run_text cfg es last days :
  rows_by_day cfg es last = inr days ->
  Forall (fun r =>
            In (subject r) (EXTRA_MIDNIGHT_EVENT_NAME :: EVENT_NAMES)
            /\ valid (start r) = true /\ valid (end_ r) = true)
         (List.concat days).
Proof.
  intros Hdays.
  eapply Forall_impl; [|exact (rows_of_run cfg es last days Hdays)].
  intros r [Hsub Hw]. split; [exact Hsub|].
  destruct (event_window_inr cfg _ _ _ Hw) as (_ & _ & _ & Hvs & Hve).
  split; assumption.
Qed.

Lemma render_fields r :
  In (subject r) (EXTRA_MIDNIGHT_EVENT_NAME :: EVENT_NAMES) ->
  valid (start r) = true -> valid (end_ r) = true ->
  split_on "," (render r)
  = [subject r; strftime (start r) DATE_FORMAT; strftime (start r) TIME_FORMAT;
     strftime (end_ r) DATE_FORMAT; strftime (end_ r) TIME_FORMAT;
     "Auto-generated"].
Proof.
  intros Hsub Hvs Hve. unfold render.
  cbn [append].
  rewrite split_on_field by (apply occurs_subject; [left; reflexivity|exact Hsub]).
  rewrite split_on_field by (apply occurs_date; [left; reflexivity|exact Hvs]).
  rewrite split_on_field by (apply occurs_time; [left; reflexivity|exact Hvs]).
  rewrite split_on_field by (apply occurs_date; [left; reflexivity|exact Hve]).
  rewrite split_on_field by (apply occurs_time; [left; reflexivity|exact Hve]).
  reflexivity.
Qed.

Lemma render_one_line r :
  In (subject r) (EXTRA_MIDNIGHT_EVENT_NAME :: EVENT_NAMES) ->
  valid (start r) = true -> valid (end_ r) = true ->
  occurs LF (render r) = false.
Proof.
  intros Hsub Hvs Hve. unfold render.
  rewrite !occurs_app.
  rewrite (occurs_subject LF _ (or_intror eq_refl) Hsub).
  rewrite !(occurs_date LF _ (or_intror eq_refl)) by assumption.
  rewrite !(occurs_time LF _ (or_intror eq_refl)) by assumption.
  reflexivity.
Qed.

(** X12. No field of the output holds a comma: cut at its commas, every
    line of a successful run gives back exactly six fields, those of the
    header for the first line, and for a row its name, the date and the time
    of its start, the date and the time of its end, and Auto-generated. *)
Theorem lines_cut_at_commas_give_six_fields cfg get_calendar_data num_months lines :
  get_calendar_csv cfg get_calendar_data num_months = inr lines ->
  exists rows,
    map (split_on ",") lines
    = ["Subject"; "Start Date"; "Start Time"; "End Date"; "End Time"; "Description"]
      :: map (fun r =>
                [subject r; strftime (start r) DATE_FORMAT;
                 strftime (start r) TIME_FORMAT; strftime (end_ r) DATE_FORMAT;
                 strftime (end_ r) TIME_FORMAT; "Auto-generated"]) rows.
Proof.
  unfold get_calendar_csv. destruct (_ && _); [|discriminate].
  intros H. inv_bind H as entries Hentries. inv_bind H as body Hbody.
  inversion H; subst lines; clear H.
  destruct (convert_inr _ _ _ Hbody) as (days & Hdays & ->).
  exists (List.concat days). cbn [app map]. f_equal.
  rewrite map_map. apply map_ext_in. intros r Hr.
  pose proof (rows_of_run_text cfg entries None days Hdays) as Hall.
  rewrite Forall_forall in Hall. destruct (Hall r Hr) as (Hsub & Hvs & Hve).
  exact (render_fields r Hsub Hvs Hve).
Qed.

Lemma lines_cut_at_commas_give_six_fields_witness :
  exists rows,
    map (split_on ",") (HEADER :: two_day_lines)
    = ["Subject"; "Start Date"; "Start Time"; "End Date"; "End Time"; "Description"]
      :: map (fun r =>
                [subject r; strftime (start r) DATE_FORMAT;
                 strftime (start r) TIME_FORMAT; strftime (end_ r) DATE_FORMAT;
                 strftime (end_ r) TIME_FORMAT; "Auto-generated"]) rows.
Proof.
  apply (lines_cut_at_commas_give_six_fields default_config sample_calendar_data 2).
  vm_compute. reflexivity.
Defined.

(** X13. The file written after a successful run holds one line of the
    run on each of its lines: no line of the run holds a line feed, and
    the text cut at its line feeds gives back the lines, the header
    first. *)
Theorem file_holds_one_row_a_line cfg get_calendar_data text :
  main cfg get_calendar_data = inr text ->
  exists body,
    get_calendar_csv cfg get_calendar_data 12
    = inr ("Subject,Start Date,Start Time,End Date,End Time,Description" :: body)
    /\ text_lines text
       = "Subject,Start Date,Start Time,End Date,End Time,Description" :: body.
Proof.
  unfold main. intros H. inv_bind H as lines Hlines. inversion H; subst text; clear H.
  pose proof Hlines as Hrun. unfold get_calendar_csv in Hlines.
  destruct (_ && _); [|discriminate].
  inv_bind Hlines as entries Hentries. inv_bind Hlines as body Hbody.
  inversion Hlines; subst lines; clear Hlines. cbn [app] in *.
  exists body. split; [exact Hrun|].
  apply text_lines_file_text. constructor; [reflexivity|].
  destruct (convert_inr _ _ _ Hbody) as (days & Hdays & ->).
  apply Forall_map.
  eapply Forall_impl; [|exact (rows_of_run_text cfg entries None days Hdays)].
  intros r (Hsub & Hvs & Hve). exact (render_one_line r Hsub Hvs Hve).
Qed.

Lemma file_holds_one_row_a_line_witness :
  exists body,
    get_calendar_csv default_config constant_calendar_data 12
    = inr ("Subject,Start Date,Start Time,End Date,End Time,Description" :: body)
    /\ text_lines
         (match main default_config constant_calendar_data with
          | inr text => text
          | inl _ => EmptyString
          end)
       = "Subject,Start Date,Start Time,End Date,End Time,Description" :: body.
Proof.
  apply (file_holds_one_row_a_line default_config constant_calendar_data).
  vm_compute. reflexivity.
Defined.

(** ** Each row carries the timing of its name *)

Lemma Forall2_event_rows (et : list (string * datetime)) rows :
  map subject rows = map fst et ->
  map instant rows = map snd et ->
  Forall2 (fun event r => subject r = fst event /\ instant r = snd event) et rows.
Proof.
  revert rows. induction et as [|event et IH]; intros [|r rows] Hs Hi;
    try discriminate; constructor.
  - injection Hs as Hs _. injection Hi as Hi _. split; assumption.
  - injection Hs as _ Hs. injection Hi as _ Hi. apply IH; assumption.
Qed.

(** X14. On a run that succeeds, the six rows of a day after its Midnight,
    if it has one, are named after the six fields in their order, and each
    carries as its instant the timing that the entry of the day holds under
    the field of that name. *)
Theorem each_row_carries_the_timing_of_its_name cfg es k e lines :
  convert_entries_to_csv_lines cfg es = inr lines ->
  nth_error es k = Some e ->
  exists days rows,
    rows_by_day cfg es None = inr days
    /\ lines = map render (List.concat days)
    /\ nth_error days k = Some rows
    /\ Forall2 (fun field r => subject r = field /\ read_field e field = inr (instant r))
         COPIED_FIELDS
         (match k with O => rows | S _ => tl rows end).
Proof.
  intros H He. destruct (convert_inr _ _ _ H) as (days & Hdays & Hlines).
  destruct (rows_by_day_nth cfg es None days Hdays) as [_ Hnth].
  destruct (Hnth k e He) as (rows & mg & last_k & Hrows & Hday & Hlast).
  exists days, rows. repeat (split; [assumption|]).
  apply day_rows_inr in Hday. destruct Hday as (et & Het & _ & Hsub & Hinst & _).
  pose proof (Forall2_event_rows et rows Hsub Hinst) as Hrel.
  apply day_events_inr in Het.
  destruct Het as (fajr & sunrise & dhuhr & asr & maghrib & isha
                   & Hf & Hs & Hd & Ha & Hm & Hi & Het).
  assert (Hsix : forall rows6,
             Forall2 (fun event r => subject r = fst event /\ instant r = snd event)
               (six_events fajr sunrise dhuhr asr maghrib isha) rows6 ->
             Forall2 (fun field r => subject r = field
                                     /\ read_field e field = inr (instant r))
               COPIED_FIELDS rows6).
  { intros rows6 H6. unfold six_events, COPIED_FIELDS in *.
    repeat match goal with
           | H6 : Forall2 _ (_ :: _) _ |- _ =>
               inversion H6 as [|? ? ? ? [? ?] ?]; subst; clear H6
           | H6 : Forall2 _ [] _ |- _ => inversion H6; subst; clear H6
           end.
    cbn [fst snd] in *.
    repeat (constructor; [split; [assumption|congruence]|]). constructor. }
  destruct k as [|k].
  - subst last_k et. apply Hsix. exact Hrel.
  - destruct Hlast as (prev & m & _ & _ & ->).
    destruct Het as (elapsed & half & midnight & _ & _ & _ & ->).
    inversion Hrel as [|? ? ? ? _ Hrest]; subst. cbn [tl].
    apply Hsix. exact Hrest.
Qed.

Lemma each_row_carries_the_timing_of_its_name_witness :
  exists days rows,
    rows_by_day default_config [day_1; day_2] None = inr days
    /\ two_day_lines = map render (List.concat days)
    /\ nth_error days 1 = Some rows
    /\ Forall2 (fun field r => subject r = field
                               /\ read_field day_2 field = inr (instant r))
         COPIED_FIELDS (tl rows).
Proof.
  exact (each_row_carries_the_timing_of_its_name default_config [day_1; day_2]
           1%nat day_2 two_day_lines two_day_run eq_refl).
Defined.

(** ** Rows at the ends of the range *)

Lemma datetime_add_in_range self other :
  in_range (wall_clock self + other) ->
  exists r, datetime_add self other = inr r.
Proof.
  unfold in_range, datetime_add. intros H.
  assert (Hd : 1 <= (wall_clock self + other) / US_PER_DAY <= MAXORDINAL).
  { unfold MAXORDINAL, US_PER_DAY, US_PER_SECOND in *. Z.div_mod_to_equations. lia. }
  destruct (Z.ltb_spec 0 ((wall_clock self + other) / US_PER_DAY)); [|lia].
  destruct (Z.leb_spec ((wall_clock self + other) / US_PER_DAY) MAXORDINAL); [|lia].
  cbn [andb]. destruct (ord2ymd _) as [[y m] d]. eexists. reflexivity.
Qed.

Lemma valid_in_range t : valid t = true -> in_range (wall_clock t).
Proof.
  intros H. exact (wall_clock_bounds _ H (valid_toordinal _ H)).
Qed.

Lemma event_window_in_range cfg t :
  valid t = true -> window_in_range cfg t ->
  exists s e, event_window cfg t = inr (s, e).
Proof.
  intros Hv [Hs He]. pose proof (valid_in_range t Hv) as Ht.
  unfold event_window, timedelta_minutes, datetime_sub_timedelta.
  fold (minutes (MINUTES_BEFORE cfg)). fold (minutes (MINUTES_AFTER cfg)).
  unfold in_range in *.
  rewrite (timedelta_new_small (minutes (MINUTES_BEFORE cfg)))
    by (unfold MAXORDINAL, US_PER_DAY, US_PER_SECOND in *; lia).
  cbn [bind].
  rewrite (timedelta_new_small (- minutes (MINUTES_BEFORE cfg)))
    by (unfold MAXORDINAL, US_PER_DAY, US_PER_SECOND in *; lia).
  cbn [bind].
  destruct (datetime_add_in_range t (- minutes (MINUTES_BEFORE cfg))) as [s Hs'];
    [unfold in_range; lia|].
  rewrite Hs'. cbn [bind].
  rewrite (timedelta_new_small (minutes (MINUTES_AFTER cfg)))
    by (unfold MAXORDINAL, US_PER_DAY, US_PER_SECOND in *; lia).
  cbn [bind].
  destruct (datetime_add_in_range t (minutes (MINUTES_AFTER cfg))) as [e He'];
    [unfold in_range; lia|].
  rewrite He'. exists s, e. reflexivity.
Qed.

(** X17. The block of an instant is computed exactly when its start and
    its end stay between the first instant of year 1 and the last of year
    9999; a block that leaves this range raises an [OverflowError], and
    nothing else can. *)
Theorem window_out_of_range_overflows cfg t :
  valid t = true ->
  ((exists s e, event_window cfg t = inr (s, e)) <-> window_in_range cfg t)
  /\ (~ window_in_range cfg t -> event_window cfg t = inl OverflowError).
Proof.
  intros Hv.
  assert (Hiff : (exists s e, event_window cfg t = inr (s, e))
                 <-> window_in_range cfg t).
  { split; [|apply event_window_in_range; exact Hv].
    intros (s & e & H).
    destruct (event_window_inr cfg t s e H) as (Hs & He & _ & Hvs & Hve).
    unfold datetime_sub_timedelta in Hs. inv_bind Hs as neg Hn.
    apply timedelta_new_inr in Hn. destruct Hn as [-> _].
    destruct (datetime_add_inr _ _ _ Hs) as (Hws & _).
    destruct (datetime_add_inr _ _ _ He) as (Hwe & _).
    pose proof (valid_in_range s Hvs). pose proof (valid_in_range e Hve).
    unfold window_in_range. split.
    - replace (wall_clock t - minutes (MINUTES_BEFORE cfg)) with (wall_clock s) by lia.
      assumption.
    - rewrite <- Hwe. assumption. }
  split; [exact Hiff|].
  intros Hout. destruct (event_window cfg t) as [x|[s e]] eqn:H.
  - rewrite (event_window_inl cfg t x H). reflexivity.
  - exfalso. apply Hout. apply Hiff. exists s, e. reflexivity.
Qed.

Lemma window_out_of_range_overflows_witness :
  ((exists s e,
       event_window default_config (mkdatetime 9999 12 31 23 58 0 0 None) = inr (s, e))
   <-> window_in_range default_config (mkdatetime 9999 12 31 23 58 0 0 None))
  /\ (~ window_in_range default_config (mkdatetime 9999 12 31 23 58 0 0 None) ->
      event_window default_config (mkdatetime 9999 12 31 23 58 0 0 None)
      = inl OverflowError).
Proof.
  apply window_out_of_range_overflows. reflexivity.
Defined.

(** ** Runs that cannot fail *)

Lemma add_midnight_same_offset cfg last fajr sunrise dhuhr asr maghrib isha :
  valid last = true -> valid fajr = true -> tzinfo fajr = tzinfo last ->
  window_in_range cfg last -> window_in_range cfg fajr ->
  exists midnight,
    add_midnight (Some last) (six_events fajr sunrise dhuhr asr maghrib isha)
    = inr ((EXTRA_MIDNIGHT_EVENT_NAME, midnight)
           :: six_events fajr sunrise dhuhr asr maghrib isha)
    /\ valid midnight = true /\ window_in_range cfg midnight.
Proof.
  intros Hvl Hvf Htz Hwl Hwf.
  pose proof (valid_in_range _ Hvl) as Hrl. pose proof (valid_in_range _ Hvf) as Hrf.
  unfold add_midnight.
  cbn [EVENT_NAMES list_getitem nth_error ret bind six_events dict_getitem assoc
       String.eqb Ascii.eqb Bool.eqb].
  rewrite (datetime_sub_same_tz fajr last Htz),
    (datetime_sub_base_ok fajr last Hvf Hvl). cbn [bind].
  set (elapsed := wall_clock fajr - wall_clock last).
  pose proof (proj2 (divide_and_round_2 elapsed)) as Hround.
  unfold timedelta_truediv. cbn [Z.eqb].
  unfold in_range in *.
  rewrite (timedelta_new_small (divide_and_round elapsed 2))
    by (subst elapsed; unfold MAXORDINAL, US_PER_DAY, US_PER_SECOND in *; lia).
  cbn [bind].
  assert (Hbetween : Z.min (wall_clock last) (wall_clock fajr)
                     <= wall_clock last + divide_and_round elapsed 2
                     <= Z.max (wall_clock last) (wall_clock fajr))
    by (subst elapsed; lia).
  destruct (datetime_add_in_range last (divide_and_round elapsed 2)) as [midnight Hmid];
    [unfold in_range; lia|].
  rewrite Hmid. cbn [bind od_setitem String.eqb Ascii.eqb Bool.eqb].
  exists midnight. split; [reflexivity|].
  destruct (datetime_add_inr _ _ _ Hmid) as (Hw & _ & Hvm & _).
  split; [exact Hvm|].
  destruct Hwl as [Hl1 Hl2], Hwf as [Hf1 Hf2].
  unfold window_in_range, in_range in *. rewrite Hw. lia.
Qed.

Lemma mapM_event_row_in_range cfg et :
  Forall (fun event => valid (snd event) = true /\ window_in_range cfg (snd event)) et ->
  exists rows, mapM (event_row cfg) et = inr rows.
Proof.
  induction 1 as [|[name t] et [Hv Hw] _ [rows IH]]; [exists []; reflexivity|].
  cbn [snd] in *. destruct (event_window_in_range cfg t Hv Hw) as (s & e & Hse).
  cbn [mapM]. unfold event_row at 1. cbn [fst snd]. rewrite Hse. cbn [bind].
  rewrite IH. eexists. reflexivity.
Qed.

(** X18. A run cannot fail when every entry holds, under each of the six
    fields, a timing that is read, all of them naive or all with the same
    UTC offset, and whose block stays in the range of [datetime]: lines are
    returned, the midnights between the days being computed without an
    overflow. *)
Theorem run_on_well_formed_entries_succeeds cfg tz es :
  Forall (fun e =>
            Forall (fun field =>
                      exists t,
                        read_field e field = inr t
                        /\ tzinfo t = tz /\ window_in_range cfg t)
                   COPIED_FIELDS) es ->
  exists lines, convert_entries_to_csv_lines cfg es = inr lines.
Proof.
  intros Hall. rewrite convert_rows.
  assert (Hdays : forall last,
             match last with
             | None => True
             | Some l => valid l = true /\ tzinfo l = tz /\ window_in_range cfg l
             end ->
             exists days, rows_by_day cfg es last = inr days).
  { induction Hall as [|e es He _ IH]; intros last Hlast;
      [exists []; reflexivity|].
    unfold COPIED_FIELDS in He.
    inversion He as [|? ? (fajr & Hf & Htf & Hwf) H1]; subst; clear He.
    inversion H1 as [|? ? (sunrise & Hs & Hts & Hws) H2]; subst; clear H1.
    inversion H2 as [|? ? (dhuhr & Hd & Htd & Hwd) H3]; subst; clear H2.
    inversion H3 as [|? ? (asr & Ha & Hta & Hwa) H4]; subst; clear H3.
    inversion H4 as [|? ? (maghrib & Hm & Htm & Hwm) H5]; subst; clear H4.
    inversion H5 as [|? ? (isha & Hi & Hti & Hwi) _]; subst; clear H5.
    assert (Hsix : Forall (fun event => valid (snd event) = true
                                        /\ window_in_range cfg (snd event))
                     (six_events fajr sunrise dhuhr asr maghrib isha)).
    { unfold six_events.
      repeat (constructor;
              [cbn [snd]; split;
               [eapply read_field_valid; eassumption|assumption]|]).
      constructor. }
    assert (Hcopy : copy_fields e (combine COPIED_FIELDS EVENT_NAMES) []
                    = inr (six_events fajr sunrise dhuhr asr maghrib isha)).
    { cbn [combine COPIED_FIELDS EVENT_NAMES copy_fields].
      rewrite Hf, Hs, Hd, Ha, Hm, Hi. reflexivity. }
    assert (Hnext : exists days, rows_by_day cfg es (Some maghrib) = inr days).
    { apply IH. split; [exact (read_field_valid _ _ _ Hm)|].
      split; [exact Htm|exact Hwm]. }
    destruct Hnext as [later Hlater].
    cbn [rows_by_day]. unfold day_rows, day_events. rewrite Hcopy. cbn [bind].
    destruct last as [l|].
    - destruct Hlast as (Hvl & Htl & Hwl).
      destruct (add_midnight_same_offset cfg l fajr sunrise dhuhr asr maghrib isha
                  Hvl (read_field_valid _ _ _ Hf) (eq_sym Htl) Hwl Hwf)
        as (midnight & Hmid & Hvm & Hwmid).
      rewrite Hmid. cbn [bind].
      destruct (mapM_event_row_in_range cfg
                  ((EXTRA_MIDNIGHT_EVENT_NAME, midnight)
                   :: six_events fajr sunrise dhuhr asr maghrib isha))
        as [rows Hrows]; [constructor; [split; assumption|exact Hsix]|].
      unfold items. rewrite Hrows.
      cbn [six_events dict_getitem assoc String.eqb Ascii.eqb Bool.eqb
           EXTRA_MIDNIGHT_EVENT_NAME bind ret fst snd].
      rewrite Hlater. eexists. reflexivity.
    - cbn [add_midnight ret bind].
      destruct (mapM_event_row_in_range cfg _ Hsix) as [rows Hrows].
      unfold items. rewrite Hrows.
      cbn [six_events dict_getitem assoc String.eqb Ascii.eqb Bool.eqb
           bind ret fst snd].
      rewrite Hlater. eexists. reflexivity. }
  destruct (Hdays None I) as [days Hd]. rewrite Hd. eexists. reflexivity.
Qed.

Lemma window_in_range_sample h mi d :
  0 <= h <= 23 -> 0 <= mi <= 54 -> 1 <= d <= 2 ->
  window_in_range default_config (mkdatetime 2024 1 d h mi 0 0 None).
Proof.
  intros Hh Hmi Hd.
  assert (Hord : ymd2ord 2024 1 d = 738885 + d) by reflexivity.
  unfold window_in_range, in_range, wall_clock, toordinal, minutes.
  cbn [year month day hour minute second microsecond MINUTES_BEFORE MINUTES_AFTER
       default_config].
  rewrite Hord. unfold MAXORDINAL, US_PER_DAY, US_PER_SECOND. lia.
Qed.

Lemma run_on_well_formed_entries_succeeds_witness :
  exists lines, convert_entries_to_csv_lines default_config [day_1; day_2] = inr lines.
Proof.
  apply (run_on_well_formed_entries_succeeds default_config None).
  repeat (constructor;
          [repeat (constructor;
                   [eexists; split; [vm_compute; reflexivity|];
                    split; [reflexivity|apply window_in_range_sample; lia]|]);
           constructor|]).
  constructor.
Defined.

(** ** From the text of a timing to the fields of its instant *)

Lemma zero_pad_2_chars n :
  0 <= n <= 99 ->
  exists a b x y,
    zero_pad 2 n = String a (String b EmptyString)
    /\ digit_val a = Some x /\ digit_val b = Some y /\ x * 10 + y = n.
Proof.
  intros Hn. pose proof (zero_pad_2_spec n Hn) as H. unfold zero_pad_2_ok in H.
  destruct (zero_pad 2 n) as [|a [|b [|c s]]]; try discriminate.
  destruct (digit_val a) as [x|] eqn:Ha; [|discriminate].
  destruct (digit_val b) as [y|] eqn:Hb; [|discriminate].
  apply Z.eqb_eq in H. exists a, b, x, y. repeat split; assumption.
Qed.

Lemma zero_pad_4_chars n :
  0 <= n <= 9999 ->
  exists a b c d x y z w,
    zero_pad 4 n = String a (String b (String c (String d EmptyString)))
    /\ digit_val a = Some x /\ digit_val b = Some y
    /\ digit_val c = Some z /\ digit_val d = Some w
    /\ ((x * 10 + y) * 10 + z) * 10 + w = n.
Proof.
  intros Hn. pose proof (zero_pad_4_spec n Hn) as H. unfold zero_pad_4_ok in H.
  destruct (zero_pad 4 n) as [|a [|b [|c [|d [|e s]]]]]; try discriminate.
  destruct (digit_val a) as [x|] eqn:Ha; [|discriminate].
  destruct (digit_val b) as [y|] eqn:Hb; [|discriminate].
  destruct (digit_val c) as [z|] eqn:Hc; [|discriminate].
  destruct (digit_val d) as [w|] eqn:Hd; [|discriminate].
  apply Z.eqb_eq in H. exists a, b, c, d, x, y, z, w. repeat split; assumption.
Qed.

Lemma digit_code a x : digit_val a = Some x -> 48 <= code a <= 57.
Proof.
  unfold digit_val.
  destruct (Z.leb_spec 48 (code a)); [|discriminate].
  destruct (Z.leb_spec (code a) 57); [|discriminate]. lia.
Qed.

Lemma digit_lt a x k : digit_val a = Some x -> 57 < k -> (code a <? k) = true.
Proof. intros H Hk. apply digit_code in H. apply Z.ltb_lt. lia. Qed.

Lemma digit_neq a x k :
  digit_val a = Some x -> k < 48 \/ 57 < k -> (code a =? k) = false.
Proof. intros H Hk. apply digit_code in H. apply Z.eqb_neq. lia. Qed.

Lemma digit_is_digit a x : digit_val a = Some x -> is_digit (code a) = true.
Proof.
  intros H. apply digit_code in H. unfold is_digit.
  apply andb_true_iff. split; apply Z.leb_le; lia.
Qed.

Lemma digit_not_marker a x : digit_val a = Some x -> is_tz_marker (code a) = false.
Proof.
  intros H. unfold is_tz_marker.
  rewrite !(digit_neq a x) by (assumption || lia). reflexivity.
Qed.

Lemma digit_not_space a x :
  digit_val a = Some x -> isspace a = false.
Proof.
  intros H. apply digit_code in H. unfold isspace.
  repeat match goal with
         | |- context [?u <=? ?v] => destruct (Z.leb_spec u v); try lia
         | |- context [?u =? ?v] => destruct (Z.eqb_spec u v); try lia
         end; reflexivity.
Qed.

(** The tests of the parser on a digit and on a given character. *)
Ltac on_digits :=
  repeat match goal with
         | H : digit_val ?a = Some _ |- context [digit_val ?a] => rewrite H
         | H : digit_val ?a = Some _ |- context [code ?a <? ?k] =>
             rewrite (digit_lt a _ k H) by lia
         | H : digit_val ?a = Some _ |- context [code ?a =? ?k] =>
             rewrite (digit_neq a _ k H) by lia
         | H : digit_val ?a = Some _ |- context [is_digit (code ?a)] =>
             rewrite (digit_is_digit a _ H)
         | H : digit_val ?a = Some _ |- context [is_tz_marker (code ?a)] =>
             rewrite (digit_not_marker a _ H)
         end.

Ltac on_characters :=
  repeat match goal with
         | |- context [code ?c] =>
             lazymatch c with
             | Ascii _ _ _ _ _ _ _ _ =>
                 let v := eval vm_compute in (code c) in change (code c) with v
             end
         end.


Lemma utf8_ascii s : is_ascii s = true -> utf8 s = s.
Proof.
  induction s as [|c s IH]; [reflexivity|]. cbn [is_ascii utf8]. intros H.
  apply andb_true_iff in H. destruct H as [Hc Hs]. cbv zeta.
  rewrite Hc, (IH Hs). reflexivity.
Qed.

Ltac on_numbers :=
  repeat match goal with
         | |- context [Z.eqb ?a ?b] =>
             let v := eval vm_compute in (Z.eqb a b) in
             lazymatch v with
             | true => change (Z.eqb a b) with true
             | false => change (Z.eqb a b) with false
             end
         | |- context [Z.ltb ?a ?b] =>
             let v := eval vm_compute in (Z.ltb a b) in
             lazymatch v with
             | true => change (Z.ltb a b) with true
             | false => change (Z.ltb a b) with false
             end
         | |- context [Z.leb ?a ?b] =>
             let v := eval vm_compute in (Z.leb a b) in
             lazymatch v with
             | true => change (Z.leb a b) with true
             | false => change (Z.leb a b) with false
             end
         end.

Ltac step := on_digits; on_characters; on_numbers; cbv beta iota; cbn [andb orb negb].


Lemma utf8_width_ascii c : 0 <= c < 128 -> utf8_width c = 1%nat.
Proof.
  intros Hc.
  assert (H : forall_range (fun c => (utf8_width c =? 1)%nat) 128 0 = true)
    by (vm_compute; reflexivity).
  apply Nat.eqb_eq. apply (forall_range_spec _ _ _ H). lia.
Qed.

Lemma code_range c : 0 <= code c < 256.
Proof.
  unfold code. pose proof (N_ascii_bounded c) as H. lia.
Qed.

Section TwoDigits.

Variables (a b : ascii) (x y : Z).
Hypothesis Ha : digit_val a = Some x.
Hypothesis Hb : digit_val b = Some y.

Lemma parse_two_digits p :
  parse_digits (String a (String b p)) 0 2 = Some (x * 10 + y, p).
Proof. cbn [parse_digits]. rewrite Ha, Hb. reflexivity. Qed.

(** A round of the loop that ends on a colon, with more of the time to
    come. *)
Lemma round_colon rounds (i0 has_separator : bool) p n vals :
  0 < n - 3 -> (if i0 then true else has_separator) = true ->
  parse_hh_mm_ss (S rounds) i0 has_separator (String a (String b (String ":" p))) n vals
  = parse_hh_mm_ss rounds false true p (n - 3) (vals ++ [x * 10 + y])%list.
Proof.
  intros Hn Hsep. cbn [parse_hh_mm_ss]. rewrite parse_two_digits.
  cbn [peek drop]. change (code ":" =? 58) with true.
  destruct (Z.leb_spec (n - 3) 0) as [|_]; [lia|].
  destruct i0; [reflexivity|]. rewrite Hsep. reflexivity.
Qed.

(** A round of the loop that reaches the end of the time. *)
Lemma round_last rounds (i0 has_separator : bool) p n vals :
  n - 3 <= 0 ->
  parse_hh_mm_ss (S rounds) i0 has_separator (String a (String b p)) n vals
  = Some ((vals ++ [x * 10 + y])%list, 0, negb (peek p =? 0)).
Proof.
  intros Hn. cbn [parse_hh_mm_ss]. rewrite parse_two_digits.
  destruct (Z.leb_spec (n - 3) 0) as [_|]; [reflexivity|lia].
Qed.

End TwoDigits.

(** The texts [YYYY-MM-DD], [HH:MM:SS] and [HH:MM] *)
Section ExtendedFormat.

Variables (y1 y2 y3 y4 m1 m2 d1 d2 : ascii).
Variables (vy1 vy2 vy3 vy4 vm1 vm2 vd1 vd2 : Z).
Hypothesis Hy1 : digit_val y1 = Some vy1.
Hypothesis Hy2 : digit_val y2 = Some vy2.
Hypothesis Hy3 : digit_val y3 = Some vy3.
Hypothesis Hy4 : digit_val y4 = Some vy4.
Hypothesis Hm1 : digit_val m1 = Some vm1.
Hypothesis Hm2 : digit_val m2 = Some vm2.
Hypothesis Hd1 : digit_val d1 = Some vd1.
Hypothesis Hd2 : digit_val d2 = Some vd2.

Let date (rest : string) : string :=
  String y1 (String y2 (String y3 (String y4 (String "-"
    (String m1 (String m2 (String "-" (String d1 (String d2 rest))))))))).

Lemma parse_isoformat_date_extended rest len :
  parse_isoformat_date (date rest) len
  = Some (((vy1 * 10 + vy2) * 10 + vy3) * 10 + vy4, vm1 * 10 + vm2, vd1 * 10 + vd2).
Proof.
  unfold parse_isoformat_date, date. cbn [parse_digits]. rewrite Hy1, Hy2, Hy3, Hy4.
  cbv beta iota. cbn [peek drop]. change (code "-" =? 45) with true. cbv beta iota.
  cbn [peek drop]. rewrite (digit_neq m1 _ 87 Hm1) by lia.
  rewrite Hm1, Hm2. cbv beta iota.
  cbn [peek drop andb negb]. change (code "-" =? 45) with true. cbn [negb].
  rewrite Hd1, Hd2. reflexivity.
Qed.

Lemma fromisoformat_extended sep tstr :
  code sep < 128 -> is_ascii tstr = true ->
  fromisoformat (date (String sep tstr))
  = match parse_isoformat_time tstr (Z.of_nat (String.length tstr)) with
    | None => raise ValueError
    | Some (hour, minute, second, microsecond, tz) =>
        datetime_new (((vy1 * 10 + vy2) * 10 + vy3) * 10 + vy4)
          (vm1 * 10 + vm2) (vd1 * 10 + vd2) hour minute second microsecond
          (tzinfo_from_isoformat_results tz)
    end.
Proof.
  intros Hsep Htstr. unfold fromisoformat.
  assert (Hascii : is_ascii (date (String sep tstr)) = true).
  { unfold date. cbn [is_ascii].
    rewrite (digit_lt y1 _ 128 Hy1), (digit_lt y2 _ 128 Hy2), (digit_lt y3 _ 128 Hy3),
      (digit_lt y4 _ 128 Hy4), (digit_lt m1 _ 128 Hm1), (digit_lt m2 _ 128 Hm2),
      (digit_lt d1 _ 128 Hd1), (digit_lt d2 _ 128 Hd2) by lia.
    rewrite Htstr. change (code "-" <? 128) with true.
    replace (code sep <? 128) with true by (symmetry; apply Z.ltb_lt; exact Hsep).
    reflexivity. }
  rewrite (utf8_ascii _ Hascii). cbv zeta.
  rewrite parse_isoformat_date_extended.
  assert (Hlen : Z.of_nat (String.length (date (String sep tstr)))
                 = 11 + Z.of_nat (String.length tstr)).
  { unfold date. cbn [String.length]. lia. }
  assert (Hshort : (String.length (date (String sep tstr)) <? 7)%nat = false).
  { apply Nat.ltb_ge. unfold date. cbn [String.length]. lia. }
  rewrite Hshort, Hlen.
  assert (Hloc : find_isoformat_datetime_separator (date (String sep tstr))
                   (11 + Z.of_nat (String.length tstr)) = 10).
  { unfold find_isoformat_datetime_separator, date. cbn [byte_at drop peek].
    change (code "-" =? 45) with true. rewrite (digit_neq m1 _ 87 Hm1) by lia.
    destruct (Z.eqb_spec (11 + Z.of_nat (String.length tstr)) 7); [lia|reflexivity]. }
  rewrite Hloc.
  destruct (Z.ltb_spec 10 (11 + Z.of_nat (String.length tstr))) as [_|]; [|lia].
  change (Z.to_nat 10) with 10%nat. unfold date. cbn [drop peek].
  pose proof (code_range sep) as Hr.
  rewrite (utf8_width_ascii (code sep)) by lia. cbn [drop]. reflexivity.
Qed.

End ExtendedFormat.

Section TimeOfDay.

Variables (h1 h2 i1 i2 s1 s2 : ascii).
Variables (vh1 vh2 vi1 vi2 vs1 vs2 : Z).
Hypothesis Hh1 : digit_val h1 = Some vh1.
Hypothesis Hh2 : digit_val h2 = Some vh2.
Hypothesis Hi1 : digit_val i1 = Some vi1.
Hypothesis Hi2 : digit_val i2 = Some vi2.
Hypothesis Hs1 : digit_val s1 = Some vs1.
Hypothesis Hs2 : digit_val s2 = Some vs2.

Let time (rest : string) : string :=
  String h1 (String h2 (String ":" (String i1 (String i2 (String ":"
    (String s1 (String s2 rest))))))).

Lemma parse_hh_mm_ss_ff_seconds rest :
  parse_hh_mm_ss_ff (time rest) 8
  = Some (vh1 * 10 + vh2, vi1 * 10 + vi2, vs1 * 10 + vs2, 0, negb (peek rest =? 0)).
Proof.
  unfold parse_hh_mm_ss_ff, time.
  rewrite (round_colon h1 h2 _ _ Hh1 Hh2) by (reflexivity || lia).
  rewrite (round_colon i1 i2 _ _ Hi1 Hi2) by (reflexivity || lia).
  rewrite (round_last s1 s2 _ _ Hs1 Hs2) by lia.
  reflexivity.
Qed.

Lemma parse_hh_mm_ss_ff_minutes :
  parse_hh_mm_ss_ff (String h1 (String h2 (String ":" (String i1 (String i2 ""))))) 5
  = Some (vh1 * 10 + vh2, vi1 * 10 + vi2, 0, 0, false).
Proof.
  unfold parse_hh_mm_ss_ff.
  rewrite (round_colon h1 h2 _ _ Hh1 Hh2) by (reflexivity || lia).
  rewrite (round_last i1 i2 _ _ Hi1 Hi2) by lia.
  reflexivity.
Qed.

Lemma find_tzinfo_seconds rest len :
  8 < len -> is_tz_marker (peek rest) = true ->
  find_tzinfo (time rest) 0 len = 8.
Proof.
  intros Hlen Hrest. destruct rest as [|c rest]; [discriminate|].
  cbn [peek] in Hrest. unfold time. cbn [find_tzinfo].
  rewrite (digit_not_marker _ _ Hh1), (digit_not_marker _ _ Hh2),
    (digit_not_marker _ _ Hi1), (digit_not_marker _ _ Hi2),
    (digit_not_marker _ _ Hs1), (digit_not_marker _ _ Hs2), Hrest.
  change (is_tz_marker (code ":")) with false. cbv beta iota.
  repeat match goal with
         | |- context [?u <? len] => destruct (Z.ltb_spec u len) as [_|]; [|lia]
         end.
  reflexivity.
Qed.

Lemma find_tzinfo_naive : find_tzinfo (time EmptyString) 0 8 = 8.
Proof.
  unfold time. cbn [find_tzinfo].
  rewrite (digit_not_marker _ _ Hh1), (digit_not_marker _ _ Hh2),
    (digit_not_marker _ _ Hi1), (digit_not_marker _ _ Hi2),
    (digit_not_marker _ _ Hs1), (digit_not_marker _ _ Hs2).
  reflexivity.
Qed.

Lemma parse_isoformat_time_naive :
  parse_isoformat_time (time EmptyString) 8
  = Some (vh1 * 10 + vh2, vi1 * 10 + vi2, vs1 * 10 + vs2, 0, None).
Proof.
  unfold parse_isoformat_time. rewrite find_tzinfo_naive.
  rewrite parse_hh_mm_ss_ff_seconds. reflexivity.
Qed.

End TimeOfDay.


Lemma parse_isoformat_time_offset
  (h1 h2 i1 i2 s1 s2 o1 o2 p1 p2 : ascii) (vh1 vh2 vi1 vi2 vs1 vs2 vo1 vo2 vp1 vp2 : Z)
  (negative : bool) :
  digit_val h1 = Some vh1 -> digit_val h2 = Some vh2 ->
  digit_val i1 = Some vi1 -> digit_val i2 = Some vi2 ->
  digit_val s1 = Some vs1 -> digit_val s2 = Some vs2 ->
  digit_val o1 = Some vo1 -> digit_val o2 = Some vo2 ->
  digit_val p1 = Some vp1 -> digit_val p2 = Some vp2 ->
  parse_isoformat_time
    (String h1 (String h2 (String ":" (String i1 (String i2 (String ":"
       (String s1 (String s2
          ((if negative then "-" else "+")
           ++ String o1 (String o2 (String ":" (String p1 (String p2 "")))))))))))))
    14
  = Some (vh1 * 10 + vh2, vi1 * 10 + vi2, vs1 * 10 + vs2, 0,
          Some ((if negative then -1 else 1)
                * ((vo1 * 10 + vo2) * 3600 + (vp1 * 10 + vp2) * 60 + 0),
                (if negative then -1 else 1) * 0)).
Proof.
  intros Hh1 Hh2 Hi1 Hi2 Hs1 Hs2 Ho1 Ho2 Hp1 Hp2.
  unfold parse_isoformat_time.
  rewrite (find_tzinfo_seconds _ _ _ _ _ _ _ _ _ _ _ _ Hh1 Hh2 Hi1 Hi2 Hs1 Hs2)
    by (lia || (destruct negative; reflexivity)).
  rewrite (parse_hh_mm_ss_ff_seconds _ _ _ _ _ _ _ _ _ _ _ _ Hh1 Hh2 Hi1 Hi2 Hs1 Hs2).
  change (8 =? 14) with false. cbv iota.
  change (Z.to_nat 8) with 8%nat. cbn [drop].
  change (14 - (8 + 1)) with 5.
  destruct negative; cbn [append peek drop];
    rewrite (parse_hh_mm_ss_ff_minutes _ _ _ _ _ _ _ _ Ho1 Ho2 Hp1 Hp2); reflexivity.
Qed.

(** ** Texts without white space *)

Lemma no_space_app a b : no_space (a ++ b) = no_space a && no_space b.
Proof.
  induction a as [|c a IH]; simpl; [reflexivity|].
  rewrite IH, andb_assoc. reflexivity.
Qed.

Lemma no_space_zero_pad_2 n : 0 <= n <= 99 -> no_space (zero_pad 2 n) = true.
Proof.
  intros Hn.
  destruct (zero_pad_2_chars n Hn) as (a & b & x & y & -> & Ha & Hb & _).
  cbn [no_space]. rewrite (digit_not_space _ _ Ha), (digit_not_space _ _ Hb).
  reflexivity.
Qed.

Lemma no_space_zero_pad_4 n : 0 <= n <= 9999 -> no_space (zero_pad 4 n) = true.
Proof.
  intros Hn. pose proof (zero_pad_4_spec n Hn) as H. unfold zero_pad_4_ok in H.
  destruct (zero_pad 4 n) as [|a [|b [|c [|d [|z s]]]]]; try discriminate.
  destruct (digit_val a) eqn:Ha; [|discriminate].
  destruct (digit_val b) eqn:Hb; [|discriminate].
  destruct (digit_val c) eqn:Hc; [|discriminate].
  destruct (digit_val d) eqn:Hd; [|discriminate].
  cbn [no_space].
  rewrite (digit_not_space _ _ Ha), (digit_not_space _ _ Hb),
    (digit_not_space _ _ Hc), (digit_not_space _ _ Hd).
  reflexivity.
Qed.

Lemma time_ranges h mi s us :
  check_time_args h mi s us = true -> 0 <= h <= 23 /\ 0 <= mi <= 59 /\ 0 <= s <= 59.
Proof.
  unfold check_time_args. intros Ht.
  repeat (apply andb_true_iff in Ht; destruct Ht as [Ht ?]).
  repeat match goal with Hle : (_ <=? _) = true |- _ => apply Z.leb_le in Hle end.
  lia.
Qed.

Lemma fromisoformat_isoformat_text y m d h mi s :
  check_date_args y m d = true -> check_time_args h mi s 0 = true ->
  fromisoformat (isoformat_text y m d h mi s) = inr (mkdatetime y m d h mi s 0 None)
  /\ no_space (isoformat_text y m d h mi s) = true
  /\ isoformat_text y m d h mi s <> EmptyString.
Proof.
  intros Hd Ht.
  destruct (check_date_args_inv _ _ _ Hd) as (Hy & Hm & Hday).
  pose proof (days_in_month_le_31 y m) as H31.
  pose proof (time_ranges _ _ _ _ Ht) as Htr.
  unfold isoformat_text. repeat split.
  - destruct (zero_pad_4_chars y ltac:(lia))
      as (y1 & y2 & y3 & y4 & ? & ? & ? & ? & -> & Hy1 & Hy2 & Hy3 & Hy4 & Hyv).
    destruct (zero_pad_2_chars m ltac:(lia)) as (m1 & m2 & ? & ? & -> & Hm1 & Hm2 & Hmv).
    destruct (zero_pad_2_chars d ltac:(lia)) as (d1 & d2 & ? & ? & -> & Hd1 & Hd2 & Hdv).
    destruct (zero_pad_2_chars h ltac:(lia)) as (h1 & h2 & ? & ? & -> & Hh1 & Hh2 & Hhv).
    destruct (zero_pad_2_chars mi ltac:(lia)) as (i1 & i2 & ? & ? & -> & Hi1 & Hi2 & Hiv).
    destruct (zero_pad_2_chars s ltac:(lia)) as (s1 & s2 & ? & ? & -> & Hs1 & Hs2 & Hsv).
    cbn [append].
    rewrite (fromisoformat_extended _ _ _ _ _ _ _ _ _ _ _ _ _ _ _ _
               Hy1 Hy2 Hy3 Hy4 Hm1 Hm2 Hd1 Hd2)
      by (reflexivity || (cbn [is_ascii]; step; reflexivity)).
    cbn [String.length]. change (Z.of_nat 8) with 8.
    rewrite (parse_isoformat_time_naive _ _ _ _ _ _ _ _ _ _ _ _ Hh1 Hh2 Hi1 Hi2 Hs1 Hs2).
    cbn [tzinfo_from_isoformat_results]. unfold datetime_new.
    subst. rewrite Hd, Ht. reflexivity.
  - rewrite no_space_app, no_space_zero_pad_4 by lia. cbn [append no_space andb].
    rewrite no_space_app, no_space_zero_pad_2 by lia. cbn [append no_space andb].
    rewrite no_space_app, no_space_zero_pad_2 by lia. cbn [append no_space andb].
    rewrite no_space_app, no_space_zero_pad_2 by lia. cbn [append no_space andb].
    rewrite no_space_app, no_space_zero_pad_2 by lia. cbn [append no_space andb].
    rewrite no_space_zero_pad_2 by lia.
    reflexivity.
  - pose proof (zero_pad_4_spec y ltac:(lia)) as H4. unfold zero_pad_4_ok in H4.
    destruct (zero_pad 4 y); [discriminate|]. discriminate.
Qed.

(** X16. A timing written [YYYY-MM-DDTHH:MM:SS] with a date of the
    calendar and a time of the clock, alone or followed by white space and
    any annotation, is read as the naive date-time of these six fields. *)
Theorem timing_text_gives_its_fields y m d h mi s :
  check_date_args y m d = true -> check_time_args h mi s 0 = true ->
  parse_timing (PyStr (isoformat_text y m d h mi s))
  = inr (mkdatetime y m d h mi s 0 None)
  /\ forall c annotation,
      isspace c = true ->
      parse_timing (PyStr (isoformat_text y m d h mi s ++ String c annotation))
      = inr (mkdatetime y m d h mi s 0 None).
Proof.
  intros Hd Ht.
  destruct (fromisoformat_isoformat_text y m d h mi s Hd Ht) as (Hp & Hns & Hne).
  split.
  - unfold parse_timing. cbn [py_split bind ret].
    rewrite (split_single_token _ Hne Hns). exact Hp.
  - intros c annotation Hc. unfold parse_timing. cbn [py_split bind ret].
    rewrite (split_first_token _ _ _ Hne Hns Hc). exact Hp.
Qed.

Lemma timing_text_gives_its_fields_witness :
  parse_timing (PyStr (isoformat_text 2024 2 29 17 30 0))
  = inr (mkdatetime 2024 2 29 17 30 0 0 None)
  /\ forall c annotation,
      isspace c = true ->
      parse_timing (PyStr (isoformat_text 2024 2 29 17 30 0 ++ String c annotation))
      = inr (mkdatetime 2024 2 29 17 30 0 0 None).
Proof.
  apply timing_text_gives_its_fields; reflexivity.
Defined.


(** ** Timings that write their UTC offset *)

Lemma offset_in_microseconds (negative : bool) oh om :
  0 <= oh <= 23 -> 0 <= om <= 59 ->
  tzinfo_from_isoformat_results
    (Some ((if negative then -1 else 1) * (oh * 3600 + om * 60 + 0),
           (if negative then -1 else 1) * 0))
  = Some ((if negative then -1 else 1) * minutes (oh * 60 + om))
  /\ check_tzinfo (Some ((if negative then -1 else 1) * minutes (oh * 60 + om))) = true.
Proof.
  intros Hoh Hom. unfold tzinfo_from_isoformat_results, check_tzinfo, minutes,
    US_PER_DAY, US_PER_SECOND. split.
  - destruct (Z.eqb_spec ((if negative then -1 else 1) * (oh * 3600 + om * 60 + 0)) 0);
      f_equal; destruct negative; lia.
  - apply andb_true_iff. split; apply Z.ltb_lt; destruct negative; lia.
Qed.

Lemma fromisoformat_offset_text y m d h mi s negative oh om :
  check_date_args y m d = true -> check_time_args h mi s 0 = true ->
  0 <= oh <= 23 -> 0 <= om <= 59 ->
  fromisoformat (isoformat_text y m d h mi s ++ offset_text negative oh om)
  = inr (mkdatetime y m d h mi s 0
           (Some ((if negative then -1 else 1) * minutes (oh * 60 + om)))).
Proof.
  intros Hd Ht Hoh Hom.
  destruct (check_date_args_inv _ _ _ Hd) as (Hy & Hm & Hday).
  pose proof (days_in_month_le_31 y m) as H31.
  pose proof (time_ranges _ _ _ _ Ht) as Htr.
  destruct (offset_in_microseconds negative oh om Hoh Hom) as [Htz Hcheck].
  unfold isoformat_text, offset_text.
  destruct (zero_pad_4_chars y ltac:(lia))
    as (y1 & y2 & y3 & y4 & ? & ? & ? & ? & -> & Hy1 & Hy2 & Hy3 & Hy4 & Hyv).
  destruct (zero_pad_2_chars m ltac:(lia)) as (m1 & m2 & ? & ? & -> & Hm1 & Hm2 & Hmv).
  destruct (zero_pad_2_chars d ltac:(lia)) as (d1 & d2 & ? & ? & -> & Hd1 & Hd2 & Hdv).
  destruct (zero_pad_2_chars h ltac:(lia)) as (h1 & h2 & ? & ? & -> & Hh1 & Hh2 & Hhv).
  destruct (zero_pad_2_chars mi ltac:(lia)) as (i1 & i2 & ? & ? & -> & Hi1 & Hi2 & Hiv).
  destruct (zero_pad_2_chars s ltac:(lia)) as (s1 & s2 & ? & ? & -> & Hs1 & Hs2 & Hsv).
  destruct (zero_pad_2_chars oh ltac:(lia)) as (o1 & o2 & ? & ? & -> & Ho1 & Ho2 & Hov).
  destruct (zero_pad_2_chars om ltac:(lia)) as (p1 & p2 & ? & ? & -> & Hp1 & Hp2 & Hpv).
  cbn [append].
  rewrite (fromisoformat_extended _ _ _ _ _ _ _ _ _ _ _ _ _ _ _ _
             Hy1 Hy2 Hy3 Hy4 Hm1 Hm2 Hd1 Hd2)
    by (reflexivity
        || (destruct negative; cbn [append is_ascii]; step; reflexivity)).
  assert (Hlen : String.length
                   (String h1 (String h2 (String ":" (String i1 (String i2 (String ":"
                      (String s1 (String s2
                         ((if negative then "-" else "+")
                          ++ String o1 (String o2 (String ":"
                               (String p1 (String p2 "")))))))))))))
                 = 14%nat) by (destruct negative; reflexivity).
  rewrite Hlen. change (Z.of_nat 14) with 14.
  rewrite (parse_isoformat_time_offset _ _ _ _ _ _ _ _ _ _ _ _ _ _ _ _ _ _ _ _ negative
             Hh1 Hh2 Hi1 Hi2 Hs1 Hs2 Ho1 Ho2 Hp1 Hp2).
  rewrite Hyv, Hmv, Hdv, Hhv, Hiv, Hsv, Hov, Hpv, Htz.
  unfold datetime_new. rewrite Hd, Ht, Hcheck. reflexivity.
Qed.

Lemma drop_all n : forall s, (String.length s <= n)%nat -> drop n s = EmptyString.
Proof.
  induction n as [|n IH]; intros [|c s] H; cbn [drop String.length] in *;
    try reflexivity; [lia|apply IH; lia].
Qed.

Lemma find_tzinfo_marker p : forall pos,
  p <> EmptyString ->
  (has_tz_marker p = true ->
   find_tzinfo p pos (pos + Z.of_nat (String.length p)) < pos + Z.of_nat (String.length p))
  /\ (has_tz_marker p = false ->
      find_tzinfo p pos (pos + Z.of_nat (String.length p))
      = pos + Z.of_nat (String.length p)).
Proof.
  induction p as [|c p IH]; intros pos Hne; [congruence|].
  cbn [find_tzinfo has_tz_marker].
  destruct (is_tz_marker (code c)); cbn [orb].
  - split; [intros _; cbn [String.length]; lia|discriminate].
  - destruct p as [|c' p'].
    + cbn [has_tz_marker String.length].
      destruct (Z.ltb_spec (pos + 1) (pos + Z.of_nat 1)); [lia|].
      split; [discriminate|intros _; lia].
    + destruct (Z.ltb_spec (pos + 1)
                  (pos + Z.of_nat (String.length (String c (String c' p')))))
        as [_|H]; [|exfalso; cbn [String.length] in H; lia].
      destruct (IH (pos + 1) ltac:(discriminate)) as [IH1 IH2].
      replace (pos + Z.of_nat (String.length (String c (String c' p'))))
        with (pos + 1 + Z.of_nat (String.length (String c' p')))
        by (cbn [String.length]; lia).
      split; intros H; [apply IH1 in H|apply IH2 in H]; lia.
Qed.

Lemma parse_isoformat_time_tz p h mi s us tz :
  parse_isoformat_time p (Z.of_nat (String.length p)) = Some (h, mi, s, us, tz) ->
  (tz = None <-> has_tz_marker p = false).
Proof.
  destruct p as [|c p'] eqn:Hp; [intros H; vm_compute in H; discriminate|].
  rewrite <- Hp. assert (Hne : p <> EmptyString) by (rewrite Hp; discriminate).
  clear Hp. unfold parse_isoformat_time.
  destruct (find_tzinfo_marker p 0 Hne) as [Hsome Hnone].
  change (0 + Z.of_nat (String.length p)) with (Z.of_nat (String.length p)) in *.
  set (pos := find_tzinfo p 0 (Z.of_nat (String.length p))) in *.
  destruct (parse_hh_mm_ss_ff p pos) as [[[[[h0 mi0] s0] us0] more]|]; [|discriminate].
  destruct (has_tz_marker p).
  - specialize (Hsome eq_refl).
    destruct (Z.eqb_spec pos (Z.of_nat (String.length p))) as [|_]; [lia|].
    destruct (peek _ =? 90).
    + destruct (peek _ =? 0); [|discriminate].
      intros H; inversion H; subst. split; discriminate.
    + destruct (parse_hh_mm_ss_ff _ _) as [[[[[tzh tzm] tzs] tzus] [|]]|];
        try discriminate.
      intros H; inversion H; subst. split; discriminate.
  - rewrite (Hnone eq_refl), Z.eqb_refl. destruct more; [discriminate|].
    intros H; inversion H; subst. split; reflexivity.
Qed.

Lemma tzinfo_from_isoformat_results_none tz :
  tzinfo_from_isoformat_results tz = None <-> tz = None.
Proof.
  destruct tz as [[tzoffset tz_useconds]|]; cbn [tzinfo_from_isoformat_results].
  - destruct (tzoffset =? 0); split; discriminate.
  - split; reflexivity.
Qed.

Lemma fromisoformat_tzinfo token dt :
  fromisoformat token = inr dt ->
  (tzinfo dt = None <-> has_offset token = false).
Proof.
  unfold fromisoformat, has_offset, time_text.
  destruct (_ <? _)%nat; [discriminate|]. cbv zeta.
  set (dt_ptr := utf8 token). set (len := Z.of_nat (String.length dt_ptr)).
  set (loc := find_isoformat_datetime_separator dt_ptr len).
  destruct (parse_isoformat_date dt_ptr loc) as [[[y m] d]|]; [|discriminate].
  destruct (Z.ltb_spec loc len) as [Hlt|Hge].
  - set (p := drop _ (drop _ dt_ptr)).
    destruct (parse_isoformat_time p _) as [[[[[h mi] s] us] tz]|] eqn:Ht;
      [|discriminate].
    intros H. apply datetime_new_valid in H. destruct H as (_ & -> & _).
    rewrite tzinfo_from_isoformat_results_none.
    exact (parse_isoformat_time_tz _ _ _ _ _ _ Ht).
  - intros H. apply datetime_new_valid in H. destruct H as (_ & -> & _).
    rewrite (drop_all (Z.to_nat loc) dt_ptr) by (subst len; lia).
    rewrite drop_all by (cbn [String.length]; lia).
    split; reflexivity.
Qed.

(** C6, as amended. The parsing step keeps the text up to the first white
    space and drops the rest, such as a zone name in brackets; the token
    kept goes to [fromisoformat], here that of CPython 3.11, and the instant
    is naive exactly when the token writes no UTC offset, neither a sign nor
    a [Z] after its date and the separator: an offset such as [-08:00]
    after the seconds stays attached to the instant. *)
Theorem timing_keeps_first_token_and_its_offset :
  (forall token c rest,
      token <> EmptyString -> no_space token = true -> isspace c = true ->
      parse_timing (PyStr (token ++ String c rest)) = fromisoformat token)
  /\ (forall token,
         token <> EmptyString -> no_space token = true ->
         parse_timing (PyStr token) = fromisoformat token)
  /\ (forall token dt,
         fromisoformat token = inr dt ->
         (tzinfo dt = None <-> has_offset token = false))
  /\ (forall y m d h mi s negative oh om,
         check_date_args y m d = true -> check_time_args h mi s 0 = true ->
         0 <= oh <= 23 -> 0 <= om <= 59 ->
         fromisoformat (isoformat_text y m d h mi s ++ offset_text negative oh om)
         = inr (mkdatetime y m d h mi s 0
                  (Some ((if negative then -1 else 1) * minutes (oh * 60 + om))))).
Proof.
  split; [|split; [|split]].
  - intros token c rest Hne Hns Hc. unfold parse_timing. simpl.
    rewrite (split_first_token _ _ _ Hne Hns Hc). reflexivity.
  - intros token Hne Hns. unfold parse_timing. simpl.
    rewrite (split_single_token _ Hne Hns). reflexivity.
  - exact fromisoformat_tzinfo.
  - exact fromisoformat_offset_text.
Qed.

Lemma timing_keeps_first_token_and_its_offset_witness :
  parse_timing (PyStr ("2024-01-01T05:00:00" ++ String " " "(PST)"))
  = fromisoformat "2024-01-01T05:00:00"
  /\ parse_timing (PyStr "2024-01-01T05:00:00-08:00")
     = fromisoformat "2024-01-01T05:00:00-08:00"
  /\ (tzinfo (mkdatetime 2024 1 1 5 0 0 0 (Some 0)) = None
      <-> has_offset "2024-01-01T05:00:00Z" = false)
  /\ fromisoformat (isoformat_text 2024 1 1 5 0 0 ++ offset_text true 8 0)
     = inr (mkdatetime 2024 1 1 5 0 0 0 (Some (-1 * minutes (8 * 60 + 0)))).
Proof.
  destruct timing_keeps_first_token_and_its_offset as (H1 & H2 & H3 & H4).
  split; [|split; [|split]].
  - apply H1; [discriminate|reflexivity|reflexivity].
  - apply H2; [discriminate|reflexivity].
  - apply H3. vm_compute. reflexivity.
  - apply (H4 2024 1 1 5 0 0 true 8 0); [reflexivity|reflexivity|lia|lia].
Defined.

(** C6, as stated, fails on a timing that writes its UTC offset before the
    zone name: the name is dropped, the offset is kept, and the instant is
    aware. *)
Lemma timing_with_offset_is_not_naive :
  exists dt,
    parse_timing (PyStr "2024-01-01T05:00:00-08:00 (PST)") = inr dt
    /\ tzinfo dt = Some (-8 * 3600 * US_PER_SECOND)
    /\ tzinfo dt <> None.
Proof.
  exists (mkdatetime 2024 1 1 5 0 0 0 (Some (-28800000000))).
  split; [vm_compute; reflexivity|]. split; [reflexivity|discriminate].
Qed.

(** ** The exception of a malformed record *)

Lemma read_field_missing e field :
  field_missing e field -> read_field e field = inl KeyError.
Proof.
  unfold read_field, dict_getitem. intros [Hnone|(t & Ht & Hf)].
  - rewrite Hnone. reflexivity.
  - rewrite Ht. simpl. unfold dict_getitem. rewrite Hf. reflexivity.
Qed.

Lemma parse_timing_inl v x :
  parse_timing v = inl x -> In x [AttributeError; IndexError; ValueError].
Proof.
  unfold parse_timing. intros H.
  apply bind_inl in H. destruct H as [H|(parts & _ & H)].
  { destruct v as [s|d|]; simpl in H; inversion H; simpl; tauto. }
  apply bind_inl in H. destruct H as [H|(token & _ & H)].
  { unfold list_getitem in H. destruct (nth_error parts 0); [discriminate|].
    inversion H. simpl. tauto. }
  apply fromisoformat_inl in H. subst. simpl. tauto.
Qed.

Lemma read_field_unparsable e field :
  field_unparsable e field ->
  exists x, read_field e field = inl x /\ In x [AttributeError; IndexError; ValueError].
Proof.
  unfold read_field, dict_getitem. intros (t & v & Ht & Hf & Hp).
  rewrite Ht. simpl. unfold dict_getitem. rewrite Hf. simpl.
  destruct (parse_timing v) as [x|dt] eqn:Hv; [|exfalso; exact (Hp dt eq_refl)].
  exists x. split; [reflexivity|exact (parse_timing_inl _ _ Hv)].
Qed.

Lemma process_entries_inl cfg es : forall state x,
  process_entries cfg es state = inl x -> In x generator_exceptions.
Proof.
  induction es as [|e es IH]; intros state x H; [discriminate|].
  simpl in H. apply bind_inl in H. destruct H as [H|(state' & _ & H)].
  - exact (process_entry_inl _ _ _ _ H).
  - exact (IH _ _ H).
Qed.

Lemma convert_inl cfg es x :
  convert_entries_to_csv_lines cfg es = inl x -> In x generator_exceptions.
Proof.
  unfold convert_entries_to_csv_lines. intros H.
  apply bind_inl in H. destruct H as [H|(state & _ & H)];
    [exact (process_entries_inl _ _ _ _ H)|discriminate].
Qed.

Lemma process_entry_raises cfg state e before field after x :
  COPIED_FIELDS = (before ++ field :: after)%list ->
  Forall (fun f => exists t, read_field e f = inr t) before ->
  read_field e field = inl x ->
  process_entry cfg state e = inl x.
Proof.
  intros Hsplit Hok Hx. destruct state as [lines last].
  unfold process_entry, day_events.
  rewrite (copied_fields_split _ _ _ Hsplit).
  destruct (copy_fields_prefix e (combine before before) []
              (Forall_combine_self _ _ Hok)
              ((field, field) :: combine after after)) as [et' ->].
  cbn [copy_fields]. rewrite Hx. reflexivity.
Qed.

Lemma convert_raises_after cfg before_e e after_e lines x :
  convert_entries_to_csv_lines cfg before_e = inr lines ->
  (forall state, process_entry cfg state e = inl x) ->
  convert_entries_to_csv_lines cfg (before_e ++ e :: after_e) = inl x.
Proof.
  unfold convert_entries_to_csv_lines. intros Hrun He.
  rewrite process_entries_app.
  destruct (process_entries cfg before_e ([], None)) as [x0|state]; [discriminate|].
  cbn [bind process_entries]. rewrite He. reflexivity.
Qed.

(** C4, as amended. When a record of the sequence lacks one of the six
    fields, or holds for it a value that does not parse, the run raises an
    exception and returns no line at all.  The program defines no exception
    of its own: what is raised is one of six built-in exceptions, that of
    the first failure of the run.  When the records before the malformed one
    are processed and its fields before the bad one are read, it is a
    [KeyError] for a field that is missing, and an [AttributeError], an
    [IndexError] or a [ValueError] for a value that does not parse. *)
Theorem malformed_record_fails_the_run cfg es e field :
  In e es ->
  In field COPIED_FIELDS ->
  field_missing e field \/ field_unparsable e field ->
  (exists x,
      convert_entries_to_csv_lines cfg es = inl x /\ In x generator_exceptions)
  /\ (forall before_e after_e before after lines,
         es = (before_e ++ e :: after_e)%list ->
         convert_entries_to_csv_lines cfg before_e = inr lines ->
         COPIED_FIELDS = (before ++ field :: after)%list ->
         Forall (fun f => exists t, read_field e f = inr t) before ->
         (field_missing e field ->
          convert_entries_to_csv_lines cfg es = inl KeyError)
         /\ (field_unparsable e field ->
             exists x,
               convert_entries_to_csv_lines cfg es = inl x
               /\ In x [AttributeError; IndexError; ValueError])).
Proof.
  intros Hin Hfield Hbad. split.
  - destruct (malformed_field_raises e field Hbad) as [x Hx].
    assert (Hpair : In (field, field) (combine COPIED_FIELDS EVENT_NAMES)).
    { simpl in Hfield |- *.
      repeat (destruct Hfield as [<-|Hfield]; [tauto|]). contradiction. }
    assert (Hfail : forall state, exists x', process_entry cfg state e = inl x').
    { intros [lines last]. unfold process_entry, day_events.
      destruct (copy_fields_fails e _ field field x Hpair Hx []) as [x' Hx'].
      rewrite Hx'. exists x'. reflexivity. }
    destruct (process_entries_fails cfg e es Hin Hfail ([], None)) as [x' Hx'].
    assert (Hrun : convert_entries_to_csv_lines cfg es = inl x')
      by (unfold convert_entries_to_csv_lines; rewrite Hx'; reflexivity).
    exists x'. split; [exact Hrun|exact (convert_inl _ _ _ Hrun)].
  - intros before_e after_e before after lines -> Hrun Hsplit Hok. split.
    + intros Hmiss. apply (convert_raises_after cfg before_e e after_e lines _ Hrun).
      intros state.
      exact (process_entry_raises cfg state e before field after KeyError
               Hsplit Hok (read_field_missing e field Hmiss)).
    + intros Hun. destruct (read_field_unparsable e field Hun) as (x & Hx & Hkind).
      exists x. split; [|exact Hkind].
      apply (convert_raises_after cfg before_e e after_e lines _ Hrun).
      intros state.
      exact (process_entry_raises cfg state e before field after x Hsplit Hok Hx).
Qed.

Lemma malformed_record_fails_the_run_witness :
  (exists x,
      convert_entries_to_csv_lines default_config [day_1; day_2_without_asr] = inl x
      /\ In x generator_exceptions)
  /\ (forall before_e after_e before after lines,
         [day_1; day_2_without_asr] = (before_e ++ day_2_without_asr :: after_e)%list ->
         convert_entries_to_csv_lines default_config before_e = inr lines ->
         COPIED_FIELDS = (before ++ "Asr" :: after)%list ->
         Forall (fun f => exists t, read_field day_2_without_asr f = inr t) before ->
         (field_missing day_2_without_asr "Asr" ->
          convert_entries_to_csv_lines default_config [day_1; day_2_without_asr]
          = inl KeyError)
         /\ (field_unparsable day_2_without_asr "Asr" ->
             exists x,
               convert_entries_to_csv_lines default_config [day_1; day_2_without_asr]
               = inl x
               /\ In x [AttributeError; IndexError; ValueError])).
Proof.
  apply (malformed_record_fails_the_run default_config
           [day_1; day_2_without_asr] day_2_without_asr "Asr").
  - right. left. reflexivity.
  - simpl. tauto.
  - left. right. eexists. split; reflexivity.
Defined.

(** C4, as stated, fails: no exception named MalformedTimingError is
    raised, the program defining none.  A record without its Asr ends the run
    on a [KeyError], and one whose Asr is no date-time on a [ValueError],
    two built-in exceptions. *)
Lemma malformed_record_raises_a_built_in_exception :
  convert_entries_to_csv_lines default_config [day_1; day_2_without_asr]
  = inl KeyError
  /\ convert_entries_to_csv_lines default_config [day_1; day_2_with_bad_asr]
     = inl ValueError
  /\ KeyError <> ValueError.
Proof.
  split; [vm_compute; reflexivity|]. split; [vm_compute; reflexivity|discriminate].
Qed.
